(** * Privara HIDS backend ([server.py]): a shallow embedding and its properties

    The development follows the layout of [server.py]:
    - Python values as the server sees them (JSON data, numbers, floats);
    - the Khepri-ML risk scorer [compute_risk_and_verdict];
    - the configuration store [DEFAULT_CONFIG] and [validate_config];
    - the process state (configuration, log directory, pushed metrics,
      SQLite table) with the request handlers acting on it. *)

From stdpp Require Import gmap strings list fin_maps pretty.
From Stdlib Require Import Ascii QArith Qround.

#[local] Set Warnings "-register-all".
#[local] Open Scope Z_scope.

(** ** Python numbers *)

(** A Python [float].  Every finite binary64 value is a rational; the server
    only compares floats with integer literals, tests them for truth and
    truncates them with [int()], all of which are exact on rationals. *)
Inductive pyfloat :=
| Fin (q : Q)
| PosInf
| NegInf
| NaN.

(** A Python number as produced by psutil or by the JSON decoder. *)
Inductive num :=
| NInt (z : Z)
| NFloat (f : pyfloat).

(** [x < y] on rationals, by cross multiplication. *)
Definition Qlt_bool (x y : Q) : bool :=
  Qnum x * QDen y <? Qnum y * QDen x.

(** [x > c] for an integer literal [c]. *)
Definition float_gt (f : pyfloat) (c : Z) : bool :=
  match f with
  | Fin q => Qlt_bool (inject_Z c) q
  | PosInf => true
  | NegInf => false
  | NaN => false
  end.

(** [x < c] for an integer literal [c]. *)
Definition float_lt (f : pyfloat) (c : Z) : bool :=
  match f with
  | Fin q => Qlt_bool q (inject_Z c)
  | PosInf => false
  | NegInf => true
  | NaN => false
  end.

(** [bool(x)] of a float: only zero is false (NaN is true). *)
Definition float_truthy (f : pyfloat) : bool :=
  match f with
  | Fin q => negb (Qeq_bool q 0)
  | _ => true
  end.

Definition num_gt (x : num) (c : Z) : bool :=
  match x with
  | NInt z => bool_decide (c < z)
  | NFloat f => float_gt f c
  end.

Definition num_lt (x : num) (c : Z) : bool :=
  match x with
  | NInt z => bool_decide (z < c)
  | NFloat f => float_lt f c
  end.

Definition num_truthy (x : num) : bool :=
  match x with
  | NInt z => negb (z =? 0)
  | NFloat f => float_truthy f
  end.

(** The truth value of an optional number: [None] is false. *)
Definition opt_truthy (x : option num) : bool :=
  match x with
  | None => false
  | Some n => num_truthy n
  end.

(** ** Strings *)

(** A [str] is held as a [string] in which an ASCII character is one
    character and a character outside that range is one or more
    characters from 128 up, as in UTF-8: an ASCII text is a slice of the
    [str] exactly when it is a slice of the [string].  What else depends
    on the characters outside the range is left open below. *)

(** The ASCII range of [str.lower()]: the capitals [A]..[Z] move down by
    32, every other character of the range stays as it is. *)
Definition lower_ascii (c : ascii) : ascii :=
  let n := Ascii.N_of_ascii c in
  if ((65 <=? n)%N && (n <=? 90)%N)%bool then Ascii.ascii_of_N (n + 32) else c.

Fixpoint ascii_lower (s : string) : string :=
  match s with
  | EmptyString => EmptyString
  | String c s' => String (lower_ascii c) (ascii_lower s')
  end.

(** Every character of [s] is in the ASCII range. *)
Fixpoint is_ascii (s : string) : bool :=
  match s with
  | EmptyString => true
  | String c s' => (Ascii.N_of_ascii c <? 128)%N && is_ascii s'
  end.

(** [str.lower()].  Outside the ASCII range it follows the Unicode
    tables and the letters around (the Kelvin sign becomes [k], a capital
    sigma depends on its place in the word), which is left open: the
    results hold for any lowering that is [ascii_lower] on the strings
    of ASCII characters. *)
Class StrLower := {
  str_lower : string -> string;
  str_lower_ascii : forall s, is_ascii s = true -> str_lower s = ascii_lower s
}.

(** A lowering that leaves every character outside the ASCII range as it
    is, for concrete runs on ASCII names. *)
Definition ascii_only : StrLower :=
  {| str_lower := ascii_lower; str_lower_ascii := fun _ _ => eq_refl |}.

(** [k in s] for two strings: [k] is a contiguous slice of [s]. *)
Fixpoint py_in_str (k s : string) : bool :=
  String.prefix k s ||
  match s with
  | EmptyString => false
  | String _ s' => py_in_str k s'
  end.

(** ** Khepri-ML risk scoring *)

Module Risk.

Inductive verdict := Benign | Elevated | Suspicious | Critical.

Definition suspicious_keywords : list string :=
  ["miner"; "crypt"; "rat"; "remote"; "shell"; "powershell"; "cmd.exe";
   "nc.exe"; "keylog"; "exploit"].

Definition engine_id : string := "Khepri-ML v0.2".

Section WithLower.
Context {lowering : StrLower}.

(** [compute_risk_and_verdict(name, cpu, mem)].  psutil hands over [None]
    for a field it could not read, hence the optional arguments; [name or ""]
    and the truth tests [if cpu:] / [if mem:] are the source's guards. *)
Definition compute_risk_and_verdict
    (name : option string) (cpu mem : option num) : Z * verdict * string :=
  let score := 0 in
  let lower_name := str_lower (default EmptyString name) in
  let score :=
    if existsb (fun k => py_in_str k lower_name) suspicious_keywords
    then score + 40 else score in
  let score :=
    if opt_truthy cpu then
      match cpu with
      | Some c =>
          if num_gt c 80 then score + 40
          else if num_gt c 40 then score + 20
          else score
      | None => score
      end
    else score in
  let score :=
    if opt_truthy mem then
      match mem with
      | Some m => if num_gt m 20 then score + 20 else score
      | None => score
      end
    else score in
  let score := Z.min score 100 in
  let verdict :=
    if bool_decide (70 <= score) then Critical
    else if bool_decide (40 <= score) then Suspicious
    else if bool_decide (10 <= score) then Elevated
    else Benign in
  (score, verdict, engine_id).

End WithLower.

(** *** The scorer as the specification words it *)

(** The keyword set of the specification. *)
Definition reference_keywords : list string :=
  ["miner"; "crypt"; "rat"; "remote"; "shell"; "powershell"; "cmd.exe";
   "nc.exe"; "keylog"; "exploit"].

(** [big] is a capital letter of the ASCII range and [small] the same
    letter in lower case. *)
Definition small_of (big small : ascii) : bool :=
  let n := Ascii.N_of_ascii big in
  ((65 <=? n)%N && (n <=? 90)%N && (Ascii.N_of_ascii small =? n + 32)%N)%bool.

(** Two characters are the same letter up to case, or the same
    character. *)
Definition eq_ci (a b : ascii) : bool :=
  (Ascii.eqb a b || small_of a b || small_of b a)%bool.

(** [k] matches the beginning of [s], ignoring case. *)
Fixpoint prefix_ci (k s : string) : bool :=
  match k, s with
  | EmptyString, _ => true
  | String a k', String b s' => eq_ci a b && prefix_ci k' s'
  | String _ _, EmptyString => false
  end.

(** [k] occurs in [s] as a case-insensitive substring. *)
Fixpoint occurs_ci (k s : string) : bool :=
  prefix_ci k s ||
  match s with
  | EmptyString => false
  | String _ s' => occurs_ci k s'
  end.

(** [s] and what is left of it after dropping characters from the
    front. *)
Fixpoint tails (s : string) : list string :=
  s :: match s with
       | EmptyString => []
       | String _ s' => tails s'
       end.

(** [k] occurs in [s] as it stands: some tail of [s] starts with it. *)
Definition occurs (k s : string) : bool :=
  existsb (String.prefix k) (tails s).

(** The points of the name: a keyword of the set occurs in it as a
    case-insensitive substring. *)
Definition name_points (name : string) : Z :=
  if existsb (fun k => occurs_ci k name) reference_keywords then 40 else 0.

Definition cpu_points (cpu : num) : Z :=
  if num_gt cpu 80 then 40 else if num_gt cpu 40 then 20 else 0.

Definition mem_points (mem : num) : Z :=
  if num_gt mem 20 then 20 else 0.

Definition verdict_of (score : Z) : verdict :=
  if bool_decide (score >= 70) then Critical
  else if bool_decide (score >= 40) then Suspicious
  else if bool_decide (score >= 10) then Elevated
  else Benign.

(** The triple for a name worth [points]. *)
Definition reference_of (points : Z) (cpu mem : num) : Z * verdict * string :=
  let score := Z.min (points + cpu_points cpu + mem_points mem) 100 in
  (score, verdict_of score, engine_id).

Definition risk_reference (name : string) (cpu mem : num) : Z * verdict * string :=
  reference_of (name_points name) cpu mem.

(** The same for a name outside the ASCII range, where the case of a
    letter is what [str.lower()] makes of it: a keyword of the set occurs
    in the lowered name. *)
Definition lowered_points {lowering : StrLower} (name : string) : Z :=
  if existsb (fun k => occurs k (str_lower name)) reference_keywords
  then 40 else 0.

End Risk.

(** ** Python objects, exceptions and effects *)

(** The four section dictionaries held by [DEFAULT_CONFIG].  They are the
    only dict objects of the server that are both shared and written to. *)
Inductive section_id := Monitoring | Thresholds | Logging | Ui.

(** A Python object: JSON data as [request.json] and [json.load] deliver
    it, and [PSection sec], a reference to the dict object
    [DEFAULT_CONFIG[sec]].  All other objects are never written to after
    they are built, so they are modelled by their value. *)
Inductive pyobj :=
| PNone
| PBool (b : bool)
| PInt (z : Z)
| PFloat (f : pyfloat)
| PStr (s : string)
| PList (l : list pyobj)
| PDict (m : gmap string pyobj)
| PSection (sec : section_id).

Definition of_num (x : num) : pyobj :=
  match x with
  | NInt z => PInt z
  | NFloat f => PFloat f
  end.

(** An exception, that is an instance of [Exception], which is what the
    handlers [except Exception] catch: its class and its message. *)
Inductive exn := Exn (cls msg : string).

(** What SQLite and its Python binding do to a value on its way into a
    column, left open: the results hold for any reading of it.
    - [utf8_encodable s]: the [str] can be encoded as UTF-8, which one
      holding a lone surrogate cannot; the binding passes a [str] to
      SQLite by its UTF-8 bytes and raises when there are none;
    - [real_affinity v], [integer_affinity v]: what a column declared
      [REAL], [INTEGER] holds once [v] is stored in it; an integer
      stored in a [REAL] column is read back as a float, a NaN as
      [None], a text that reads as a number as that number. *)
Class Sqlite := {
  utf8_encodable : string -> bool;
  utf8_error : string -> string;       (* the message of the refusal *)
  real_affinity : pyobj -> pyobj;
  integer_affinity : pyobj -> pyobj
}.

(** A reading for concrete runs on ASCII text and on values that are not
    text. *)
Definition plain_real (v : pyobj) : pyobj :=
  match v with
  | PBool b => PFloat (Fin (if b then 1 else 0))
  | PInt z => PFloat (Fin (inject_Z z))
  | PFloat NaN => PNone
  | _ => v
  end.

Definition plain_integer (v : pyobj) : pyobj :=
  match v with
  | PBool b => PInt (if b then 1 else 0)
  | PFloat NaN => PNone
  | PFloat (Fin q) =>
      if (Qden (Qred q) =? 1)%positive then PInt (Qnum (Qred q)) else v
  | _ => v
  end.

Definition plain_sqlite : Sqlite :=
  {| utf8_encodable := is_ascii;
     utf8_error := fun _ => "surrogates not allowed";
     real_affinity := plain_real;
     integer_affinity := plain_integer |}.

Definition exn_str (e : exn) : string :=
  match e with Exn _ msg => msg end.

Definition TypeError : exn := Exn "TypeError" "unsupported operand type".
Definition ValueError : exn := Exn "ValueError" "invalid literal for int()".
Definition OverflowError : exn :=
  Exn "OverflowError" "cannot convert float infinity to integer".
Definition KeyError (k : string) : exn := Exn "KeyError" k.
Definition AttributeError : exn := Exn "AttributeError" "object has no attribute 'get'".

Inductive result (A : Type) :=
| Ok (a : A)
| Raise (e : exn).
Arguments Ok {A} a.
Arguments Raise {A} e.

(** A computation over a state [S] that returns or raises; what it wrote
    before raising stays written. *)
Definition M (S A : Type) : Type := S -> result A * S.

#[export] Instance M_ret {S} : MRet (M S) := fun A a s => (Ok a, s).

#[export] Instance M_bind {S} : MBind (M S) := fun A B f c s =>
  match c s with
  | (Ok a, s') => f a s'
  | (Raise e, s') => (Raise e, s')
  end.

#[export] Instance M_fmap {S} : FMap (M S) := fun A B f c s =>
  match c s with
  | (Ok a, s') => (Ok (f a), s')
  | (Raise e, s') => (Raise e, s')
  end.

Definition raise {S A} (e : exn) : M S A := fun s => (Raise e, s).
Definition gets {S A} (f : S -> A) : M S A := fun s => (Ok (f s), s).

(** A computation that only looks at the state. *)
Definition reading {S A} (g : S -> result A) : M S A := fun s => (g s, s).
Definition modify {S} (f : S -> S) : M S unit := fun s => (Ok tt, f s).

(** [try: c  except Exception as e: h e]. *)
Definition try_except {S A} (c : M S A) (h : exn -> M S A) : M S A := fun s =>
  match c s with
  | (Ok a, s') => (Ok a, s')
  | (Raise e, s') => h e s'
  end.

(** [a and b] on computations of truth values: [b] runs only if [a] holds. *)
Definition and_then {S} (a b : M S bool) : M S bool :=
  x ← a; if x : bool then b else mret false.

(** Run a computation on a component of the state. *)
Definition zoom {S T A} (proj : S -> T) (upd : T -> S -> S) (c : M T A) : M S A :=
  fun s => let '(r, t) := c (proj s) in (r, upd t s).

(** [c], run from [s], ends with a result and a state that satisfy [Q]. *)
Definition ends {S A} (c : M S A) (s : S) (Q : result A -> S -> Prop) : Prop :=
  Q (c s).1 (c s).2.

(** [c] keeps [P]: whether it returns or raises, [P] still holds after. *)
Definition keeps {S A} (P : S -> Prop) (c : M S A) : Prop :=
  forall s, P s -> P (c s).2.

(** ** Configuration management *)

(** The contents of the four section objects of [DEFAULT_CONFIG]. *)
Record sections := {
  monitoring : gmap string pyobj;
  thresholds : gmap string pyobj;
  logging : gmap string pyobj;
  ui : gmap string pyobj
}.

Definition section_get (sec : section_id) (st : sections) : gmap string pyobj :=
  match sec with
  | Monitoring => monitoring st
  | Thresholds => thresholds st
  | Logging => logging st
  | Ui => ui st
  end.

Definition section_set (sec : section_id) (m : gmap string pyobj) (st : sections)
  : sections :=
  match sec with
  | Monitoring => {| monitoring := m; thresholds := thresholds st;
                     logging := logging st; ui := ui st |}
  | Thresholds => {| monitoring := monitoring st; thresholds := m;
                     logging := logging st; ui := ui st |}
  | Logging => {| monitoring := monitoring st; thresholds := thresholds st;
                  logging := m; ui := ui st |}
  | Ui => {| monitoring := monitoring st; thresholds := thresholds st;
             logging := logging st; ui := m |}
  end.

(** The section objects as the module creates them. *)
Definition DEFAULT_SECTIONS : sections := {|
  monitoring := {[ "enabled" := PBool true; "interval_seconds" := PInt 10 ]};
  thresholds := {[ "cpu_alert" := PInt 80; "memory_alert" := PInt 85;
                   "disk_alert" := PInt 90 ]};
  logging := {[ "enabled" := PBool true; "retention_days" := PInt 90;
                "level" := PStr "INFO" ]};
  ui := {[ "theme" := PStr "Tech Noir"; "timezone" := PStr "GMT" ]}
|}.

(** The top-level dict [DEFAULT_CONFIG]: four keys, each bound to its
    section object.  Nothing ever writes to this dict itself. *)
Definition DEFAULT_CONFIG : pyobj :=
  PDict {[ "monitoring" := PSection Monitoring;
           "thresholds" := PSection Thresholds;
           "logging" := PSection Logging;
           "ui" := PSection Ui ]}.

(** [d.copy()]: a new dict with the same keys bound to the same objects. *)
Definition dict_copy (d : pyobj) : pyobj := d.

(** The conversion of a string by [int()], left open: the results below
    hold for any reading of numerals. *)
Class StrToInt := int_of_str : string -> option Z.

(** A reading of plain ASCII decimal numerals, for concrete runs. *)
Fixpoint digits_value (acc : Z) (s : string) : option Z :=
  match s with
  | EmptyString => Some acc
  | String c s' =>
      let n := Z.of_N (Ascii.N_of_ascii c) in
      if ((48 <=? n) && (n <=? 57))%bool
      then digits_value (10 * acc + (n - 48)) s'
      else None
  end.

Definition decimal_int : StrToInt := fun s =>
  match s with
  | EmptyString => None
  | String "-" s' =>
      match s' with
      | EmptyString => None
      | _ => Z.opp <$> digits_value 0 s'
      end
  | _ => digits_value 0 s
  end.

Module Config.
Section WithStrToInt.
Context {str_to_int : StrToInt}.

(** [isinstance(v, dict)]. *)
Definition is_dict (v : pyobj) : bool :=
  match v with
  | PDict _ | PSection _ => true
  | _ => false
  end.

(** The key-value contents of a dict object. *)
Definition dict_items (st : sections) (v : pyobj) : option (gmap string pyobj) :=
  match v with
  | PDict m => Some m
  | PSection sec => Some (section_get sec st)
  | _ => None
  end.

Definition is_str (k : string) (v : pyobj) : bool :=
  match v with
  | PStr s => bool_decide (s = k)
  | _ => false
  end.

(** [k in v] for a string [k]. *)
Definition py_contains (k : string) (v : pyobj) : M sections bool :=
  reading (fun st =>
    match v with
    | PDict m => Ok (bool_decide (is_Some (m !! k)))
    | PSection sec => Ok (bool_decide (is_Some (section_get sec st !! k)))
    | PList l => Ok (existsb (is_str k) l)
    | PStr s => Ok (py_in_str k s)
    | _ => Raise TypeError
    end).

(** [v[k]] for a string [k]. *)
Definition py_getitem (v : pyobj) (k : string) : M sections pyobj :=
  reading (fun st =>
    match dict_items st v with
    | Some m =>
        match m !! k with
        | Some x => Ok x
        | None => Raise (KeyError k)
        end
    | None => Raise TypeError
    end).

(** [v.get(k, dflt)]. *)
Definition dict_get (v : pyobj) (k : string) (dflt : pyobj) : M sections pyobj :=
  reading (fun st =>
    match dict_items st v with
    | Some m => Ok (default dflt (m !! k))
    | None => Raise AttributeError
    end).

(** [v[k] = x]: the only dicts written to are the shared sections. *)
Definition py_setitem (v : pyobj) (k : string) (x : pyobj) : M sections unit :=
  match v with
  | PSection sec => modify (fun st => section_set sec (<[k := x]> (section_get sec st)) st)
  | _ => raise TypeError
  end.

(** [v.update(other)]: the keys of [other] are written over those of [v]. *)
Definition dict_update (v other : pyobj) : M sections unit :=
  match v with
  | PSection sec =>
      o ← gets (fun st => dict_items st other);
      match o with
      | Some m => modify (fun st => section_set sec (m ∪ section_get sec st) st)
      | None => raise TypeError
      end
  | _ => raise AttributeError
  end.

(** [int(v)]: truncation toward zero for floats. *)
Definition int_of (v : pyobj) : result Z :=
  match v with
  | PBool b => Ok (if b then 1 else 0)
  | PInt z => Ok z
  | PFloat (Fin q) => Ok (Z.quot (Qnum q) (QDen q))
  | PFloat NaN => Raise ValueError
  | PFloat _ => Raise OverflowError
  | PStr s =>
      match int_of_str s with
      | Some z => Ok z
      | None => Raise ValueError
      end
  | _ => Raise TypeError
  end.

Definition py_int (v : pyobj) : M sections Z := reading (fun _ => int_of v).

(** The objects that order against an [int]; [bool] is an [int]. *)
Definition as_number (v : pyobj) : option num :=
  match v with
  | PBool b => Some (NInt (if b then 1 else 0))
  | PInt z => Some (NInt z)
  | PFloat f => Some (NFloat f)
  | _ => None
  end.

(** [v < c] and [v > c] for an integer literal [c]. *)
Definition py_lt (v : pyobj) (c : Z) : M sections bool :=
  reading (fun _ =>
    match as_number v with
    | Some n => Ok (num_lt n c)
    | None => Raise TypeError
    end).

Definition py_gt (v : pyobj) (c : Z) : M sections bool :=
  reading (fun _ =>
    match as_number v with
    | Some n => Ok (num_gt n c)
    | None => Raise TypeError
    end).

(** [min(c, v)] and [max(c, v)]: the first argument is kept unless the second
    is strictly smaller (larger). *)
Definition py_min (c : Z) (v : pyobj) : M sections pyobj :=
  b ← py_lt v c; mret (if b : bool then v else PInt c).

Definition py_max (c : Z) (v : pyobj) : M sections pyobj :=
  b ← py_gt v c; mret (if b : bool then v else PInt c).

(** One round of the loop over the threshold keys. *)
Definition validate_threshold (config validated : pyobj) (key : string)
  : M sections unit :=
  th ← py_getitem config "thresholds";
  b ← py_contains key th;
  if b : bool then
    th ← py_getitem config "thresholds";
    value ← py_getitem th key;
    z ← py_int value;
    tgt ← py_getitem validated "thresholds";
    py_setitem tgt key (PInt (Z.max 0 (Z.min 100 z)))
  else mret tt.

Definition validate_monitoring (config validated : pyobj) : M sections unit :=
  c ← and_then (py_contains "monitoring" config)
        (is_dict <$> py_getitem config "monitoring");
  if c : bool then
    src ← py_getitem config "monitoring";
    enabled ← dict_get src "enabled" (PBool true);
    tgt ← py_getitem validated "monitoring";
    py_setitem tgt "enabled" enabled;;
    src ← py_getitem config "monitoring";
    interval ← dict_get src "interval_seconds" (PInt 10);
    lo ← py_min 3600 interval;
    v ← py_max 1 lo;
    tgt ← py_getitem validated "monitoring";
    py_setitem tgt "interval_seconds" v
  else mret tt.

Definition validate_thresholds (config validated : pyobj) : M sections unit :=
  c ← and_then (py_contains "thresholds" config)
        (is_dict <$> py_getitem config "thresholds");
  if c : bool then
    validate_threshold config validated "cpu_alert";;
    validate_threshold config validated "memory_alert";;
    validate_threshold config validated "disk_alert"
  else mret tt.

Definition validate_logging (config validated : pyobj) : M sections unit :=
  c ← and_then (py_contains "logging" config)
        (is_dict <$> py_getitem config "logging");
  if c : bool then
    src ← py_getitem config "logging";
    enabled ← dict_get src "enabled" (PBool true);
    tgt ← py_getitem validated "logging";
    py_setitem tgt "enabled" enabled;;
    src ← py_getitem config "logging";
    retention ← dict_get src "retention_days" (PInt 90);
    z ← py_int retention;
    tgt ← py_getitem validated "logging";
    py_setitem tgt "retention_days" (PInt (Z.max 1 (Z.min 365 z)));;
    src ← py_getitem config "logging";
    level ← dict_get src "level" (PStr "INFO");
    tgt ← py_getitem validated "logging";
    py_setitem tgt "level" level
  else mret tt.

Definition validate_ui (config validated : pyobj) : M sections unit :=
  c ← and_then (py_contains "ui" config)
        (is_dict <$> py_getitem config "ui");
  if c : bool then
    tgt ← py_getitem validated "ui";
    src ← py_getitem config "ui";
    dict_update tgt src
  else mret tt.

(** [validate_config(config)]. *)
Definition validate_config (config : pyobj) : M sections pyobj :=
  let validated := dict_copy DEFAULT_CONFIG in
  validate_monitoring config validated;;
  validate_thresholds config validated;;
  validate_logging config validated;;
  validate_ui config validated;;
  mret validated.

(** [cfg[sec][key]], read through the section objects. *)
Definition config_field (st : sections) (cfg : pyobj) (sec key : string)
  : option pyobj :=
  match cfg with
  | PDict m => s ← m !! sec; items ← dict_items st s; items !! key
  | _ => None
  end.

(** *** What holds of the section objects at all times *)

(** [m] binds [k] to a value passing [test]. *)
Definition field_ok (test : pyobj -> bool) (m : gmap string pyobj) (k : string)
  : bool :=
  match m !! k with
  | Some v => test v
  | None => false
  end.

Definition any_value (v : pyobj) : bool := true.

Definition int_between (lo hi : Z) (v : pyobj) : bool :=
  match v with
  | PInt z => bool_decide (lo <= z <= hi)
  | _ => false
  end.

(** What [max(1, min(3600, interval))] can leave behind: an [int] from 1 to
    3600 or a float strictly between. *)
Definition interval_ok (v : pyobj) : bool :=
  match v with
  | PInt z => bool_decide (1 <= z <= 3600)
  | PFloat (Fin q) => Qlt_bool (inject_Z 1) q && Qlt_bool q (inject_Z 3600)
  | _ => false
  end.

Definition sections_ok (st : sections) : bool :=
  field_ok any_value (monitoring st) "enabled"
  && field_ok interval_ok (monitoring st) "interval_seconds"
  && field_ok (int_between 0 100) (thresholds st) "cpu_alert"
  && field_ok (int_between 0 100) (thresholds st) "memory_alert"
  && field_ok (int_between 0 100) (thresholds st) "disk_alert"
  && field_ok any_value (logging st) "enabled"
  && field_ok (int_between 1 365) (logging st) "retention_days"
  && field_ok any_value (logging st) "level".

(** A write [sections[sec][k] = v] that respects [sections_ok]. *)
Definition write_ok (sec : section_id) (k : string) (v : pyobj) : bool :=
  match sec with
  | Monitoring =>
      if decide (k = "interval_seconds") then interval_ok v else true
  | Thresholds =>
      if decide (k = "cpu_alert" ∨ k = "memory_alert" ∨ k = "disk_alert")
      then int_between 0 100 v else true
  | Logging =>
      if decide (k = "retention_days") then int_between 1 365 v else true
  | Ui => true
  end.

(** *** The bounds of the specification *)

(** A number from [lo] to [hi], ends included. *)
Definition in_bounds (lo hi : Z) (v : pyobj) : bool :=
  match v with
  | PInt z => bool_decide (lo <= z <= hi)
  | PFloat (Fin q) => Qle_bool (inject_Z lo) q && Qle_bool q (inject_Z hi)
  | _ => false
  end.

Definition has_section (st : sections) (cfg : pyobj) (sec : string) : bool :=
  match cfg with
  | PDict m =>
      match m !! sec with
      | Some v => bool_decide (is_Some (dict_items st v))
      | None => false
      end
  | _ => false
  end.

Definition field_in_bounds (lo hi : Z) (st : sections) (cfg : pyobj)
    (sec key : string) : bool :=
  match config_field st cfg sec key with
  | Some v => in_bounds lo hi v
  | None => false
  end.

(** All four sections are there and every bounded value is within bounds. *)
Definition populated_in_bounds (st : sections) (cfg : pyobj) : bool :=
  has_section st cfg "monitoring" && has_section st cfg "thresholds"
  && has_section st cfg "logging" && has_section st cfg "ui"
  && field_in_bounds 1 3600 st cfg "monitoring" "interval_seconds"
  && field_in_bounds 0 100 st cfg "thresholds" "cpu_alert"
  && field_in_bounds 0 100 st cfg "thresholds" "memory_alert"
  && field_in_bounds 0 100 st cfg "thresholds" "disk_alert"
  && field_in_bounds 1 365 st cfg "logging" "retention_days".

(** [validate_config raw] returns, and what it returns is populated and
    within bounds. *)
Definition returns_in_bounds (raw : pyobj) (st : sections) : Prop :=
  exists cfg st',
    validate_config raw st = (Ok cfg, st')
    /\ populated_in_bounds st' cfg = true.

(** *** Type-correct raw input *)

Definition is_number (v : pyobj) : bool :=
  match as_number v with Some _ => true | None => false end.

Definition int_able (v : pyobj) : bool :=
  match int_of v with Ok _ => true | Raise _ => false end.

Definition absent_or (test : pyobj -> bool) (m : gmap string pyobj) (k : string)
  : bool :=
  match m !! k with
  | Some v => test v
  | None => true
  end.

(** A section of the raw input passes when it is missing, is no dict (it is
    then left aside), or is a dict literal whose fields pass [test]. *)
Definition section_typed (test : gmap string pyobj -> bool)
    (m : gmap string pyobj) (sec : string) : bool :=
  match m !! sec with
  | Some (PDict d) => test d
  | Some (PSection _) => false
  | _ => true
  end.

(** A mapping decoded from JSON whose recognised numeric fields have a
    type the validator can take: a number for the interval, anything
    [int()] converts for the thresholds and the retention. *)
Definition well_typed (raw : pyobj) : bool :=
  match raw with
  | PDict m =>
      section_typed (fun d => absent_or is_number d "interval_seconds") m "monitoring"
      && section_typed (fun d => absent_or int_able d "cpu_alert"
                                 && absent_or int_able d "memory_alert"
                                 && absent_or int_able d "disk_alert") m "thresholds"
      && section_typed (fun d => absent_or int_able d "retention_days") m "logging"
      && section_typed (fun _ => true) m "ui"
  | _ => false
  end.

(** No section of the raw input is one of the shared section objects:
    what [request.json] and [json.load] deliver never is. *)
Definition no_section_object (raw : pyobj) : bool :=
  match raw with
  | PDict m =>
      forallb (fun sec =>
                 match m !! sec with
                 | Some (PSection _) => false
                 | _ => true
                 end)
        ["monitoring"; "thresholds"; "logging"; "ui"]
  | _ => true
  end.

End WithStrToInt.
End Config.

(** ** The server process *)

(** One entry of a log file, [[timestamp] [level] message]: what one
    call of [write_log] writes; the objects a message interpolates are
    kept beside its text. *)
Record log_line := {
  ll_time : Z;
  ll_level : string;
  ll_text : string;
  ll_args : list pyobj
}.

(** A file of [LOG_DIR] matching [privara_*.log]; [lf_locked] files cannot
    be unlinked (the call raises). *)
Record log_file := {
  lf_mtime : Z;
  lf_lines : list log_line;
  lf_locked : bool
}.

(** A row of the table [system_metrics]; rows are kept in insertion order,
    which is the order of the AUTOINCREMENT [id].  The values are the
    ones the columns hold, after the conversions of their affinity, and
    [ts] is the text [current_timestamp] gave when the row was
    inserted. *)
Record metric_row := {
  mr_ts : string;
  mr_cpu_percent : pyobj;
  mr_memory_percent : pyobj;
  mr_disk_io_mbps : pyobj;
  mr_process_count : pyobj
}.

(** What [p.info] holds for one process. *)
Record proc_info := {
  pi_pid : Z;
  pi_name : option string;
  pi_cpu_percent : option num;
  pi_memory_percent : option num
}.

(** The dict built by a sampler. *)
Record sys_info := {
  os : string;
  cpu_percent : num;
  memory_percent : num;
  memory_available_mb : num;
  disk_io : num;
  disk_io_write : num
}.

(** What the surroundings answer during one request: the platform flags
    fixed at import, the clock (one reading per request), psutil, the
    random generator, the file system, SQLite and the query string of the
    request. *)
Record env := {
  IS_MANJARO : bool;
  IS_WINDOWS : bool;
  platform_release : string;
  now : Z;                                   (* datetime.now(), in seconds *)
  today : string;                            (* its rendering by %Y%m%d *)
  current_timestamp : string;                (* SQLite's, YYYY-MM-DD HH:MM:SS *)
  virtual_memory : result (num * Z);         (* percent, available bytes *)
  disk_io_counters : result (option (Z * Z)); (* read_bytes, write_bytes *)
  psutil_cpu_percent : result num;
  process_iter : list (result proc_info);
  random : nat -> Q;                         (* successive random.random() *)
  log_dir_writable : bool;
  config_writable : bool;
  db_reachable : bool;
  request_args : gmap string string
}.

(** The state that outlives a request. *)
Record world := {
  default_sections : sections;
  CONFIG : pyobj;
  LOG_DIR : gmap string log_file;           (* the files privara_*.log, by name *)
  config_file : option pyobj;
  javafx_metrics : pyobj;
  system_metrics : option (list metric_row);
  stdout : list string
}.

Definition set_default_sections (x : sections) (w : world) : world :=
  {| default_sections := x; CONFIG := CONFIG w; LOG_DIR := LOG_DIR w;
     config_file := config_file w; javafx_metrics := javafx_metrics w;
     system_metrics := system_metrics w; stdout := stdout w |}.

Definition set_CONFIG (x : pyobj) (w : world) : world :=
  {| default_sections := default_sections w; CONFIG := x; LOG_DIR := LOG_DIR w;
     config_file := config_file w; javafx_metrics := javafx_metrics w;
     system_metrics := system_metrics w; stdout := stdout w |}.

Definition set_LOG_DIR (x : gmap string log_file) (w : world) : world :=
  {| default_sections := default_sections w; CONFIG := CONFIG w; LOG_DIR := x;
     config_file := config_file w; javafx_metrics := javafx_metrics w;
     system_metrics := system_metrics w; stdout := stdout w |}.

Definition set_config_file (x : option pyobj) (w : world) : world :=
  {| default_sections := default_sections w; CONFIG := CONFIG w;
     LOG_DIR := LOG_DIR w; config_file := x;
     javafx_metrics := javafx_metrics w;
     system_metrics := system_metrics w; stdout := stdout w |}.

Definition set_javafx_metrics (x : pyobj) (w : world) : world :=
  {| default_sections := default_sections w; CONFIG := CONFIG w;
     LOG_DIR := LOG_DIR w; config_file := config_file w; javafx_metrics := x;
     system_metrics := system_metrics w; stdout := stdout w |}.

Definition set_system_metrics (x : option (list metric_row)) (w : world) : world :=
  {| default_sections := default_sections w; CONFIG := CONFIG w;
     LOG_DIR := LOG_DIR w; config_file := config_file w;
     javafx_metrics := javafx_metrics w; system_metrics := x;
     stdout := stdout w |}.

Definition set_stdout (x : list string) (w : world) : world :=
  {| default_sections := default_sections w; CONFIG := CONFIG w;
     LOG_DIR := LOG_DIR w; config_file := config_file w;
     javafx_metrics := javafx_metrics w; system_metrics := system_metrics w;
     stdout := x |}.

(** The process right after import, with no config file on disk:
    [CONFIG = DEFAULT_CONFIG.copy()], [javafx_metrics = {}]. *)
Definition initial_world (logs : gmap string log_file) : world := {|
  default_sections := DEFAULT_SECTIONS;
  CONFIG := dict_copy DEFAULT_CONFIG;
  LOG_DIR := logs;
  config_file := None;
  javafx_metrics := PDict ∅;
  system_metrics := None;
  stdout := []
|}.

(** An HTTP answer: status code and JSON body. *)
Record response := { status : Z; body : pyobj }.

Definition OSError (msg : string) : exn := Exn "OSError" msg.
Definition OperationalError (msg : string) : exn := Exn "sqlite3.OperationalError" msg.
Definition InterfaceError : exn :=
  Exn "sqlite3.InterfaceError" "Error binding parameter - probably unsupported type.".

Module Server.
Section WithStrToInt.
Context {str_to_int : StrToInt} {lowering : StrLower} {sqlite : Sqlite}.

(** Operations on Python objects read the section objects of the process. *)
Definition on_sections {A} (c : M sections A) : M world A :=
  zoom default_sections set_default_sections c.

Definition lift_result {S A} (r : result A) : M S A := fun s => (r, s).

Fixpoint for_each {S A} (l : list A) (body : A -> M S unit) : M S unit :=
  match l with
  | [] => mret tt
  | x :: l' => body x;; for_each l' body
  end.

Definition print (line : string) : M world unit :=
  modify (fun w => set_stdout (stdout w ++ [line]) w).

(** [bool(v)]. *)
Definition truthy (st : sections) (v : pyobj) : bool :=
  match v with
  | PNone => false
  | PBool b => b
  | PInt z => negb (z =? 0)
  | PFloat f => float_truthy f
  | PStr s => negb (bool_decide (s = EmptyString))
  | PList l => negb (bool_decide (l = []))
  | PDict m => negb (bool_decide (m = ∅))
  | PSection sec => negb (bool_decide (section_get sec st = ∅))
  end.

Definition py_truthy (v : pyobj) : M sections bool :=
  reading (fun st => Ok (truthy st v)).

(** *** GDPR-compliant logging *)

(** [log_file.unlink()]. *)
Definition unlink (name : string) : M world unit :=
  files ← gets LOG_DIR;
  match files !! name with
  | None => raise (OSError "No such file or directory")
  | Some f =>
      if lf_locked f then raise (OSError "Permission denied")
      else modify (fun w => set_LOG_DIR (delete name (LOG_DIR w)) w)
  end.

(** [LOG_DIR.glob("privara_*.log")]: the files, in directory order. *)
Definition glob_logs : M world (list (string * log_file)) :=
  gets (fun w => map_to_list (LOG_DIR w)).

(** [datetime.now().timestamp() - retention_days * 86400]. *)
Definition retention_cutoff (t : Z) (retention_days : pyobj) : M world pyfloat :=
  match retention_days with
  | PBool b => mret (Fin (inject_Z (t - (if b then 1 else 0) * 86400)))
  | PInt z => mret (Fin (inject_Z (t - z * 86400)))
  | PFloat (Fin q) => mret (Fin (inject_Z t - q * inject_Z 86400))
  | PFloat PosInf => mret NegInf
  | PFloat NegInf => mret PosInf
  | PFloat NaN => mret NaN
  | _ => raise TypeError
  end.

Definition cleanup_old_logs (h : env) : M world unit :=
  cfg ← gets CONFIG;
  logging ← on_sections (Config.py_getitem cfg "logging");
  retention_days ← on_sections (Config.py_getitem logging "retention_days");
  cutoff ← retention_cutoff (now h) retention_days;
  files ← glob_logs;
  for_each files (fun log_file =>
    try_except
      (if float_gt cutoff (lf_mtime log_file.2)
       then unlink log_file.1 else mret tt)
      (fun e => print ("Log cleanup error: " +:+ exn_str e))).

Definition today_log (h : env) : string := "privara_" +:+ today h +:+ ".log".

(** [with open(log_file, 'a') as f: f.write(line)]: the file is created
    when it is not there. *)
Definition append_line (h : env) (line : log_line) : M world unit :=
  if log_dir_writable h then
    modify (fun w =>
      let old := LOG_DIR w !! today_log h in
      set_LOG_DIR
        (<[today_log h :=
             {| lf_mtime := now h;
                lf_lines := from_option lf_lines [] old ++ [line];
                lf_locked := from_option lf_locked false old |}]> (LOG_DIR w)) w)
  else raise (OSError "Permission denied").

(** [write_log(level, message)]; [args] are the objects the message shows. *)
Definition write_log (h : env) (level text : string) (args : list pyobj)
  : M world unit :=
  cfg ← gets CONFIG;
  logging ← on_sections (Config.py_getitem cfg "logging");
  enabled ← on_sections (Config.py_getitem logging "enabled");
  on ← on_sections (py_truthy enabled);
  if negb on then mret tt
  else
    try_except
      (append_line h {| ll_time := now h; ll_level := level;
                        ll_text := text; ll_args := args |};;
       cleanup_old_logs h)
      (fun e => print ("Log write error: " +:+ exn_str e)).

(** *** OS-compatible system readings *)

(** [random.uniform(a, b)], that is [a + (b - a) * random()], computed on
    rationals; rounding to binary64 is monotone and the ends are floats, so
    it keeps the value between them. *)
Definition uniform (a b : Z) (r : Q) : num :=
  NFloat (Fin (inject_Z a + (inject_Z b - inject_Z a) * r)).

Definition get_fake_info (h : env) : sys_info := {|
  os := "Simulated (Fallback)";
  cpu_percent := uniform 5 35 (random h 0%nat);
  memory_percent := uniform 40 70 (random h 1%nat);
  memory_available_mb := uniform 2000 8000 (random h 2%nat);
  disk_io := uniform 10 100 (random h 3%nat);
  disk_io_write := uniform 5 50 (random h 4%nat)
|}.

(** [bytes / (1024**2)]. *)
Definition to_mb (bytes : Z) : num :=
  NFloat (Fin (inject_Z bytes / inject_Z (1024 ^ 2))).

(** The body the three native samplers share. *)
Definition read_psutil (h : env) (os_name : string) : M world sys_info :=
  vm ← lift_result (virtual_memory h);
  disk ← lift_result (disk_io_counters h);
  cpu ← lift_result (psutil_cpu_percent h);
  mret {| os := os_name;
          cpu_percent := cpu;
          memory_percent := vm.1;
          memory_available_mb := to_mb vm.2;
          disk_io := match disk with Some d => to_mb d.1 | None => NInt 0 end;
          disk_io_write := match disk with Some d => to_mb d.2 | None => NInt 0 end |}.

Definition get_manjaro_info (h : env) : M world sys_info :=
  try_except (read_psutil h "Manjaro Linux")
    (fun e =>
       write_log h "ERROR" ("Manjaro info read failed: " +:+ exn_str e) [];;
       mret (get_fake_info h)).

Definition get_windows_info (h : env) : M world sys_info :=
  try_except (read_psutil h "Windows 11")
    (fun e =>
       write_log h "ERROR" ("Windows info read failed: " +:+ exn_str e) [];;
       mret (get_fake_info h)).

Definition get_linux_generic_info (h : env) : M world sys_info :=
  try_except (read_psutil h ("Linux (" +:+ platform_release h +:+ ")"))
    (fun e =>
       write_log h "ERROR" ("Linux info read failed: " +:+ exn_str e) [];;
       mret (get_fake_info h)).

Definition get_system_info (h : env) : M world sys_info :=
  try_except
    (if IS_MANJARO h then get_manjaro_info h
     else if IS_WINDOWS h then get_windows_info h
     else get_linux_generic_info h)
    (fun e =>
       write_log h "ERROR" ("System reading failed: " +:+ exn_str e) [];;
       mret (get_fake_info h)).

(** [jsonify(info)] for a sampler's dict. *)
Definition jsonify_info (info : sys_info) : pyobj :=
  PDict {[ "os" := PStr (os info);
           "cpu_percent" := of_num (cpu_percent info);
           "memory_percent" := of_num (memory_percent info);
           "memory_available_mb" := of_num (memory_available_mb info);
           "disk_io" := of_num (disk_io info);
           "disk_io_write" := of_num (disk_io_write info) ]}.

(** *** API routes *)

Definition ok_response (v : pyobj) : response := {| status := 200; body := v |}.

Definition status_message (code : Z) (st msg : string) : response :=
  {| status := code;
     body := PDict {[ "status" := PStr st; "message" := PStr msg ]} |}.

Definition verdict_str (v : Risk.verdict) : string :=
  match v with
  | Risk.Critical => "Critical"
  | Risk.Suspicious => "Suspicious"
  | Risk.Elevated => "Elevated"
  | Risk.Benign => "Benign"
  end.

(** [if info['name']:]. *)
Definition has_name (info : proc_info) : bool :=
  match pi_name info with
  | Some s => negb (bool_decide (s = EmptyString))
  | None => false
  end.

(** [x or 0]. *)
Definition or_zero (x : option num) : num :=
  match x with
  | Some n => if num_truthy n then n else NInt 0
  | None => NInt 0
  end.

(** The dict appended to [procs] for one process. *)
Definition proc_entry (info : proc_info) : pyobj :=
  let '(risk_score, verdict, agent) :=
    Risk.compute_risk_and_verdict
      (pi_name info) (pi_cpu_percent info) (pi_memory_percent info) in
  PDict {[ "pid" := PInt (pi_pid info);
           "name" := PStr (default EmptyString (pi_name info));
           "cpu" := of_num (or_zero (pi_cpu_percent info));
           "mem" := of_num (or_zero (pi_memory_percent info));
           "risk_score" := PInt risk_score;
           "verdict" := PStr (verdict_str verdict);
           "agent" := PStr agent ]}.

(** The loop over [psutil.process_iter(...)]: every element of the list is
    what the iterator does when asked for its next process, yield its
    [info] or raise.  The loop stops at the first exception; [procs], a
    local list, keeps what was appended before it. *)
Fixpoint enumerate (steps : list (result proc_info)) (procs : list pyobj)
  : list pyobj * option exn :=
  match steps with
  | [] => (procs, None)
  | Raise e :: _ => (procs, Some e)
  | Ok info :: rest =>
      enumerate rest (if has_name info then procs ++ [proc_entry info] else procs)
  end.

Definition api_processes (h : env) : M world response :=
  let '(procs, failure) := enumerate (process_iter h) [] in
  match failure with
  | Some e => write_log h "ERROR" ("Process enumeration failed: " +:+ exn_str e) []
  | None => mret tt
  end;;
  mret (ok_response (PList procs)).

(** [save_config(config)]. *)
Definition save_config (h : env) (config : pyobj) : M world bool :=
  try_except
    ((if config_writable h
      then modify (fun w => set_config_file (Some config) w)
      else raise (OSError "Permission denied"));;
     write_log h "INFO" "Configuration saved" [];;
     mret true)
    (fun e =>
       write_log h "ERROR" ("Config save failed: " +:+ exn_str e) [];;
       mret false).

(** [POST /api/config]. *)
Definition api_config_post (h : env) (new_config : pyobj) : M world response :=
  try_except
    (cfg ← on_sections (Config.validate_config new_config);
     modify (set_CONFIG cfg);;
     saved ← save_config h cfg;
     if saved : bool then
       write_log h "INFO" "Configuration updated via API" [];;
       mret {| status := 200;
               body := PDict {[ "status" := PStr "ok"; "config" := cfg ]} |}
     else mret (status_message 500 "error" "Failed to save config"))
    (fun e =>
       write_log h "ERROR" ("Config update failed: " +:+ exn_str e) [];;
       mret (status_message 400 "error" (exn_str e))).

(** The loop of [api_delete_logs]: unlink every file, counting. *)
Fixpoint unlink_all (files : list (string * log_file)) (deleted_count : nat)
  : M world nat :=
  match files with
  | [] => mret deleted_count
  | log_file :: rest => unlink log_file.1;; unlink_all rest (S deleted_count)
  end.

(** [POST /api/logs/delete]. *)
Definition api_delete_logs (h : env) : M world response :=
  try_except
    (files ← glob_logs;
     deleted_count ← unlink_all files 0%nat;
     write_log h "WARNING"
       ("All " +:+ pretty deleted_count
        +:+ " logs deleted via user request (GDPR Right to be Forgotten)") [];;
     mret (status_message 200 "ok"
             ("Deleted " +:+ pretty deleted_count +:+ " log files")))
    (fun e => mret (status_message 500 "error" (exn_str e))).

(** *** JavaFX system monitor integration *)

Definition required_fields : list string :=
  ["cpu_percent"; "memory_percent"; "timestamp"].

(** [all(field in metrics for field in fields)]. *)
Fixpoint all_in (fields : list string) (metrics : pyobj) : M sections bool :=
  match fields with
  | [] => mret true
  | field :: rest =>
      b ← Config.py_contains field metrics;
      if b : bool then all_in rest metrics else mret false
  end.

(** [sqlite3.connect(DB_PATH)]. *)
Definition connect (h : env) : M world unit :=
  if db_reachable h then mret tt
  else raise (OperationalError "unable to open database file").

(** Binding a value to a [?] of a statement: SQLite takes [None], integers
    of 64 bits, floats and the strings that have a UTF-8 encoding. *)
Definition sql_bind (v : pyobj) : M world pyobj :=
  match v with
  | PNone | PBool _ | PFloat _ => mret v
  | PStr s =>
      if utf8_encodable s then mret v
      else raise (Exn "UnicodeEncodeError" (utf8_error s))
  | PInt z =>
      if bool_decide (- 2 ^ 63 <= z < 2 ^ 63) then mret v
      else raise (Exn "OverflowError" "Python int too large to convert to SQLite INTEGER")
  | _ => raise InterfaceError
  end.

(** [POST /api/system-update], [metrics = request.json]. *)
Definition api_system_update (h : env) (metrics : pyobj) : M world response :=
  try_except
    (given ← on_sections (py_truthy metrics);
     if negb given then mret (status_message 400 "error" "No metrics provided")
     else
       complete ← on_sections (all_in required_fields metrics);
       if negb complete
       then mret (status_message 400 "error" "Missing required fields")
       else
         modify (set_javafx_metrics metrics);;
         cpu ← on_sections (Config.dict_get metrics "cpu_percent" PNone);
         mem ← on_sections (Config.dict_get metrics "memory_percent" PNone);
         write_log h "INFO" "JavaFX metrics received: CPU=%, MEM=%" [cpu; mem];;
         connect h;;
         modify (fun w =>
           set_system_metrics (Some (default [] (system_metrics w))) w);;
         cpu ← on_sections (Config.dict_get metrics "cpu_percent" PNone);
         mem ← on_sections (Config.dict_get metrics "memory_percent" PNone);
         disk ← on_sections (Config.dict_get metrics "disk_io_total_mbps" (PInt 0));
         count ← on_sections (Config.dict_get metrics "process_count" (PInt 0));
         cpu ← sql_bind cpu;
         mem ← sql_bind mem;
         disk ← sql_bind disk;
         count ← sql_bind count;
         modify (fun w =>
           set_system_metrics
             (Some (default [] (system_metrics w)
                    ++ [{| mr_ts := current_timestamp h;
                           mr_cpu_percent := real_affinity cpu;
                           mr_memory_percent := real_affinity mem;
                           mr_disk_io_mbps := real_affinity disk;
                           mr_process_count := integer_affinity count |}])) w);;
         mret (status_message 200 "ok" "Metrics received"))
    (fun e =>
       write_log h "ERROR" ("Failed to process JavaFX metrics: " +:+ exn_str e) [];;
       mret (status_message 500 "error" (exn_str e))).

(** [GET /api/system-info-enhanced]. *)
Definition api_system_info_enhanced (h : env) : M world response :=
  jm ← gets javafx_metrics;
  present ← on_sections (py_truthy jm);
  if present : bool then
    let get k d := on_sections (Config.dict_get jm k d) in
    os_name ← get "os_name" (PStr "Unknown");
    cpu ← get "cpu_percent" (PInt 0);
    cpu_model ← get "cpu_model" (PStr "Unknown");
    physical ← get "cpu_cores_physical" (PInt 0);
    logical ← get "cpu_cores_logical" (PInt 0);
    mem ← get "memory_percent" (PInt 0);
    mem_total ← get "memory_total_gb" (PInt 0);
    mem_used ← get "memory_used_gb" (PInt 0);
    disk ← get "disk_io_total_mbps" (PInt 0);
    disk_read ← get "disk_read_mbps" (PInt 0);
    disk_write ← get "disk_write_mbps" (PInt 0);
    process_count ← get "process_count" (PInt 0);
    thread_count ← get "thread_count" (PInt 0);
    top_processes ← get "top_processes" (PList []);
    network_interfaces ← get "network_interfaces" (PList []);
    timestamp ← get "timestamp" (PInt 0);
    mret (ok_response (PDict (list_to_map [
      ("source", PStr "JavaFX Monitor (OSHI)");
      ("os", os_name);
      ("cpu_percent", cpu);
      ("cpu_model", cpu_model);
      ("cpu_cores", PDict {[ "physical" := physical; "logical" := logical ]});
      ("memory_percent", mem);
      ("memory_total_gb", mem_total);
      ("memory_used_gb", mem_used);
      ("disk_io_mbps", disk);
      ("disk_read_mbps", disk_read);
      ("disk_write_mbps", disk_write);
      ("process_count", process_count);
      ("thread_count", thread_count);
      ("top_processes", top_processes);
      ("network_interfaces", network_interfaces);
      ("timestamp", timestamp) ])))
  else
    info ← get_system_info h;
    mret (ok_response (jsonify_info info)).

Definition row_json (row : metric_row) : pyobj :=
  PDict {[ "timestamp" := PStr (mr_ts row);
           "cpu_percent" := mr_cpu_percent row;
           "memory_percent" := mr_memory_percent row;
           "disk_io_mbps" := mr_disk_io_mbps row;
           "process_count" := mr_process_count row ]}.

(** [SELECT ... FROM system_metrics ORDER BY id DESC LIMIT 100]. *)
Definition select_recent (h : env) : M world (list metric_row) :=
  table ← gets system_metrics;
  match table with
  | Some rows => mret (take 100 (rev rows))
  | None => raise (OperationalError "no such table: system_metrics")
  end.

(** [GET /api/metrics-history].  The handler never reads [request.args]. *)
Definition api_metrics_history (h : env) : M world response :=
  try_except
    (connect h;;
     rows ← select_recent h;
     let history := row_json <$> rows in
     mret (ok_response (PDict {[ "history" := PList history;
                                 "count" := PInt (Z.of_nat (length history)) ]})))
    (fun e => mret {| status := 500;
                      body := PDict {[ "error" := PStr (exn_str e) ]} |}).

(** [@app.errorhandler(500)]: what Flask answers when a handler lets an
    exception through. *)
Definition server_error (h : env) (e : exn) : M world response :=
  write_log h "ERROR" ("Server error: " +:+ exn_str e) [];;
  mret {| status := 500; body := PDict {[ "error" := PStr "Internal server error" ]} |}.

(** One request served to its end. *)
Definition serve (h : env) (handler : M world response) (w : world)
  : response * world :=
  match try_except handler (server_error h) w with
  | (Ok r, w') => (r, w')
  | (Raise _, w') =>
      ({| status := 500; body := PStr "Internal Server Error" |}, w')
  end.

(** A sequence of pushes, each under its own surroundings; the answers are
    listed in order. *)
Fixpoint serve_pushes (pushes : list (env * pyobj)) (w : world)
  : list response * world :=
  match pushes with
  | [] => ([], w)
  | (h, metrics) :: rest =>
      let '(r, w1) := serve h (api_system_update h metrics) w in
      let '(rs, w2) := serve_pushes rest w1 in
      (r :: rs, w2)
  end.

(** *** What the properties speak of *)

(** The configuration as every reachable state has it: [CONFIG] is a copy
    of [DEFAULT_CONFIG] and the sections are well formed. *)
Definition world_ok (w : world) : Prop :=
  CONFIG w = DEFAULT_CONFIG /\ Config.sections_ok (default_sections w) = true.

(** From [w] to [w'] only the log directory and the console changed. *)
Definition io_only (w w' : world) : Prop :=
  default_sections w' = default_sections w
  /\ CONFIG w' = CONFIG w
  /\ config_file w' = config_file w
  /\ javafx_metrics w' = javafx_metrics w
  /\ system_metrics w' = system_metrics w.

Definition is_raise {A} (r : result A) : bool :=
  match r with Ok _ => false | Raise _ => true end.

(** One of the psutil calls of the native sampler raises. *)
Definition native_fails (h : env) : bool :=
  is_raise (virtual_memory h) || is_raise (disk_io_counters h)
  || is_raise (psutil_cpu_percent h).

(** [random.random()] answers in [0, 1). *)
Definition unit_draws (h : env) : Prop :=
  forall i, (0 <= random h i)%Q /\ (random h i < 1)%Q.

Definition num_within (lo hi : Z) (x : num) : bool :=
  match x with
  | NInt z => bool_decide (lo <= z <= hi)
  | NFloat (Fin q) => Qle_bool (inject_Z lo) q && Qle_bool q (inject_Z hi)
  | NFloat _ => false
  end.

(** The synthetic bands. *)
Definition within_bands (info : sys_info) : bool :=
  num_within 5 35 (cpu_percent info)
  && num_within 40 70 (memory_percent info)
  && num_within 2000 8000 (memory_available_mb info)
  && num_within 10 100 (disk_io info)
  && num_within 5 50 (disk_io_write info).

(** The log line of a purge of [n] files. *)
Definition purge_line (h : env) (n : nat) : log_line :=
  {| ll_time := now h; ll_level := "WARNING";
     ll_text := "All " +:+ pretty n
                +:+ " logs deleted via user request (GDPR Right to be Forgotten)";
     ll_args := [] |}.

Definition purge_answer (n : nat) : response :=
  status_message 200 "ok" ("Deleted " +:+ pretty n +:+ " log files").

(** [CONFIG["logging"]["enabled"]] is true. *)
Definition logging_on (w : world) : bool :=
  match logging (default_sections w) !! "enabled" with
  | Some v => truthy (default_sections w) v
  | None => false
  end.

(** The purge as the specification has it: no log artifact is left, the
    answer tells how many were removed, and the record of the purge can
    still be read, in a log file or on the console. *)
Definition purge_claim (h : env) (w : world) : Prop :=
  exists w',
    api_delete_logs h w = (Ok (purge_answer (size (LOG_DIR w))), w')
    /\ size (LOG_DIR w') = 0%nat
    /\ ((exists name f, LOG_DIR w' !! name = Some f
                        /\ purge_line h (size (LOG_DIR w)) ∈ lf_lines f)
        \/ ll_text (purge_line h (size (LOG_DIR w))) ∈ stdout w').

(** The files left when those of [l] are gone. *)
Definition without (l : list (string * log_file)) (m : gmap string log_file)
  : gmap string log_file :=
  foldl (fun m x => delete x.1 m) m l.

(** The first exception of an enumeration. *)
Fixpoint first_failure {A} (steps : list (result A)) : option exn :=
  match steps with
  | [] => None
  | Ok _ :: rest => first_failure rest
  | Raise e :: _ => Some e
  end.

(** The entries of an enumeration up to its first exception. *)
Fixpoint before_failure {A} (steps : list (result A)) : list A :=
  match steps with
  | Ok a :: rest => a :: before_failure rest
  | _ => []
  end.

(** The entries of an enumeration that skips every failing step. *)
Fixpoint skipping_failures {A} (steps : list (result A)) : list A :=
  match steps with
  | [] => []
  | Ok a :: rest => a :: skipping_failures rest
  | Raise _ :: rest => skipping_failures rest
  end.

(** A generator that raised is finished: [psutil.process_iter] yields
    nothing after its first exception. *)
Fixpoint generator_trace {A} (steps : list (result A)) : bool :=
  match steps with
  | [] => true
  | Ok _ :: rest => generator_trace rest
  | Raise _ :: rest => match rest with [] => true | _ :: _ => false end
  end.

(** The dicts listed for the named processes among [infos]. *)
Definition listing (infos : list proc_info) : list pyobj :=
  proc_entry <$> List.filter has_name infos.

(** The enumeration as the specification has it: a failing entry is
    skipped and the rest is still listed. *)
Definition enumeration_claim (h : env) (w : world) : Prop :=
  (api_processes h w).1
  = Ok (ok_response (PList (listing (skipping_failures (process_iter h))))).

(** The display shape of a pushed payload. *)
Definition display (m : gmap string pyobj) : pyobj :=
  let get k d := default d (m !! k) in
  PDict (list_to_map [
    ("source", PStr "JavaFX Monitor (OSHI)");
    ("os", get "os_name" (PStr "Unknown"));
    ("cpu_percent", get "cpu_percent" (PInt 0));
    ("cpu_model", get "cpu_model" (PStr "Unknown"));
    ("cpu_cores", PDict {[ "physical" := get "cpu_cores_physical" (PInt 0);
                           "logical" := get "cpu_cores_logical" (PInt 0) ]});
    ("memory_percent", get "memory_percent" (PInt 0));
    ("memory_total_gb", get "memory_total_gb" (PInt 0));
    ("memory_used_gb", get "memory_used_gb" (PInt 0));
    ("disk_io_mbps", get "disk_io_total_mbps" (PInt 0));
    ("disk_read_mbps", get "disk_read_mbps" (PInt 0));
    ("disk_write_mbps", get "disk_write_mbps" (PInt 0));
    ("process_count", get "process_count" (PInt 0));
    ("thread_count", get "thread_count" (PInt 0));
    ("top_processes", get "top_processes" (PList []));
    ("network_interfaces", get "network_interfaces" (PList []));
    ("timestamp", get "timestamp" (PInt 0)) ]).

Definition display_of (payload : pyobj) : pyobj :=
  match payload with
  | PDict m => display m
  | _ => PNone
  end.

(** What [get_system_info] gives, as the enhanced view answers it. *)
Definition fallback_view (h : env) (w : world) : result response :=
  match (get_system_info h w).1 with
  | Ok info => Ok (ok_response (jsonify_info info))
  | Raise e => Raise e
  end.

(** A push was accepted when it was answered 200. *)
Definition accepted (r : response) : bool := status r =? 200.

(** The payload of the last accepted push, if any. *)
Fixpoint last_accepted (pushes : list (env * pyobj)) (answers : list response)
    (latest : option pyobj) : option pyobj :=
  match pushes, answers with
  | (_, payload) :: pushes', r :: answers' =>
      last_accepted pushes' answers' (if accepted r then Some payload else latest)
  | _, _ => latest
  end.

(** The enhanced view as the specification has it, after [pushes] made to
    a fresh process. *)
Definition enhanced_view_claim (pushes : list (env * pyobj)) (h : env) : Prop :=
  let run := serve_pushes pushes (initial_world ∅) in
  (api_system_info_enhanced h run.2).1
  = match last_accepted pushes run.1 None with
    | Some payload => Ok (ok_response (display_of payload))
    | None => fallback_view h run.2
    end.

(** A payload that passes the two checks of [api_system_update]: it is not
    empty and has the three required fields. *)
Definition passes_checks (m : gmap string pyobj) : bool :=
  negb (bool_decide (m = ∅))
  && forallb (fun k => bool_decide (is_Some (m !! k))) required_fields.

(** The last payload among [pushes] that passed the checks, if any. *)
Fixpoint last_stored (pushes : list (env * pyobj))
    (latest : option (gmap string pyobj)) : option (gmap string pyobj) :=
  match pushes with
  | [] => latest
  | (_, PDict m) :: pushes' =>
      last_stored pushes' (if passes_checks m then Some m else latest)
  | _ :: pushes' => last_stored pushes' latest
  end.

Definition is_mapping (payload : pyobj) : bool :=
  match payload with PDict _ => true | _ => false end.

(** The status of an answer, if the handler gave one. *)
Definition status_of (r : result response) : option Z :=
  match r with
  | Ok x => Some (status x)
  | Raise _ => None
  end.

(** What a push of a JSON object leaves in memory. *)
Definition stored_after (m : gmap string pyobj) (w w' : world) : Prop :=
  default_sections w' = default_sections w
  /\ CONFIG w' = CONFIG w
  /\ javafx_metrics w' = (if passes_checks m then PDict m else javafx_metrics w).

(** Whether an answer is the display shape of a push. *)
Definition shows_push (r : result response) : bool :=
  match r with
  | Ok x =>
      match body x with
      | PDict m => bool_decide (is_Some (m !! "source"))
      | _ => false
      end
  | Raise _ => false
  end.

(** The number of entries an answer lists, under [key] if it is a dict. *)
Definition listed (key : string) (r : result response) : option nat :=
  match r with
  | Ok x =>
      match body x with
      | PList l => Some (length l)
      | PDict m =>
          match m !! key with
          | Some (PList l) => Some (length l)
          | _ => None
          end
      | _ => None
      end
  | Raise _ => None
  end.

(** The limit a caller asks for in the query string, 100 by default. *)
Definition requested_limit (h : env) : nat :=
  match request_args h !! "limit" with
  | Some s => Z.to_nat (default 100 (decimal_int s))
  | None => 100%nat
  end.

Definition history_answer (rows : list metric_row) : response :=
  ok_response (PDict {[ "history" := PList (row_json <$> rows);
                        "count" := PInt (Z.of_nat (length rows)) ]}).

(** The history query as the specification has it: the [k] latest rows
    for the limit [k] of the caller. *)
Definition history_claim (h : env) (w : world) : Prop :=
  forall rows,
    system_metrics w = Some rows ->
    (api_metrics_history h w).1
    = Ok (history_answer (take (requested_limit h) (rev rows))).

End WithStrToInt.
End Server.

(** ** Further vocabulary for the scorer *)

Section WithLower.
Context {lowering : StrLower}.

Definition risk_score (name : option string) (cpu mem : option num) : Z :=
  (Risk.compute_risk_and_verdict name cpu mem).1.1.

Definition risk_verdict (name : option string) (cpu mem : option num)
  : Risk.verdict :=
  (Risk.compute_risk_and_verdict name cpu mem).1.2.

(** The name test of the scorer. *)
Definition keyword_hit (name : option string) : bool :=
  existsb (fun k => py_in_str k (str_lower (default EmptyString name)))
    Risk.suspicious_keywords.

End WithLower.

(** [x > c] for a reading that may be absent. *)
Definition above (x : option num) (c : Z) : bool :=
  match x with
  | Some n => num_gt n c
  | None => false
  end.

(** The value of a finite number. *)
Definition num_value (x : num) : option Q :=
  match x with
  | NInt z => Some (inject_Z z)
  | NFloat (Fin q) => Some q
  | NFloat _ => None
  end.

(** ** Further routes and vocabulary for the logs *)

(** How an entry of a log file reads as text, [[timestamp] [level] message]
    without the newline [write_log] ends it with; the rendering of
    timestamps and of interpolated objects is left open. *)
Class LineFormat := render_line : log_line -> string.

Module Logs.
Import Server.

Definition LF : ascii := Ascii.ascii_of_nat 10.
Definition CR : ascii := Ascii.ascii_of_nat 13.

(** What [f.write] puts in a file opened in text mode: every newline
    becomes [os.linesep], which is CR LF on Windows. *)
Fixpoint to_disk (windows : bool) (text : string) : string :=
  match text with
  | EmptyString => EmptyString
  | String c rest =>
      if Ascii.eqb c LF && windows
      then String CR (String LF (to_disk windows rest))
      else String c (to_disk windows rest)
  end.

(** [f.readlines()] on a file opened in text mode: a line ends at LF, at
    CR or at CR LF, and is given with [\n] for its end; what follows the
    last line end is a line of its own when it is not empty.
    [after_cr] tells that the character before was a CR, and [line] is
    the line read so far. *)
Fixpoint readlines_from (after_cr : bool) (line text : string) : list string :=
  match text with
  | EmptyString => match line with EmptyString => [] | _ => [line] end
  | String c rest =>
      if Ascii.eqb c LF then
        if after_cr then readlines_from false EmptyString rest
        else (line +:+ String LF EmptyString)
               :: readlines_from false EmptyString rest
      else if Ascii.eqb c CR then
        (line +:+ String LF EmptyString) :: readlines_from true EmptyString rest
      else readlines_from false (line +:+ String c EmptyString) rest
  end.

Definition readlines (text : string) : list string :=
  readlines_from false EmptyString text.

(** A text without a line break. *)
Fixpoint single_line (s : string) : bool :=
  match s with
  | EmptyString => true
  | String c rest =>
      negb (Ascii.eqb c LF || Ascii.eqb c CR) && single_line rest
  end.

(** [lines[-100:]]. *)
Definition last_100 {A} (lines : list A) : list A :=
  drop (length lines - 100) lines.

Section WithFormat.
Context {line_format : LineFormat}.

(** What one call of [write_log] leaves in the file. *)
Definition written (h : env) (line : log_line) : string :=
  to_disk (IS_WINDOWS h) (render_line line +:+ String LF EmptyString).

(** The content of a file holding the entries [lines]; the platform is
    the one of the request that reads it. *)
Definition file_text (h : env) (lines : list log_line) : string :=
  foldr (fun line text => written h line +:+ text) EmptyString lines.

(** [GET /api/logs]; [readable] tells whether today's log can be opened
    and read.  The answer lists lines of the file, not entries: an entry
    whose message holds a line break gives several. *)
Definition api_logs (h : env) (readable : bool) : M world response :=
  try_except
    (files ← gets LOG_DIR;
     match files !! today_log h with
     | Some f =>
         (if readable then mret tt else raise (OSError "Permission denied"));;
         let lines := last_100 (readlines (file_text h (lf_lines f))) in
         mret (ok_response
                 (PDict {[ "logs" := PList (PStr <$> lines);
                           "count" := PInt (Z.of_nat (length lines)) ]}))
     | None =>
         mret (ok_response (PDict {[ "logs" := PList []; "count" := PInt 0 ]}))
     end)
    (fun e => mret {| status := 500;
                      body := PDict {[ "error" := PStr (exn_str e) ]} |}).

(** The lines an answer of [api_logs] lists. *)
Definition logs_of (r : result response) : option (list pyobj) :=
  match r with
  | Ok x =>
      match body x with
      | PDict m =>
          match m !! "logs" with
          | Some (PList l) => Some l
          | _ => None
          end
      | _ => None
      end
  | Raise _ => None
  end.

End WithFormat.

(** [CONFIG["logging"]["retention_days"]] as a number of days. *)
Definition retention_of (w : world) : Z :=
  match logging (default_sections w) !! "retention_days" with
  | Some (PInt z) => z
  | _ => 0
  end.

(** A file older than the retention period. *)
Definition outdated (h : env) (w : world) (f : log_file) : bool :=
  bool_decide (lf_mtime f < now h - retention_of w * 86400).

(** A file [cleanup_old_logs] leaves in place: recent, or locked. *)
Definition kept_by_cleanup (h : env) (w : world) (f : log_file) : bool :=
  negb (outdated h w f) || lf_locked f.

(** The files the loop of [cleanup_old_logs] unlinks. *)
Definition swept (h : env) (w : world) (l : list (string * log_file))
  : list (string * log_file) :=
  List.filter (fun x => negb (kept_by_cleanup h w x.2)) l.

(** Today's log file once [line] is written at its end. *)
Definition with_line (h : env) (line : log_line) (logs : gmap string log_file)
  : log_file :=
  {| lf_mtime := now h;
     lf_lines := from_option lf_lines [] (logs !! today_log h) ++ [line];
     lf_locked := from_option lf_locked false (logs !! today_log h) |}.

End Logs.

(** ** Further vocabulary for the pushes and the history *)

Module Pushes.
Import Server.
Section WithSqlite.
Context {sqlite : Sqlite}.

(** A value SQLite can bind to a parameter. *)
Definition sql_bindable (v : pyobj) : bool :=
  match v with
  | PNone | PBool _ | PFloat _ => true
  | PStr s => utf8_encodable s
  | PInt z => bool_decide (- 2 ^ 63 <= z < 2 ^ 63)
  | _ => false
  end.

(** The four values [api_system_update] binds for the payload [m]. *)
Definition pushed_values (m : gmap string pyobj) : list pyobj :=
  [ default PNone (m !! "cpu_percent");
    default PNone (m !! "memory_percent");
    default (PInt 0) (m !! "disk_io_total_mbps");
    default (PInt 0) (m !! "process_count") ].

(** The row [api_system_update] inserts for the payload [m]: the values
    as their columns store them. *)
Definition pushed_row (h : env) (m : gmap string pyobj) : metric_row :=
  {| mr_ts := current_timestamp h;
     mr_cpu_percent := real_affinity (default PNone (m !! "cpu_percent"));
     mr_memory_percent := real_affinity (default PNone (m !! "memory_percent"));
     mr_disk_io_mbps := real_affinity (default (PInt 0) (m !! "disk_io_total_mbps"));
     mr_process_count := integer_affinity (default (PInt 0) (m !! "process_count")) |}.

(** The row can be written: SQLite is reachable and takes its values. *)
Definition row_storable (h : env) (m : gmap string pyobj) : bool :=
  db_reachable h && forallb sql_bindable (pushed_values m).

End WithSqlite.

(** The rows of the history table, none when it does not exist. *)
Definition history_rows (w : world) : list metric_row :=
  default [] (system_metrics w).

(** The payload passes the checks of a JSON array or string: every
    required field name is an element (a slice) of it. *)
Definition names_all_fields (payload : pyobj) : bool :=
  match payload with
  | PList l => forallb (fun k => existsb (Config.is_str k) l) required_fields
  | PStr s => forallb (fun k => py_in_str k s) required_fields
  | _ => false
  end.

End Pushes.

Module PushOutcome.
Import Server Pushes.
Section WithSqlite.
Context {sqlite : Sqlite}.

(** What a push of a JSON object that passed the checks leaves behind. *)
Definition push_outcome (h : env) (m : gmap string pyobj) (w : world)
    (r : result response) (w' : world) : Prop :=
  javafx_metrics w' = PDict m
  /\ default_sections w' = default_sections w
  /\ CONFIG w' = CONFIG w
  /\ if row_storable h m
     then r = Ok (status_message 200 "ok" "Metrics received")
          /\ system_metrics w' = Some (history_rows w ++ [pushed_row h m])
     else (exists x, r = Ok x /\ status x = 500)
          /\ history_rows w' = history_rows w.

End WithSqlite.
End PushOutcome.

Module ConfigKeys.

(** From [st] to [st'] the sections [monitoring], [thresholds] and
    [logging] have the same keys, and [ui] lost none. *)
Definition same_keys (st st' : sections) : Prop :=
  dom (monitoring st') = dom (monitoring st)
  /\ dom (thresholds st') = dom (thresholds st)
  /\ dom (logging st') = dom (logging st)
  /\ dom (ui st) ⊆ dom (ui st').

End ConfigKeys.

(** ** Import of the module *)

Module Startup.
Section WithStrToInt.
Context {str_to_int : StrToInt}.

(** What [config.json] is when the module is imported: not there, a file
    that [open] or [json.load] fails on, or JSON data. *)
Inductive config_json :=
| NoFile
| Unreadable (e : exn)
| Parsed (config : pyobj).

Definition NameError (name : string) : exn :=
  Exn "NameError" ("name '" +:+ name +:+ "' is not defined").

(** [with open(CONFIG_PATH, 'r') as f: json.load(f)]. *)
Definition json_load (file : config_json) : M sections pyobj :=
  match file with
  | NoFile => raise (OSError "No such file or directory")
  | Unreadable e => raise e
  | Parsed config => mret config
  end.

(** [load_config()]; [write_log] is what the global name of the handler is
    bound to when the function runs. *)
Definition load_config (write_log : string -> string -> M sections unit)
    (file : config_json) : M sections pyobj :=
  match file with
  | NoFile => mret (dict_copy DEFAULT_CONFIG)
  | _ =>
      loaded ← try_except
                 (config ← json_load file;
                  Some <$> Config.validate_config config)
                 (fun e =>
                    write_log "ERROR" ("Config load error: " +:+ exn_str e);;
                    mret None);
      match loaded with
      | Some validated => mret validated
      | None => mret (dict_copy DEFAULT_CONFIG)
      end
  end.

(** A global name that no statement has bound yet: calling it raises. *)
Definition unbound (name : string) : string -> string -> M sections unit :=
  fun _ _ => raise (NameError name).

(** [CONFIG = load_config()] as the import runs it: the section objects
    are as [DEFAULT_CONFIG] was written, and [def write_log], four lines
    further down, has not been executed. *)
Definition import_config (file : config_json) : result pyobj * sections :=
  load_config (unbound "write_log") file DEFAULT_SECTIONS.

(** What [json.dump(config, f)] of [save_config] leaves to be read back:
    the section objects are written out by value. *)
Definition json_dump (st : sections) (config : pyobj) : pyobj :=
  let by_value v :=
    match v with
    | PSection sec => PDict (section_get sec st)
    | _ => v
    end in
  match config with
  | PDict m => PDict (by_value <$> m)
  | _ => by_value config
  end.

End WithStrToInt.
End Startup.

(** ** Process snapshots *)

(** A row of the table [process_snapshots]; [id] is the position in the
    table and [ts] the text [current_timestamp] gave at the insertion.
    The values are the ones the columns hold: an integer in [pid] and a
    text in [name] are stored as they are, [cpu] and [mem] go through the
    [REAL] affinity. *)
Record snapshot_row := {
  sr_ts : string;
  sr_pid : pyobj;
  sr_name : pyobj;
  sr_cpu : pyobj;
  sr_mem : pyobj
}.

Module Snapshots.
Import Server.
Section WithSqlite.
Context {sqlite : Sqlite}.

(** The state of the snapshot code: the process, and the table
    [process_snapshots] of the SQLite file, [None] until it is created.
    The tables [threat_log] and [audit_log] that [init_db] creates as well
    are left out: no statement of the server reads or writes them. *)
Definition store : Type := world * option (list snapshot_row).

Definition in_world {A} (c : M world A) : M store A :=
  zoom fst (fun w s => (w, s.2)) c.

Definition IntegrityError (column : string) : exn :=
  Exn "sqlite3.IntegrityError" ("NOT NULL constraint failed: " +:+ column).

(** Lines 36 to 41. *)
Definition DETECTED_OS (h : env) : string :=
  if IS_MANJARO h then "Manjaro Linux"
  else if IS_WINDOWS h then "Windows 11"
  else "Linux (" +:+ platform_release h +:+ ")".

(** [init_db()]: nothing catches what it raises. *)
Definition init_db (h : env) : M store unit :=
  in_world (connect h);;
  modify (fun s : store => (s.1, Some (default [] s.2)));;
  in_world (write_log h "INFO" ("Database initialized on " +:+ DETECTED_OS h) []).

(** One [cur.execute("INSERT INTO process_snapshots ...")]: the statement
    is compiled against the schema, the four values are bound, and the row
    is checked against [NOT NULL].  The row joins the open transaction
    [tx]; the table is not written before the commit. *)
Definition insert_snapshot (h : env) (info : proc_info)
    (tx : list snapshot_row) : M store (list snapshot_row) :=
  table ← gets (fun s : store => s.2);
  match table with
  | None => raise (OperationalError "no such table: process_snapshots")
  | Some _ =>
      pid ← in_world (sql_bind (PInt (pi_pid info)));
      name ← in_world (sql_bind (from_option PStr PNone (pi_name info)));
      cpu ← in_world (sql_bind (from_option of_num PNone (pi_cpu_percent info)));
      mem ← in_world (sql_bind (from_option of_num PNone (pi_memory_percent info)));
      match name with
      | PNone => raise (IntegrityError "process_snapshots.name")
      | _ =>
          mret (tx ++ [{| sr_ts := current_timestamp h;
                          sr_pid := pid; sr_name := name;
                          sr_cpu := real_affinity cpu;
                          sr_mem := real_affinity mem |}])
      end
  end.

(** The loop over [psutil.process_iter(...)], one insertion per process. *)
Fixpoint insert_snapshots (h : env) (steps : list (result proc_info))
    (tx : list snapshot_row) : M store (list snapshot_row) :=
  match steps with
  | [] => mret tx
  | Raise e :: _ => raise e
  | Ok info :: rest =>
      tx' ← insert_snapshot h info tx;
      insert_snapshots h rest tx'
  end.

(** [conn.commit()]: the rows of the transaction reach the table.  A
    connection that is dropped without it, as on every exception, leaves
    the table as it was. *)
Definition commit (tx : list snapshot_row) : M store unit :=
  modify (fun s : store => (s.1, (fun table => table ++ tx) <$> s.2)).

(** [POST /api/log-snapshot]. *)
Definition api_log_snapshot (h : env) : M store response :=
  try_except
    (in_world (connect h);;
     tx ← insert_snapshots h (process_iter h) [];
     commit tx;;
     in_world (write_log h "INFO" "Process snapshot logged to database" []);;
     mret (status_message 200 "ok" "Snapshot recorded"))
    (fun e => mret (status_message 500 "error" (exn_str e))).

(** *** What the properties speak of *)

(** The row a process gives, when its name is known and SQLite takes its
    values, the name included: a name psutil decoded from bytes that are
    no UTF-8 holds lone surrogates and cannot be bound. *)
Definition snapshot_of (h : env) (info : proc_info) : option snapshot_row :=
  match pi_name info with
  | None => None
  | Some name =>
      if Pushes.sql_bindable (PInt (pi_pid info))
         && Pushes.sql_bindable (PStr name)
         && Pushes.sql_bindable (from_option of_num PNone (pi_cpu_percent info))
         && Pushes.sql_bindable (from_option of_num PNone (pi_memory_percent info))
      then Some {| sr_ts := current_timestamp h;
                   sr_pid := PInt (pi_pid info);
                   sr_name := PStr name;
                   sr_cpu := real_affinity
                               (from_option of_num PNone (pi_cpu_percent info));
                   sr_mem := real_affinity
                               (from_option of_num PNone (pi_memory_percent info)) |}
      else None
  end.

(** The rows of a whole enumeration, when every step yields a process and
    every process gives a row. *)
Fixpoint snapshots_of (h : env) (steps : list (result proc_info))
  : option (list snapshot_row) :=
  match steps with
  | [] => Some []
  | Raise _ :: _ => None
  | Ok info :: rest =>
      row ← snapshot_of h info;
      rows ← snapshots_of h rest;
      Some (row :: rows)
  end.

End WithSqlite.
End Snapshots.

(** ** Inputs for concrete runs *)

(** A raw config with a text where the interval should be. *)
Definition text_interval : pyobj :=
  PDict {[ "monitoring" := PDict {[ "interval_seconds" := PStr "abc" ]} ]}.

(** A raw config far out of range. *)
Definition wild_config : pyobj :=
  PDict {[ "monitoring" := PDict {[ "interval_seconds" := PInt 99999 ]};
           "thresholds" := PDict {[ "cpu_alert" := PStr "-12";
                                     "disk_alert" := PFloat (Fin (7 # 2)) ]};
           "logging" := PDict {[ "retention_days" := PInt 0 ]};
           "junk" := PNone ]}.

Definition interval_42 : gmap string pyobj :=
  {[ "monitoring" := PDict {[ "interval_seconds" := PInt 42 ]} ]}.

(** Surroundings where psutil fails, the disk and SQLite are fine, and the
    caller asks for a single row of history. *)
Definition failing_psutil : env := {|
  IS_MANJARO := false;
  IS_WINDOWS := false;
  platform_release := "6.1.0";
  now := 1700000000;
  today := "20231114";
  current_timestamp := "2023-11-14 22:13:20";
  virtual_memory := Raise (Exn "psutil.Error" "no /proc");
  disk_io_counters := Ok None;
  psutil_cpu_percent := Ok (NFloat (Fin 12));
  process_iter :=
    [ Ok {| pi_pid := 1; pi_name := Some "init";
            pi_cpu_percent := Some (NFloat (Fin 1)); pi_memory_percent := None |};
      Ok {| pi_pid := 2; pi_name := None;
            pi_cpu_percent := None; pi_memory_percent := None |};
      Ok {| pi_pid := 3; pi_name := Some "xmr-miner";
            pi_cpu_percent := Some (NFloat (Fin 95)); pi_memory_percent := None |};
      Raise (Exn "psutil.Error" "cannot read the process table") ];
  random := fun _ => (1 # 2)%Q;
  log_dir_writable := true;
  config_writable := true;
  db_reachable := true;
  request_args := {[ "limit" := "1" ]}
|}.

Definition two_logs : gmap string log_file :=
  {[ "privara_20231113.log" :=
       {| lf_mtime := 1699990000; lf_lines := []; lf_locked := false |};
     "privara_20231114.log" :=
       {| lf_mtime := 1699999000; lf_lines := []; lf_locked := false |} ]}.

(** A push whose [cpu_percent] SQLite cannot bind. *)
Definition unbindable_push : pyobj :=
  PDict {[ "cpu_percent" := PList [PInt 1]; "memory_percent" := PInt 50;
           "timestamp" := PInt 1 ]}.

Definition good_push : gmap string pyobj :=
  {[ "cpu_percent" := PInt 7; "memory_percent" := PInt 50;
     "timestamp" := PInt 1 ]}.

(** The names of the required fields, sent as a JSON array. *)
Definition array_push : pyobj :=
  PList [PStr "cpu_percent"; PStr "memory_percent"; PStr "timestamp"].

Definition two_rows : list metric_row :=
  [ {| mr_ts := "2023-11-14 22:13:18";
       mr_cpu_percent := PFloat (Fin 1); mr_memory_percent := PFloat (Fin 2);
       mr_disk_io_mbps := PFloat (Fin 0); mr_process_count := PInt 0 |};
    {| mr_ts := "2023-11-14 22:13:19";
       mr_cpu_percent := PFloat (Fin 3); mr_memory_percent := PFloat (Fin 4);
       mr_disk_io_mbps := PFloat (Fin 0); mr_process_count := PInt 0 |} ].

(** A process whose history holds two rows. *)
Definition two_rows_stored : world :=
  set_system_metrics (Some two_rows) (initial_world ∅).

(** A log directory with an old file, a locked old file and yesterday's. *)
Definition aged_logs : gmap string log_file :=
  {[ "privara_20230101.log" :=
       {| lf_mtime := 1672531200; lf_lines := []; lf_locked := false |};
     "privara_20230102.log" :=
       {| lf_mtime := 1672617600; lf_lines := []; lf_locked := true |};
     "privara_20231113.log" :=
       {| lf_mtime := 1699990000; lf_lines := []; lf_locked := false |} ]}.

(** Entries read as their message. *)
Definition plain_lines : LineFormat := ll_text.

(** The surroundings of [failing_psutil], with a log directory that
    cannot be written to. *)
Definition unwritable_disk : env := {|
  IS_MANJARO := false;
  IS_WINDOWS := false;
  platform_release := "6.1.0";
  now := 1700000000;
  today := "20231114";
  current_timestamp := "2023-11-14 22:13:20";
  virtual_memory := Raise (Exn "psutil.Error" "no /proc");
  disk_io_counters := Ok None;
  psutil_cpu_percent := Ok (NFloat (Fin 12));
  process_iter := [];
  random := fun _ => (1 # 2)%Q;
  log_dir_writable := false;
  config_writable := false;
  db_reachable := false;
  request_args := ∅
|}.

(** A partial update: one field per section, a fractional threshold, a
    level that is no string and a [ui] key the defaults do not have. *)
Definition partial_update : gmap string pyobj :=
  {[ "monitoring" := PDict {[ "enabled" := PBool false ]};
     "thresholds" := PDict {[ "cpu_alert" := PFloat (Fin (199 # 2)) ]};
     "logging" := PDict {[ "level" := PList [] ]};
     "ui" := PDict {[ "theme" := PInt 5; "extra" := PNone ]} ]}.

(** Sections as an earlier update left them. *)
Definition tuned_sections : sections := {|
  monitoring := {[ "enabled" := PBool true; "interval_seconds" := PInt 42 ]};
  thresholds := {[ "cpu_alert" := PInt 50; "memory_alert" := PInt 60;
                   "disk_alert" := PInt 70 ]};
  logging := {[ "enabled" := PBool true; "retention_days" := PInt 7;
                "level" := PStr "DEBUG" ]};
  ui := {[ "theme" := PStr "Tech Noir"; "timezone" := PStr "CET" ]}
|}.

(** A request that switches the log off. *)
Definition logging_off : gmap string pyobj :=
  {[ "logging" := PDict {[ "enabled" := PBool false ]} ]}.

(** Surroundings with two processes that can be read in full. *)
Definition two_processes : env := {|
  IS_MANJARO := true;
  IS_WINDOWS := false;
  platform_release := "6.1.0";
  now := 1700000000;
  today := "20231114";
  current_timestamp := "2023-11-14 22:13:20";
  virtual_memory := Ok (NFloat (Fin 40), 4000000000);
  disk_io_counters := Ok None;
  psutil_cpu_percent := Ok (NFloat (Fin 12));
  process_iter :=
    [ Ok {| pi_pid := 1; pi_name := Some "init";
            pi_cpu_percent := Some (NFloat (Fin 1)); pi_memory_percent := None |};
      Ok {| pi_pid := 7; pi_name := Some "sshd";
            pi_cpu_percent := None;
            pi_memory_percent := Some (NFloat (Fin 2)) |} ];
  random := fun _ => (1 # 2)%Q;
  log_dir_writable := true;
  config_writable := true;
  db_reachable := true;
  request_args := ∅
|}.

(** * Properties *)

Lemma Qlt_bool_iff (x y : Q) : Qlt_bool x y = true <-> (x < y)%Q.
Proof. unfold Qlt_bool, Qlt. apply Z.ltb_lt. Qed.

Module RiskFacts.
Import Risk.

(** *** Case-insensitive matching on the ASCII range *)

Lemma lower_ascii_code (c : ascii) :
  Ascii.N_of_ascii (lower_ascii c)
  = (if ((65 <=? Ascii.N_of_ascii c) && (Ascii.N_of_ascii c <=? 90))%N%bool
     then Ascii.N_of_ascii c + 32 else Ascii.N_of_ascii c)%N.
Proof.
  unfold lower_ascii.
  destruct ((65 <=? _)%N && (_ <=? 90)%N)%bool eqn:E; [|reflexivity].
  apply Ascii.N_ascii_embedding.
  apply andb_prop in E as [_ E%N.leb_le]. lia.
Qed.

Lemma ascii_code_inj (a b : ascii) :
  Ascii.N_of_ascii a = Ascii.N_of_ascii b -> a = b.
Proof.
  intros H. rewrite <- (Ascii.ascii_N_embedding a), <- (Ascii.ascii_N_embedding b).
  by rewrite H.
Qed.

(** Two characters are lowered to the same one exactly when they are
    equal up to case. *)
Lemma eq_ci_lower (a b : ascii) :
  eq_ci a b = bool_decide (lower_ascii a = lower_ascii b).
Proof.
  assert (E : lower_ascii a = lower_ascii b
              <-> Ascii.N_of_ascii (lower_ascii a) = Ascii.N_of_ascii (lower_ascii b)).
  { split; [by intros -> | apply ascii_code_inj]. }
  rewrite !lower_ascii_code in E.
  unfold eq_ci, small_of.
  destruct (Ascii.eqb_spec a b) as [->|Hne].
  - by rewrite bool_decide_eq_true_2.
  - assert (Hn : Ascii.N_of_ascii a <> Ascii.N_of_ascii b)
      by (intros H; by apply Hne, ascii_code_inj).
    cbn [orb]. apply eq_true_iff_eq.
    rewrite bool_decide_eq_true, E, orb_true_iff, !andb_true_iff.
    rewrite !N.leb_le, !N.eqb_eq.
    set (x := Ascii.N_of_ascii a) in *. set (y := Ascii.N_of_ascii b) in *.
    clearbody x y. clear E Hne.
    destruct (N.leb_spec 65 x), (N.leb_spec x 90),
      (N.leb_spec 65 y), (N.leb_spec y 90); cbn [andb]; lia.
Qed.

Lemma prefix_lower (k s : string) :
  String.prefix (ascii_lower k) (ascii_lower s) = prefix_ci k s.
Proof.
  revert s; induction k as [|a k IH]; intros [|b s]; simpl; try reflexivity.
  rewrite eq_ci_lower.
  destruct (Ascii.ascii_dec (lower_ascii a) (lower_ascii b)) as [E|E].
  - rewrite bool_decide_eq_true_2 by exact E. apply IH.
  - rewrite bool_decide_eq_false_2 by exact E. reflexivity.
Qed.

Lemma in_lower (k s : string) :
  py_in_str (ascii_lower k) (ascii_lower s) = occurs_ci k s.
Proof.
  induction s as [|b s IH]; cbn [py_in_str occurs_ci ascii_lower];
    rewrite <- prefix_lower; [reflexivity|].
  rewrite IH. reflexivity.
Qed.

Lemma occurs_in (k s : string) : occurs k s = py_in_str k s.
Proof.
  unfold occurs. induction s as [|b s IH]; cbn [tails existsb py_in_str].
  - by rewrite orb_false_r.
  - by rewrite IH.
Qed.

(** The keywords are in lower case already. *)
Lemma keywords_lower :
  Forall (fun k => ascii_lower k = k) reference_keywords.
Proof. repeat constructor. Qed.

(** The list of the source is the set of the specification. *)
Lemma keywords_agree : suspicious_keywords = reference_keywords.
Proof. reflexivity. Qed.

Section WithLower.
Context {lowering : StrLower}.

Lemma name_test_lowered (name : string) :
  existsb (fun k => py_in_str k (str_lower name)) suspicious_keywords
  = existsb (fun k => occurs k (str_lower name)) reference_keywords.
Proof.
  rewrite keywords_agree.
  induction reference_keywords as [|k ks IH]; [reflexivity|].
  simpl. by rewrite IH, occurs_in.
Qed.

Lemma name_test (name : string) :
  is_ascii name = true ->
  existsb (fun k => py_in_str k (str_lower name)) suspicious_keywords
  = existsb (fun k => occurs_ci k name) reference_keywords.
Proof.
  intros Ha. rewrite (str_lower_ascii name Ha), keywords_agree.
  pose proof keywords_lower as H.
  induction H as [|k ks Hk _ IH]; [reflexivity|].
  simpl. rewrite <- IH, <- in_lower, Hk. reflexivity.
Qed.

End WithLower.

Lemma float_gt_truthy (f : pyfloat) (c : Z) :
  0 <= c -> float_gt f c = true -> float_truthy f = true.
Proof.
  destruct f as [q| | |]; simpl; try done.
  intros Hc Hgt. apply Qlt_bool_iff in Hgt.
  apply negb_true_iff. destruct (Qeq_bool q 0) eqn:E; [|done].
  apply Qeq_bool_eq in E. rewrite E in Hgt.
  exfalso. apply (Qlt_not_le _ _ Hgt).
  change 0%Q with (inject_Z 0). rewrite <- Zle_Qle. exact Hc.
Qed.

Lemma num_gt_truthy (x : num) (c : Z) :
  0 <= c -> num_gt x c = true -> num_truthy x = true.
Proof.
  destruct x as [z|f]; simpl.
  - intros Hc Hgt. apply bool_decide_eq_true_1 in Hgt.
    apply negb_true_iff, Z.eqb_neq. lia.
  - apply float_gt_truthy.
Qed.

(** The guard [if cpu:] never hides a tier: a falsy number exceeds none
    of the thresholds. *)
Lemma falsy_no_points (x : num) (c : Z) :
  0 <= c -> num_truthy x = false -> num_gt x c = false.
Proof.
  intros Hc Hf. destruct (num_gt x c) eqn:E; [|done].
  apply (num_gt_truthy _ _ Hc) in E. congruence.
Qed.

Lemma verdict_tiers (score : Z) :
  (if bool_decide (70 <= score) then Critical
   else if bool_decide (40 <= score) then Suspicious
   else if bool_decide (10 <= score) then Elevated
   else Benign) = verdict_of score.
Proof.
  unfold verdict_of. repeat case_bool_decide; try reflexivity; lia.
Qed.

Lemma cpu_branch (score : Z) (cpu : option num) :
  (if opt_truthy cpu then
     match cpu with
     | Some c =>
         if num_gt c 80 then score + 40
         else if num_gt c 40 then score + 20
         else score
     | None => score
     end
   else score) = score + cpu_points (default (NInt 0) cpu).
Proof.
  unfold cpu_points. destruct cpu as [c|]; simpl; [|lia].
  destruct (num_truthy c) eqn:T.
  - repeat case_match; lia.
  - rewrite !(falsy_no_points c) by (done || lia). lia.
Qed.

Lemma mem_branch (score : Z) (mem : option num) :
  (if opt_truthy mem then
     match mem with
     | Some m => if num_gt m 20 then score + 20 else score
     | None => score
     end
   else score) = score + mem_points (default (NInt 0) mem).
Proof.
  unfold mem_points. destruct mem as [m|]; simpl; [|lia].
  destruct (num_truthy m) eqn:T.
  - case_match; lia.
  - rewrite (falsy_no_points m) by (done || lia). lia.
Qed.

Section WithLower.
Context {lowering : StrLower}.

Lemma scorer_by_points (name : option string) (cpu mem : option num) :
  compute_risk_and_verdict name cpu mem
  = reference_of
      (if existsb (fun k => py_in_str k (str_lower (default EmptyString name)))
            suspicious_keywords
       then 40 else 0)
      (default (NInt 0) cpu) (default (NInt 0) mem).
Proof.
  unfold compute_risk_and_verdict, reference_of.
  rewrite verdict_tiers, mem_branch, cpu_branch.
  destruct (existsb _ suspicious_keywords); reflexivity.
Qed.

(** C1: for every input (name, cpu, mem), an absent field counting as the
    empty name or as zero, the scorer returns the triple of the reference
    definition: 40 for a keyword of the set occurring in the name as a
    case-insensitive substring, plus 40 for cpu above 80 or else 20 for
    cpu above 40, plus 20 for mem above 20, at most 100; the verdict by
    the thresholds 70, 40 and 10 read from the highest down; and the
    fixed engine tag.  For a name of ASCII characters the match is letter
    by letter up to case; for any name it is the occurrence of the
    keyword in the name as [str.lower()] lowers it.  For powershell.exe
    at cpu 50 and mem 25 the result is 80 and Critical. *)
Theorem compute_risk_and_verdict_reference :
  (forall (name : option string) (cpu mem : option num),
      is_ascii (default EmptyString name) = true ->
      compute_risk_and_verdict name cpu mem
      = risk_reference (default EmptyString name)
          (default (NInt 0) cpu) (default (NInt 0) mem))
  /\ (forall (name : option string) (cpu mem : option num),
         compute_risk_and_verdict name cpu mem
         = reference_of (lowered_points (default EmptyString name))
             (default (NInt 0) cpu) (default (NInt 0) mem))
  /\ (forall (name : string) (cpu mem : num),
         is_ascii name = true ->
         compute_risk_and_verdict (Some name) (Some cpu) (Some mem)
         = risk_reference name cpu mem)
  /\ compute_risk_and_verdict (Some "powershell.exe")
       (Some (NFloat (Fin 50))) (Some (NFloat (Fin 25)))
     = (80, Critical, "Khepri-ML v0.2").
Proof.
  assert (G : forall name cpu mem,
      is_ascii (default EmptyString name) = true ->
      compute_risk_and_verdict name cpu mem
      = risk_reference (default EmptyString name)
          (default (NInt 0) cpu) (default (NInt 0) mem)).
  { intros name cpu mem Ha.
    rewrite scorer_by_points, (name_test _ Ha). reflexivity. }
  split; [exact G|]. split; [|split].
  - intros name cpu mem.
    rewrite scorer_by_points, name_test_lowered. reflexivity.
  - intros name cpu mem Ha. by apply G.
  - rewrite (G (Some "powershell.exe")) by reflexivity.
    vm_compute. reflexivity.
Qed.

End WithLower.

End RiskFacts.

(** ** Reasoning about computations *)

Section MonadFacts.
Context {S : Type}.

Lemma ends_ret {A} (a : A) (s : S) (Q : result A -> S -> Prop) :
  Q (Ok a) s -> ends (mret a) s Q.
Proof. done. Qed.

Lemma ends_raise {A} (e : exn) (s : S) (Q : result A -> S -> Prop) :
  Q (Raise e) s -> ends (raise e) s Q.
Proof. done. Qed.

Lemma ends_reading {A} (g : S -> result A) (s : S) Q :
  Q (g s) s -> ends (reading g) s Q.
Proof. done. Qed.

Lemma ends_gets {A} (g : S -> A) (s : S) Q :
  Q (Ok (g s)) s -> ends (gets g) s Q.
Proof. done. Qed.

Lemma ends_modify (g : S -> S) (s : S) Q :
  Q (Ok tt) (g s) -> ends (modify g) s Q.
Proof. done. Qed.

Lemma ends_lift_result {A} (r : result A) (s : S) Q :
  Q r s -> ends (Server.lift_result r) s Q.
Proof. done. Qed.

Lemma ends_bind {A B} (c : M S A) (f : A -> M S B) (s : S) Q :
  ends c s (fun r s' =>
    match r with
    | Ok a => ends (f a) s' Q
    | Raise e => Q (Raise e) s'
    end) ->
  ends (c ≫= f) s Q.
Proof.
  unfold ends, mbind, M_bind. destruct (c s) as [[a|e] s']; done.
Qed.

Lemma ends_fmap {A B} (g : A -> B) (c : M S A) (s : S) Q :
  ends c s (fun r s' =>
    match r with
    | Ok a => Q (Ok (g a)) s'
    | Raise e => Q (Raise e) s'
    end) ->
  ends (g <$> c) s Q.
Proof.
  unfold ends, fmap, M_fmap. destruct (c s) as [[a|e] s']; done.
Qed.

Lemma ends_try {A} (c : M S A) (h : exn -> M S A) (s : S) Q :
  ends c s (fun r s' =>
    match r with
    | Ok a => Q (Ok a) s'
    | Raise e => ends (h e) s' Q
    end) ->
  ends (try_except c h) s Q.
Proof.
  unfold ends, try_except. destruct (c s) as [[a|e] s']; done.
Qed.

Lemma ends_mono {A} (c : M S A) (s : S) (Q Q' : result A -> S -> Prop) :
  ends c s Q -> (forall r s', Q r s' -> Q' r s') -> ends c s Q'.
Proof. unfold ends. auto. Qed.

Lemma ends_run {A} (c : M S A) (s : S) Q r s' :
  ends c s Q -> c s = (r, s') -> Q r s'.
Proof. unfold ends. intros H E. rewrite E in H. exact H. Qed.

Lemma ends_zoom {T A} (proj : S -> T) (upd : T -> S -> S) (c : M T A) (s : S) Q :
  ends c (proj s) (fun r t => Q r (upd t s)) -> ends (zoom proj upd c) s Q.
Proof. unfold ends, zoom. destruct (c (proj s)) as [r t]. done. Qed.

Lemma keeps_ends {A} (P : S -> Prop) (c : M S A) :
  keeps P c <-> forall s, P s -> ends c s (fun _ s' => P s').
Proof. reflexivity. Qed.

Lemma keeps_ret {A} (P : S -> Prop) (a : A) : keeps P (mret a).
Proof. intros s H. exact H. Qed.

Lemma keeps_bind {A B} (P : S -> Prop) (c : M S A) (f : A -> M S B) :
  keeps P c -> (forall a, keeps P (f a)) -> keeps P (c ≫= f).
Proof.
  intros Hc Hf s H. specialize (Hc s H). unfold mbind, M_bind.
  destruct (c s) as [[a|e] s']; simpl in *; [by apply Hf | done].
Qed.

Lemma keeps_try {A} (P : S -> Prop) (c : M S A) (h : exn -> M S A) :
  keeps P c -> (forall e, keeps P (h e)) -> keeps P (try_except c h).
Proof.
  intros Hc Hh s H. specialize (Hc s H). unfold try_except.
  destruct (c s) as [[a|e] s']; simpl in *; [done | by apply Hh].
Qed.

End MonadFacts.

(** One step of a run, read off the shape of the computation. *)
Ltac wp_step :=
  lazymatch goal with
  | |- ends (_ ≫= _) _ _ => apply ends_bind
  | |- ends (_ <$> _) _ _ => apply ends_fmap
  | |- ends (try_except _ _) _ _ => apply ends_try
  | |- ends (zoom _ _ _) _ _ => apply ends_zoom
  | |- ends (mret _) _ _ => apply ends_ret
  | |- ends (raise _) _ _ => apply ends_raise
  | |- ends (reading _) _ _ => apply ends_reading
  | |- ends (gets _) _ _ => apply ends_gets
  | |- ends (modify _) _ _ => apply ends_modify
  | |- ends (Server.lift_result _) _ _ => apply ends_lift_result
  end.

(** Run a computation to its ends, splitting on every test it makes. *)
Ltac wp :=
  repeat first
    [ wp_step
    | progress cbn [Config.py_setitem Config.dict_update]
    | case_match; try discriminate ].

Module ConfigFacts.
Import Config.
Section WithStrToInt.
Context {str_to_int : StrToInt}.

Lemma validated_monitoring :
  py_getitem (dict_copy DEFAULT_CONFIG) "monitoring"
  = reading (fun _ => Ok (PSection Monitoring)).
Proof. reflexivity. Qed.

Lemma validated_thresholds :
  py_getitem (dict_copy DEFAULT_CONFIG) "thresholds"
  = reading (fun _ => Ok (PSection Thresholds)).
Proof. reflexivity. Qed.

Lemma validated_logging :
  py_getitem (dict_copy DEFAULT_CONFIG) "logging"
  = reading (fun _ => Ok (PSection Logging)).
Proof. reflexivity. Qed.

Lemma validated_ui :
  py_getitem (dict_copy DEFAULT_CONFIG) "ui"
  = reading (fun _ => Ok (PSection Ui)).
Proof. reflexivity. Qed.

Lemma field_ok_insert test (m : gmap string pyobj) k k' v :
  field_ok test (<[k' := v]> m) k
  = if decide (k' = k) then test v else field_ok test m k.
Proof. unfold field_ok. rewrite lookup_insert. destruct (decide (k' = k)); done. Qed.

Lemma field_ok_lookup test (m : gmap string pyobj) k :
  field_ok test m k = true -> exists v, m !! k = Some v /\ test v = true.
Proof. unfold field_ok. destruct (m !! k) as [v|]; [eauto | done]. Qed.

Lemma setitem_ok sec k v st :
  sections_ok st = true -> write_ok sec k v = true ->
  sections_ok (section_set sec (<[k := v]> (section_get sec st)) st) = true.
Proof.
  unfold sections_ok, write_ok. intros H W.
  repeat (apply andb_prop in H as [H ?]).
  destruct sec; simpl; rewrite ?field_ok_insert;
    repeat case_decide; simplify_eq;
    repeat (apply andb_true_intro; split); try done; naive_solver.
Qed.

Lemma clamp_interval_ok v n :
  as_number v = Some n -> num_lt n 3600 = true -> num_gt n 1 = true ->
  interval_ok v = true.
Proof.
  destruct v as [| b | z | [q| | |] | | | |]; simpl; intros [= <-]; simpl; try done.
  - destruct b; done.
  - intros ?%bool_decide_eq_true_1 ?%bool_decide_eq_true_1.
    apply bool_decide_eq_true_2. lia.
  - intros -> ->. done.
Qed.

Lemma clamp_between lo hi z : lo <= hi ->
  int_between lo hi (PInt (Z.max lo (Z.min hi z))) = true.
Proof. intros H. simpl. apply bool_decide_eq_true_2. lia. Qed.

(** *** Every block keeps the sections as they should be *)

Ltac close_ok :=
  simplify_eq; try done;
  repeat (apply setitem_ok; [|try done]); try done.

Lemma validate_monitoring_keeps config :
  keeps (fun st => sections_ok st = true)
    (validate_monitoring config (dict_copy DEFAULT_CONFIG)).
Proof.
  apply keeps_ends. intros st H.
  unfold validate_monitoring. rewrite !validated_monitoring.
  unfold and_then, py_min, py_max, py_contains, py_getitem, dict_get, py_lt, py_gt.
  wp; close_ok; eapply clamp_interval_ok; eauto.
Qed.

Lemma validate_threshold_keeps config key :
  key ∈ ["cpu_alert"; "memory_alert"; "disk_alert"] ->
  keeps (fun st => sections_ok st = true)
    (validate_threshold config (dict_copy DEFAULT_CONFIG) key).
Proof.
  intros Hk. apply keeps_ends. intros st H.
  unfold validate_threshold. rewrite !validated_thresholds.
  unfold py_contains, py_getitem, py_int.
  wp; close_ok.
  all: unfold write_ok; rewrite decide_True; [by apply clamp_between|].
  all: set_unfold; tauto.
Qed.

Lemma validate_thresholds_keeps config :
  keeps (fun st => sections_ok st = true)
    (validate_thresholds config (dict_copy DEFAULT_CONFIG)).
Proof.
  unfold validate_thresholds. apply keeps_bind.
  - apply keeps_ends. intros st H. unfold and_then, py_contains, py_getitem.
    wp; close_ok.
  - intros []; [|apply keeps_ret].
    repeat (apply keeps_bind; [|intros _]);
      apply validate_threshold_keeps; set_solver.
Qed.

Lemma validate_logging_keeps config :
  keeps (fun st => sections_ok st = true)
    (validate_logging config (dict_copy DEFAULT_CONFIG)).
Proof.
  apply keeps_ends. intros st H.
  unfold validate_logging. rewrite !validated_logging.
  unfold and_then, py_contains, py_getitem, dict_get, py_int.
  wp; close_ok; by apply clamp_between.
Qed.

Lemma validate_ui_keeps config :
  keeps (fun st => sections_ok st = true)
    (validate_ui config (dict_copy DEFAULT_CONFIG)).
Proof.
  apply keeps_ends. intros st H.
  unfold validate_ui. rewrite !validated_ui.
  unfold and_then, py_contains, py_getitem.
  wp; close_ok.
Qed.

Lemma validate_config_keeps config :
  keeps (fun st => sections_ok st = true) (validate_config config).
Proof.
  unfold validate_config.
  apply keeps_bind; [apply validate_monitoring_keeps | intros _].
  apply keeps_bind; [apply validate_thresholds_keeps | intros _].
  apply keeps_bind; [apply validate_logging_keeps | intros _].
  apply keeps_bind; [apply validate_ui_keeps | intros _].
  apply keeps_ret.
Qed.

(** What [validate_config] returns is always the copy of [DEFAULT_CONFIG]. *)
Lemma validate_config_value config st cfg st' :
  validate_config config st = (Ok cfg, st') -> cfg = DEFAULT_CONFIG.
Proof.
  unfold validate_config, mbind, M_bind, mret, M_ret.
  repeat case_match; intros; simplify_eq; reflexivity.
Qed.

(** *** From the sections to the bounds of the specification *)

Lemma interval_in_bounds v : interval_ok v = true -> in_bounds 1 3600 v = true.
Proof.
  destruct v as [| | z | [q| | |] | | | |]; simpl; try done.
  intros [H1 H2]%andb_prop.
  apply Qlt_bool_iff in H1, H2.
  apply andb_true_intro; split; apply Qle_bool_iff; by apply Qlt_le_weak.
Qed.

Lemma between_in_bounds lo hi v : int_between lo hi v = true -> in_bounds lo hi v = true.
Proof. destruct v; simpl; done. Qed.

Lemma field_in_bounds_default lo hi test st (sec : section_id) (sname key : string) :
  (forall st, config_field st DEFAULT_CONFIG sname key = section_get sec st !! key) ->
  (forall v, test v = true -> in_bounds lo hi v = true) ->
  field_ok test (section_get sec st) key = true ->
  field_in_bounds lo hi st DEFAULT_CONFIG sname key = true.
Proof.
  intros Hf Ht [v [Hv Hok]]%field_ok_lookup.
  unfold field_in_bounds. rewrite Hf, Hv. by apply Ht.
Qed.

Lemma sections_ok_in_bounds st :
  sections_ok st = true -> populated_in_bounds st DEFAULT_CONFIG = true.
Proof.
  unfold sections_ok, populated_in_bounds. intros H.
  repeat (apply andb_prop in H as [H ?]).
  repeat (apply andb_true_intro; split); try reflexivity.
  - by apply (field_in_bounds_default _ _ interval_ok _ Monitoring);
      [reflexivity | apply interval_in_bounds |].
  - by apply (field_in_bounds_default _ _ (int_between 0 100) _ Thresholds);
      [reflexivity | apply between_in_bounds |].
  - by apply (field_in_bounds_default _ _ (int_between 0 100) _ Thresholds);
      [reflexivity | apply between_in_bounds |].
  - by apply (field_in_bounds_default _ _ (int_between 0 100) _ Thresholds);
      [reflexivity | apply between_in_bounds |].
  - by apply (field_in_bounds_default _ _ (int_between 1 365) _ Logging);
      [reflexivity | apply between_in_bounds |].
Qed.

(** *** Type-correct input never raises *)

Ltac typed_section H m sec :=
  unfold section_typed in H;
  destruct (m !! sec) as [[]|] eqn:?; try discriminate H.

Ltac close_typed :=
  simplify_eq/=; try reflexivity;
  try (match goal with
       | E : ?m !! ?k = None, H : bool_decide (is_Some (?m !! ?k)) = true |- _ =>
           rewrite E in H; discriminate H
       end);
  unfold absent_or, is_number, int_able in *;
  repeat (case_match; simplify_eq/=); done.

Lemma validate_monitoring_returns m st :
  section_typed (fun d => absent_or is_number d "interval_seconds") m "monitoring" = true ->
  ends (validate_monitoring (PDict m) (dict_copy DEFAULT_CONFIG)) st
    (fun r _ => r = Ok tt).
Proof.
  intros H. typed_section H m "monitoring".
  all: unfold validate_monitoring; rewrite !validated_monitoring.
  all: unfold and_then, py_min, py_max, py_contains, py_getitem, dict_get, py_lt, py_gt.
  all: wp; close_typed.
Qed.

Lemma validate_threshold_returns m d key st :
  m !! "thresholds" = Some (PDict d) ->
  absent_or int_able d key = true ->
  ends (validate_threshold (PDict m) (dict_copy DEFAULT_CONFIG) key) st
    (fun r _ => r = Ok tt).
Proof.
  intros Hm H.
  unfold validate_threshold; rewrite !validated_thresholds.
  unfold py_contains, py_getitem, py_int.
  wp; close_typed.
Qed.

Lemma section_check (m : gmap string pyobj) key st :
  ends (and_then (py_contains key (PDict m)) (is_dict <$> py_getitem (PDict m) key)) st
    (fun r s' => s' = st /\
       r = Ok (match m !! key with Some v => is_dict v | None => false end)).
Proof.
  unfold and_then, py_contains, py_getitem.
  wp; simplify_eq/=; split; try reflexivity.
  all: repeat match goal with
         | H : bool_decide _ = _ |- _ =>
             first [apply bool_decide_eq_true_1 in H
                   | apply bool_decide_eq_false_1 in H]
         end.
  all: repeat case_match; simplify_eq; try done.
  all: try (exfalso; by eapply is_Some_None).
  all: exfalso; eauto.
Qed.

Lemma validate_thresholds_returns m st :
  section_typed (fun d => absent_or int_able d "cpu_alert"
                          && absent_or int_able d "memory_alert"
                          && absent_or int_able d "disk_alert") m "thresholds" = true ->
  ends (validate_thresholds (PDict m) (dict_copy DEFAULT_CONFIG)) st
    (fun r _ => r = Ok tt).
Proof.
  intros H. unfold validate_thresholds.
  apply ends_bind. eapply ends_mono; [apply section_check|].
  intros r s' [-> ->].
  typed_section H m "thresholds"; simpl; try by apply ends_ret.
  apply andb_prop in H as [[H1 H2]%andb_prop H3].
  apply ends_bind. eapply ends_mono; [by eapply validate_threshold_returns|].
  intros r s1 ->.
  apply ends_bind. eapply ends_mono; [by eapply validate_threshold_returns|].
  intros r s2 ->.
  by eapply validate_threshold_returns.
Qed.

Lemma validate_logging_returns m st :
  section_typed (fun d => absent_or int_able d "retention_days") m "logging" = true ->
  ends (validate_logging (PDict m) (dict_copy DEFAULT_CONFIG)) st
    (fun r _ => r = Ok tt).
Proof.
  intros H. typed_section H m "logging".
  all: unfold validate_logging; rewrite !validated_logging.
  all: unfold and_then, py_contains, py_getitem, dict_get, py_int.
  all: wp; close_typed.
Qed.

Lemma validate_ui_returns m st :
  section_typed (fun _ => true) m "ui" = true ->
  ends (validate_ui (PDict m) (dict_copy DEFAULT_CONFIG)) st
    (fun r _ => r = Ok tt).
Proof.
  intros H. typed_section H m "ui".
  all: unfold validate_ui; rewrite !validated_ui.
  all: unfold and_then, py_contains, py_getitem.
  all: wp; close_typed.
Qed.

Lemma validate_config_returns raw st :
  well_typed raw = true ->
  exists st', validate_config raw st = (Ok DEFAULT_CONFIG, st').
Proof.
  destruct raw as [| | | | | | m |]; try discriminate. simpl.
  intros [[[H1 H2]%andb_prop H3]%andb_prop H4]%andb_prop.
  assert (E : ends (validate_config (PDict m)) st (fun r _ => r = Ok DEFAULT_CONFIG)).
  { unfold validate_config.
    apply ends_bind. eapply ends_mono; [by apply validate_monitoring_returns|].
    intros r s1 ->.
    apply ends_bind. eapply ends_mono; [by apply validate_thresholds_returns|].
    intros r s2 ->.
    apply ends_bind. eapply ends_mono; [by apply validate_logging_returns|].
    intros r s3 ->.
    apply ends_bind. eapply ends_mono; [by apply validate_ui_returns|].
    intros r s4 ->. by apply ends_ret. }
  unfold ends in E. destruct (validate_config (PDict m) st) as [r st'].
  simpl in E. subst r. eauto.
Qed.

End WithStrToInt.
End ConfigFacts.

Module ConfigIdem.
Import Config ConfigFacts.
Section WithStrToInt.
Context {str_to_int : StrToInt}.

Lemma contains_monitoring :
  py_contains "monitoring" (dict_copy DEFAULT_CONFIG) = reading (fun _ => Ok true).
Proof. reflexivity. Qed.
Lemma contains_thresholds :
  py_contains "thresholds" (dict_copy DEFAULT_CONFIG) = reading (fun _ => Ok true).
Proof. reflexivity. Qed.
Lemma contains_logging :
  py_contains "logging" (dict_copy DEFAULT_CONFIG) = reading (fun _ => Ok true).
Proof. reflexivity. Qed.
Lemma contains_ui :
  py_contains "ui" (dict_copy DEFAULT_CONFIG) = reading (fun _ => Ok true).
Proof. reflexivity. Qed.

Lemma setitem_same sec k v st :
  section_get sec st !! k = Some v ->
  section_set sec (<[k := v]> (section_get sec st)) st = st.
Proof.
  intros H. rewrite (insert_id _ _ _ H). destruct st, sec; reflexivity.
Qed.

Lemma update_same sec st :
  section_set sec (section_get sec st ∪ section_get sec st) st = st.
Proof.
  rewrite (idemp (∪) (section_get sec st)).
  destruct st, sec; reflexivity.
Qed.

Lemma clamp_fix v n :
  interval_ok v = true -> as_number v = Some n ->
  (num_lt n 3600 = false -> v = PInt 3600)
  /\ (num_lt n 3600 = true -> num_gt n 1 = false -> v = PInt 1).
Proof.
  destruct v as [| b | z | [q| | |] | | | |]; simpl; try done; intros H [= <-]; simpl.
  - apply bool_decide_eq_true_1 in H.
    split; intros; repeat case_bool_decide; try done; f_equal; lia.
  - apply andb_prop in H as [-> ->]. done.
Qed.

Lemma interval_number v : interval_ok v = true -> exists n, as_number v = Some n.
Proof. destruct v as [| | | [| | |] | | | |]; simpl; try done; eauto. Qed.

Lemma sections_eta st :
  {| monitoring := monitoring st; thresholds := thresholds st;
     logging := logging st; ui := ui st |} = st.
Proof. by destruct st. Qed.

Lemma field_int_lookup lo hi (m : gmap string pyobj) k :
  field_ok (int_between lo hi) m k = true ->
  exists z, m !! k = Some (PInt z) /\ Z.max lo (Z.min hi z) = z.
Proof.
  intros [v [Hv Hok]]%field_ok_lookup.
  destruct v; simpl in Hok; try done.
  apply bool_decide_eq_true_1 in Hok. eexists; split; [done | lia].
Qed.

Lemma validate_monitoring_fix st :
  sections_ok st = true ->
  ends (validate_monitoring (dict_copy DEFAULT_CONFIG) (dict_copy DEFAULT_CONFIG)) st
    (fun r s' => r = Ok tt /\ s' = st).
Proof.
  unfold sections_ok. intros H. repeat (apply andb_prop in H as [H ?]).
  apply field_ok_lookup in H as [e [He _]].
  match goal with H : field_ok interval_ok _ _ = true |- _ =>
    apply field_ok_lookup in H as [v [Hv Hok]] end.
  destruct (interval_number v Hok) as [n Hn].
  destruct (clamp_fix v n Hok Hn) as (F1 & F2).
  unfold validate_monitoring. rewrite !validated_monitoring, contains_monitoring.
  unfold and_then, py_min, py_max, dict_get, py_lt, py_gt.
  wp; simplify_eq/=.
  all: rewrite ?He in *; simpl in *; rewrite ?(insert_id _ _ _ He) in *.
  all: rewrite ?Hv in *; simpl in *; simplify_eq.
  all: split; [reflexivity|].
  all: first [ rewrite <- F1 by done | rewrite <- F2 by done | idtac ].
  all: rewrite (insert_id _ _ _ Hv); apply sections_eta.
Qed.

Lemma validate_threshold_fix st key :
  field_ok (int_between 0 100) (thresholds st) key = true ->
  ends (validate_threshold (dict_copy DEFAULT_CONFIG) (dict_copy DEFAULT_CONFIG) key) st
    (fun r s' => r = Ok tt /\ s' = st).
Proof.
  intros [z [Hz Hc]]%field_int_lookup.
  unfold validate_threshold. rewrite !validated_thresholds.
  unfold py_contains, py_getitem, py_int.
  wp; simplify_eq/=.
  all: rewrite ?Hz in *; simplify_eq/=; try done.
  rewrite Hc, (insert_id _ _ _ Hz). split; [done | apply sections_eta].
Qed.

Lemma validate_thresholds_fix st :
  sections_ok st = true ->
  ends (validate_thresholds (dict_copy DEFAULT_CONFIG) (dict_copy DEFAULT_CONFIG)) st
    (fun r s' => r = Ok tt /\ s' = st).
Proof.
  unfold sections_ok. intros H. repeat (apply andb_prop in H as [H ?]).
  unfold validate_thresholds.
  apply ends_bind. eapply ends_mono; [apply section_check|].
  intros r s' [-> ->]. simpl.
  apply ends_bind. eapply ends_mono; [by apply validate_threshold_fix|].
  intros r s' [-> ->].
  apply ends_bind. eapply ends_mono; [by apply validate_threshold_fix|].
  intros r s' [-> ->].
  by apply validate_threshold_fix.
Qed.

Lemma validate_logging_fix st :
  sections_ok st = true ->
  ends (validate_logging (dict_copy DEFAULT_CONFIG) (dict_copy DEFAULT_CONFIG)) st
    (fun r s' => r = Ok tt /\ s' = st).
Proof.
  unfold sections_ok. intros H. repeat (apply andb_prop in H as [H ?]).
  repeat match goal with
         | H : field_ok any_value (logging _) _ = true |- _ =>
             apply field_ok_lookup in H as [? [? _]]
         | H : field_ok (int_between 1 365) _ _ = true |- _ =>
             apply field_int_lookup in H as [z [Hz Hc]]
         end.
  unfold validate_logging. rewrite !validated_logging, contains_logging.
  unfold and_then, dict_get, py_int.
  wp; simplify_eq/=.
  all: repeat match goal with
         | E : logging _ !! ?k = Some ?v |- _ =>
             progress (rewrite ?E in *; simpl in *; rewrite ?(insert_id _ _ _ E) in * )
         end; simplify_eq/=; try done.
  rewrite Hc.
  repeat match goal with
         | E : logging _ !! ?k = Some ?v |- _ =>
             progress (rewrite ?E in *; simpl in *; rewrite ?(insert_id _ _ _ E) in * )
         end.
  split; [done | apply sections_eta].
Qed.

Lemma validate_ui_fix st :
  ends (validate_ui (dict_copy DEFAULT_CONFIG) (dict_copy DEFAULT_CONFIG)) st
    (fun r s' => r = Ok tt /\ s' = st).
Proof.
  unfold validate_ui. rewrite !validated_ui, contains_ui.
  unfold and_then.
  wp; simplify_eq/=.
  rewrite (idemp (∪) (ui st)). split; [done | apply sections_eta].
Qed.

(** Validating what validation returned changes nothing. *)
Lemma validate_default_fix st :
  sections_ok st = true ->
  validate_config (dict_copy DEFAULT_CONFIG) st = (Ok DEFAULT_CONFIG, st).
Proof.
  intros H.
  assert (E : ends (validate_config (dict_copy DEFAULT_CONFIG)) st
                (fun r s' => r = Ok DEFAULT_CONFIG /\ s' = st)).
  { unfold validate_config.
    apply ends_bind. eapply ends_mono; [by apply validate_monitoring_fix|].
    intros r s' [-> ->].
    apply ends_bind. eapply ends_mono; [by apply validate_thresholds_fix|].
    intros r s' [-> ->].
    apply ends_bind. eapply ends_mono; [by apply validate_logging_fix|].
    intros r s' [-> ->].
    apply ends_bind. eapply ends_mono; [by apply validate_ui_fix|].
    intros r s' [-> ->]. by apply ends_ret. }
  unfold ends in E. destruct (validate_config _ st) as [r s'].
  simpl in E. destruct E as [-> ->]. reflexivity.
Qed.

End WithStrToInt.
End ConfigIdem.

Module ConfigClaims.
Import Config ConfigFacts ConfigIdem.

Section WithStrToInt.
Context {str_to_int : StrToInt}.

Lemma validate_empty st :
  validate_config (PDict ∅) st = (Ok DEFAULT_CONFIG, st).
Proof. reflexivity. Qed.

(** C9: validation is idempotent.  From well-formed sections, validating
    the outcome of a validation gives that outcome again: the same config
    and the same section contents when the first call returns, the same
    exception when it raises. *)
Theorem validate_config_idempotent (x : pyobj) (st : sections) :
  sections_ok st = true ->
  (validate_config x ≫= validate_config) st = validate_config x st.
Proof.
  intros Hst.
  pose proof (validate_config_keeps x st Hst) as K.
  unfold mbind, M_bind.
  destruct (validate_config x st) as [[cfg|e] st1] eqn:E; [|reflexivity].
  rewrite (validate_config_value _ _ _ _ E).
  by apply validate_default_fix.
Qed.

Lemma monitoring_untouched {A} (c : M sections A) (mon : gmap string pyobj) :
  (forall st, ends c st (fun _ st' => monitoring st' = monitoring st)) ->
  keeps (fun st => monitoring st = mon) c.
Proof. intros H st <-. apply H. Qed.

Lemma validate_threshold_monitoring config key mon :
  keeps (fun st => monitoring st = mon)
    (validate_threshold config (dict_copy DEFAULT_CONFIG) key).
Proof.
  apply monitoring_untouched. intros st.
  unfold validate_threshold. rewrite !validated_thresholds.
  unfold py_contains, py_getitem, py_int.
  wp; simplify_eq/=; done.
Qed.

Lemma validate_thresholds_monitoring config mon :
  keeps (fun st => monitoring st = mon)
    (validate_thresholds config (dict_copy DEFAULT_CONFIG)).
Proof.
  unfold validate_thresholds. apply keeps_bind.
  - apply monitoring_untouched. intros st.
    unfold and_then, py_contains, py_getitem. wp; simplify_eq/=; done.
  - intros []; [|apply keeps_ret].
    repeat (apply keeps_bind; [|intros _]);
      apply validate_threshold_monitoring.
Qed.

Lemma validate_logging_monitoring config mon :
  keeps (fun st => monitoring st = mon)
    (validate_logging config (dict_copy DEFAULT_CONFIG)).
Proof.
  apply monitoring_untouched. intros st.
  unfold validate_logging. rewrite !validated_logging.
  unfold and_then, py_contains, py_getitem, dict_get, py_int.
  wp; simplify_eq/=; done.
Qed.

Lemma validate_ui_monitoring config mon :
  keeps (fun st => monitoring st = mon)
    (validate_ui config (dict_copy DEFAULT_CONFIG)).
Proof.
  apply monitoring_untouched. intros st.
  unfold validate_ui. rewrite !validated_ui.
  unfold and_then, py_contains, py_getitem.
  wp; simplify_eq/=; done.
Qed.

Lemma validate_monitoring_writes (m d : gmap string pyobj) (v : Z) st :
  m !! "monitoring" = Some (PDict d) ->
  d !! "interval_seconds" = Some (PInt v) ->
  1 <= v <= 3600 ->
  ends (validate_monitoring (PDict m) (dict_copy DEFAULT_CONFIG)) st
    (fun r st' => r = Ok tt
                  /\ monitoring st' !! "interval_seconds" = Some (PInt v)).
Proof.
  intros Hm Hd Hv.
  unfold validate_monitoring. rewrite !validated_monitoring.
  apply ends_bind. eapply ends_mono; [apply section_check|].
  intros r s' [-> ->]. rewrite Hm. simpl.
  unfold py_min, py_max, py_getitem, dict_get, py_lt, py_gt.
  wp; simplify_eq/=.
  all: rewrite ?Hm in *; simplify_eq/=; rewrite ?Hd in *; simplify_eq/=.
  all: split; [reflexivity|].
  all: repeat match goal with
         | H : bool_decide _ = _ |- _ =>
             first [apply bool_decide_eq_true_1 in H
                   | apply bool_decide_eq_false_1 in H]
         end.
  all: rewrite lookup_insert_eq; f_equal; f_equal; lia.
Qed.

(** C10: the sections of [DEFAULT_CONFIG] are shared by every validated
    config.  After [validate_config(x)] where [x] sets an in-range
    [monitoring.interval_seconds] [v], validating the empty mapping
    returns a config whose interval is [v], whatever the sections held
    before, and not the default 10 of a fresh process. *)
Theorem validate_config_shares_sections
    (m d : gmap string pyobj) (v : Z) (st : sections) :
  m !! "monitoring" = Some (PDict d) ->
  d !! "interval_seconds" = Some (PInt v) ->
  1 <= v <= 3600 ->
  let st1 := (validate_config (PDict m) st).2 in
  (exists cfg,
      validate_config (PDict ∅) st1 = (Ok cfg, st1)
      /\ config_field st1 cfg "monitoring" "interval_seconds" = Some (PInt v))
  /\ (exists cfg,
         validate_config (PDict ∅) DEFAULT_SECTIONS = (Ok cfg, DEFAULT_SECTIONS)
         /\ config_field DEFAULT_SECTIONS cfg "monitoring" "interval_seconds"
            = Some (PInt 10)).
Proof.
  intros Hm Hd Hv st1. split; [|by exists DEFAULT_CONFIG].
  exists DEFAULT_CONFIG. split; [apply validate_empty|].
  change (monitoring st1 !! "interval_seconds" = Some (PInt v)).
  subst st1. unfold validate_config.
  pose proof (validate_monitoring_writes m d v st Hm Hd Hv) as W.
  unfold ends in W. unfold mbind at 1, M_bind at 1.
  destruct (validate_monitoring (PDict m) (dict_copy DEFAULT_CONFIG) st)
    as [r s1]. simpl in W. destruct W as [-> W].
  set (rest := (_ ≫= _)).
  assert (K : keeps (fun st' => monitoring st' = monitoring s1) rest).
  { subst rest.
    apply keeps_bind; [apply validate_thresholds_monitoring | intros _].
    apply keeps_bind; [apply validate_logging_monitoring | intros _].
    apply keeps_bind; [apply validate_ui_monitoring | intros _].
    apply keeps_ret. }
  rewrite (K s1 eq_refl). exact W.
Qed.

End WithStrToInt.

(** C3 as stated fails: [min(3600, "abc")] raises [TypeError], so this
    input is not validated at all. *)
Lemma validate_config_raises :
  validate_config (str_to_int := decimal_int) text_interval DEFAULT_SECTIONS
  = (Raise TypeError,
     section_set Monitoring
       (<["enabled" := PBool true]> (monitoring DEFAULT_SECTIONS))
       DEFAULT_SECTIONS)
  /\ ~ returns_in_bounds (str_to_int := decimal_int) text_interval DEFAULT_SECTIONS.
Proof.
  assert (E : (validate_config (str_to_int := decimal_int) text_interval
                 DEFAULT_SECTIONS).1 = Raise TypeError) by (vm_compute; reflexivity).
  split.
  - vm_compute. reflexivity.
  - intros (cfg & st' & H & _). rewrite H in E. discriminate E.
Qed.

Lemma validate_config_idempotent_witness :
  sections_ok DEFAULT_SECTIONS = true
  /\ (validate_config (str_to_int := decimal_int) wild_config
        ≫= validate_config (str_to_int := decimal_int)) DEFAULT_SECTIONS
     = validate_config (str_to_int := decimal_int) wild_config DEFAULT_SECTIONS.
Proof.
  split; [vm_compute; reflexivity|].
  apply (validate_config_idempotent (str_to_int := decimal_int)
           wild_config DEFAULT_SECTIONS).
  vm_compute; reflexivity.
Defined.

Lemma validate_config_shares_sections_witness :
  let st1 := (validate_config (str_to_int := decimal_int)
                (PDict interval_42) DEFAULT_SECTIONS).2 in
  exists cfg,
    validate_config (str_to_int := decimal_int) (PDict ∅) st1 = (Ok cfg, st1)
    /\ config_field st1 cfg "monitoring" "interval_seconds" = Some (PInt 42).
Proof.
  apply (validate_config_shares_sections (str_to_int := decimal_int)
           interval_42 {[ "interval_seconds" := PInt 42 ]} 42 DEFAULT_SECTIONS);
    [vm_compute; reflexivity | vm_compute; reflexivity | lia].
Defined.

End ConfigClaims.

Module LogFacts.
Import Server.

Lemma sections_put_back (w : world) :
  set_default_sections (default_sections w) w = w.
Proof. by destruct w. Qed.

Lemma ends_on_sections {A} (g : sections -> result A) (w : world) Q :
  Q (g (default_sections w)) w -> ends (on_sections (reading g)) w Q.
Proof.
  intros H. unfold ends, on_sections, zoom, reading. simpl.
  rewrite sections_put_back. exact H.
Qed.

Lemma io_only_refl w : io_only w w.
Proof. by repeat split. Qed.

Lemma io_only_trans w1 w2 w3 : io_only w1 w2 -> io_only w2 w3 -> io_only w1 w3.
Proof.
  unfold io_only. intros (?&?&?&?&?) (?&?&?&?&?).
  repeat split; congruence.
Qed.

Lemma io_only_logs x w : io_only w (set_LOG_DIR x w).
Proof. by repeat split. Qed.

Lemma io_only_stdout x w : io_only w (set_stdout x w).
Proof. by repeat split. Qed.

Lemma world_ok_io w w' : world_ok w -> io_only w w' -> world_ok w'.
Proof.
  unfold world_ok, io_only. intros [? ?] (?&?&_). split; congruence.
Qed.

Create HintDb io.
#[local] Hint Resolve io_only_refl io_only_logs io_only_stdout : io.

(** Reading steps of the handlers, on top of [wp_step]. *)
Ltac wp_io :=
  repeat first
    [ lazymatch goal with
      | |- ends (on_sections (reading _)) _ _ => apply ends_on_sections
      | |- ends (print _) _ _ => unfold print
      | |- ends glob_logs _ _ => unfold glob_logs
      end
    | wp_step
    | case_match; try discriminate ].

Lemma unlink_io name w :
  ends (unlink name) w (fun _ w' => io_only w w').
Proof. unfold unlink. wp_io; auto with io. Qed.

Lemma cleanup_loop_io (cutoff : pyfloat) (files : list (string * log_file)) w :
  ends (for_each files (fun log_file =>
          try_except
            (if float_gt cutoff (lf_mtime log_file.2)
             then unlink log_file.1 else mret tt)
            (fun e => print ("Log cleanup error: " +:+ exn_str e)))) w
    (fun r w' => r = Ok tt /\ io_only w w').
Proof.
  revert w. induction files as [|f files IH]; intros w; simpl.
  - apply ends_ret. auto with io.
  - apply ends_bind, ends_try.
    destruct (float_gt cutoff (lf_mtime f.2)).
    + eapply ends_mono; [apply unlink_io|].
      intros [[]|e] w1 H1; simpl.
      * eapply ends_mono; [apply IH|].
        intros r w2 [-> H2]. split; [done | by eapply io_only_trans].
      * unfold print. apply ends_modify.
        eapply ends_mono; [apply IH|].
        intros r w2 [-> H2]. split; [done|].
        eapply io_only_trans; [|exact H2].
        eapply io_only_trans; [exact H1 | auto with io].
    + apply ends_ret. apply IH.
Qed.

Lemma cleanup_old_logs_io h w :
  ends (cleanup_old_logs h) w (fun _ w' => io_only w w').
Proof.
  unfold cleanup_old_logs, Config.py_getitem, retention_cutoff.
  wp_io; auto with io.
  all: eapply ends_mono; [apply cleanup_loop_io|]; by intros r w' [_ ?].
Qed.

(** [write_log] always returns and touches nothing but the log directory
    and the console. *)
Lemma write_log_io h level text args w :
  world_ok w ->
  ends (write_log h level text args) w (fun r w' => r = Ok tt /\ io_only w w').
Proof.
  intros [HC Hs].
  unfold Config.sections_ok in Hs. repeat (apply andb_prop in Hs as [Hs ?]).
  match goal with H : Config.field_ok _ (logging _) "enabled" = true |- _ =>
    apply ConfigFacts.field_ok_lookup in H as [v [Hv _]] end.
  unfold write_log. apply ends_bind, ends_gets. rewrite HC.
  apply ends_bind.
  change (Config.py_getitem DEFAULT_CONFIG "logging")
    with (Config.py_getitem (dict_copy DEFAULT_CONFIG) "logging").
  rewrite ConfigFacts.validated_logging. apply ends_on_sections.
  unfold Config.py_getitem, py_truthy.
  apply ends_bind, ends_on_sections. simpl. rewrite Hv.
  apply ends_bind, ends_on_sections.
  destruct (truthy _ v); simpl; [|apply ends_ret; auto with io].
  apply ends_try, ends_bind. unfold append_line.
  destruct (log_dir_writable h).
  - apply ends_modify.
    eapply ends_mono; [apply cleanup_old_logs_io|].
    intros [[]|e] w' H'; simpl.
    + split; [done|]. eapply io_only_trans; [|exact H']. auto with io.
    + unfold print. apply ends_modify. split; [done|].
      eapply io_only_trans; [|apply io_only_stdout].
      eapply io_only_trans; [|exact H']. auto with io.
  - apply ends_raise. unfold print. apply ends_modify. auto with io.
Qed.

Lemma initial_world_ok logs : world_ok (initial_world logs).
Proof. split; reflexivity. Qed.

Lemma read_only_on_sections {A} (c : M sections A) (w : world) :
  Config.sections_ok (default_sections w) = true ->
  CONFIG w = DEFAULT_CONFIG ->
  keeps (fun st => Config.sections_ok st = true) c ->
  world_ok (on_sections c w).2.
Proof.
  intros Hs HC K. unfold on_sections, zoom.
  specialize (K _ Hs). destruct (c (default_sections w)) as [r st].
  simpl in *. by split.
Qed.

End LogFacts.

Module InfoFacts.
Import Server LogFacts.

Lemma uniform_within (a b : Z) (r : Q) :
  a <= b -> (0 <= r)%Q -> (r < 1)%Q -> num_within a b (uniform a b r) = true.
Proof.
  intros Hab H0 H1. unfold uniform, num_within.
  assert (Hd : (0 <= inject_Z b - inject_Z a)%Q).
  { unfold Qminus. rewrite <- Qle_minus_iff. by rewrite <- Zle_Qle. }
  apply andb_true_intro; split; apply Qle_bool_iff.
  - rewrite <- (Qplus_0_r (inject_Z a)) at 1.
    apply Qplus_le_r. by apply Qmult_le_0_compat.
  - apply Qle_trans with (inject_Z a + (inject_Z b - inject_Z a) * 1)%Q.
    + apply Qplus_le_r. apply Qmult_le_compat_nonneg.
      * split; [exact Hd | apply Qle_refl].
      * split; [exact H0 | by apply Qlt_le_weak].
    + apply Qle_lteq. right. ring.
Qed.

Lemma fake_within_bands h : unit_draws h -> within_bands (get_fake_info h) = true.
Proof.
  intros H. unfold within_bands, get_fake_info.
  cbn [cpu_percent memory_percent memory_available_mb disk_io disk_io_write].
  rewrite !uniform_within by (lia || apply H). reflexivity.
Qed.

(** A native sampler: when psutil fails the exception stops at the
    sampler, is logged, and the synthetic reading is returned. *)
Lemma sampler_falls_back h os_name text w :
  world_ok w ->
  ends (try_except (read_psutil h os_name)
          (fun e => write_log h "ERROR" (text e) [];; mret (get_fake_info h))) w
    (fun r w' => exists info,
         r = Ok info /\ io_only w w'
         /\ (native_fails h = true -> info = get_fake_info h)).
Proof.
  intros Hw. unfold read_psutil, native_fails.
  apply ends_try.
  destruct (virtual_memory h) as [vm|e1]; simpl;
    [destruct (disk_io_counters h) as [disk|e2]; simpl;
     [destruct (psutil_cpu_percent h) as [cpu|e3]; simpl|]|].
  1: { unfold ends; simpl. eexists. split; [done|].
       split; [apply io_only_refl | done]. }
  all: unfold ends at 1; simpl.
  all: apply ends_bind; eapply ends_mono; [by apply write_log_io|].
  all: intros r w' [-> Hio]; apply ends_ret; eauto.
Qed.

(** C2: [get_system_info] never raises, whatever psutil does; an exception
    of the native sampler is caught at the sampler and answered by the
    fallback, and when the native sampler fails the value returned is
    the synthetic one, within its bands: cpu 5..35, memory 40..70,
    available memory 2000..8000 MB, disk read 10..100 MB and write
    5..50 MB. *)
Theorem get_system_info_never_raises (h : env) (w : world) :
  world_ok w ->
  unit_draws h ->
  exists info w',
    get_system_info h w = (Ok info, w')
    /\ io_only w w'
    /\ (native_fails h = true ->
        info = get_fake_info h /\ within_bands info = true).
Proof.
  intros Hw Hr.
  assert (E : ends (get_system_info h) w
                (fun r w' => exists info,
                     r = Ok info /\ io_only w w'
                     /\ (native_fails h = true -> info = get_fake_info h))).
  { unfold get_system_info. apply ends_try.
    assert (S : forall os_name text,
               ends (try_except (read_psutil h os_name)
                       (fun e => write_log h "ERROR" (text e) [];;
                                 mret (get_fake_info h))) w
                 (fun r w' =>
                    match r with
                    | Ok a => exists info,
                        Ok a = Ok info /\ io_only w w'
                        /\ (native_fails h = true -> info = get_fake_info h)
                    | Raise e =>
                        ends (write_log h "ERROR"
                                ("System reading failed: " +:+ exn_str e) [];;
                              mret (get_fake_info h)) w'
                          (fun r w'' => exists info,
                               r = Ok info /\ io_only w w''
                               /\ (native_fails h = true ->
                                   info = get_fake_info h))
                    end)).
    { intros os_name text.
      eapply ends_mono; [by apply sampler_falls_back|].
      intros r w' (info & -> & Hio & Hf). eauto. }
    unfold get_manjaro_info, get_windows_info, get_linux_generic_info.
    destruct (IS_MANJARO h); [|destruct (IS_WINDOWS h)]; apply S. }
  unfold ends in E. destruct (get_system_info h w) as [r w'].
  simpl in E. destruct E as (info & -> & Hio & Hf).
  exists info, w'. split; [done|]. split; [done|].
  intros Hn. rewrite (Hf Hn). split; [done | by apply fake_within_bands].
Qed.

Lemma get_system_info_never_raises_witness :
  world_ok (initial_world two_logs)
  /\ unit_draws failing_psutil
  /\ exists info w',
       get_system_info failing_psutil (initial_world two_logs) = (Ok info, w')
       /\ within_bands info = true.
Proof.
  assert (Hw : world_ok (initial_world two_logs)) by (split; reflexivity).
  assert (Hr : unit_draws failing_psutil) 
    by (intros i; unfold Qle, Qlt; simpl; lia).
  split; [exact Hw|]. split; [exact Hr|].
  destruct (get_system_info_never_raises failing_psutil
              (initial_world two_logs) Hw Hr) as (info & w' & E & _ & Hb).
  exists info, w'. split; [exact E|]. apply Hb. reflexivity.
Defined.

End InfoFacts.

Module PurgeFacts.
Import Server LogFacts.

Lemma set_LOG_DIR_twice x y w : set_LOG_DIR x (set_LOG_DIR y w) = set_LOG_DIR x w.
Proof. reflexivity. Qed.

Lemma unlink_unlocked name f w :
  LOG_DIR w !! name = Some f -> lf_locked f = false ->
  unlink name w = (Ok tt, set_LOG_DIR (delete name (LOG_DIR w)) w).
Proof.
  intros Hf Hl. unfold unlink, mbind, M_bind, gets. rewrite Hf, Hl. reflexivity.
Qed.

Lemma without_lookup l : forall m k,
  without l m !! k = if decide (k ∈ l.*1) then None else m !! k.
Proof.
  induction l as [|[name f] l IH]; intros m k.
  - change (without [] m) with m.
    destruct (decide (k ∈ ([] : list (string * log_file)).*1)) as [H|H];
      [by apply elem_of_nil in H | done].
  - change (without ((name, f) :: l) m) with (without l (delete name m)).
    rewrite IH, fmap_cons. cbn [fst].
    destruct (decide (k = name)) as [->|Hne].
    + rewrite lookup_delete_eq. rewrite (decide_True (P := name ∈ name :: l.*1));
        [by case_decide | by left].
    + rewrite lookup_delete_ne by done.
      destruct (decide (k ∈ l.*1)) as [H|H].
      * rewrite decide_True; [done | by right].
      * rewrite decide_False; [done|].
        intros [?|?]%elem_of_cons; done.
Qed.

Lemma without_all (m : gmap string log_file) : without (map_to_list m) m = ∅.
Proof.
  apply map_eq. intros k. rewrite without_lookup, lookup_empty.
  case_decide as Hk; [done|].
  destruct (m !! k) as [f|] eqn:E; [|done].
  exfalso. apply Hk. apply list_elem_of_fmap. exists (k, f).
  split; [done | by apply elem_of_map_to_list].
Qed.

Lemma unlink_all_unlocked l : forall w n,
  NoDup l.*1 ->
  (forall name, name ∈ l.*1 ->
     exists f, LOG_DIR w !! name = Some f /\ lf_locked f = false) ->
  unlink_all l n w
  = (Ok (n + length l)%nat, set_LOG_DIR (without l (LOG_DIR w)) w).
Proof.
  induction l as [|[name f] l IH]; intros w n Hnd Hl; simpl.
  - rewrite Nat.add_0_r. by destruct w.
  - apply NoDup_cons in Hnd as [Hnotin Hnd].
    destruct (Hl name) as (f' & Hf' & Hu); [rewrite fmap_cons; by left|].
    unfold mbind, M_bind. rewrite (unlink_unlocked _ _ _ Hf' Hu).
    rewrite IH; [|done|].
    + simpl. f_equal. f_equal. lia.
    + intros k Hk. destruct (Hl k) as (g & Hg & Hgu);
        [rewrite fmap_cons; by right|].
      exists g. split; [|done]. simpl.
      rewrite lookup_delete_ne; [done|]. intros ->. done.
Qed.

Lemma unlink_all_logs w :
  (forall name f, LOG_DIR w !! name = Some f -> lf_locked f = false) ->
  unlink_all (map_to_list (LOG_DIR w)) 0 w
  = (Ok (size (LOG_DIR w)), set_LOG_DIR ∅ w).
Proof.
  intros Hu. rewrite unlink_all_unlocked.
  - rewrite without_all, length_map_to_list. reflexivity.
  - apply NoDup_fst_map_to_list.
  - intros name [[k f] [-> Hin]]%list_elem_of_fmap.
    apply elem_of_map_to_list in Hin. eauto.
Qed.

Lemma fresh_log_kept (t z : Z) :
  1 <= z -> float_gt (Fin (inject_Z (t - z * 86400))) t = false.
Proof.
  intros Hz. simpl. destruct (Qlt_bool _ _) eqn:E; [|done].
  apply Qlt_bool_iff in E. rewrite <- Zlt_Qlt in E. lia.
Qed.

(** [write_log] into an empty log directory. *)
Lemma write_log_empty h level text args w :
  world_ok w -> LOG_DIR w = ∅ ->
  exists w',
    write_log h level text args w = (Ok tt, w')
    /\ io_only w w'
    /\ LOG_DIR w'
       = if logging_on w && log_dir_writable h
         then {[ today_log h :=
                   {| lf_mtime := now h;
                      lf_lines := [{| ll_time := now h; ll_level := level;
                                      ll_text := text; ll_args := args |}];
                      lf_locked := false |} ]}
         else ∅.
Proof.
  intros [HC Hs] Hempty.
  assert (E : ends (write_log h level text args) w
    (fun r w' => r = Ok tt /\ io_only w w' /\
       LOG_DIR w'
       = if logging_on w && log_dir_writable h
         then {[ today_log h :=
                   {| lf_mtime := now h;
                      lf_lines := [{| ll_time := now h; ll_level := level;
                                      ll_text := text; ll_args := args |}];
                      lf_locked := false |} ]}
         else ∅)).
  { unfold Config.sections_ok in Hs. repeat (apply andb_prop in Hs as [Hs ?]).
    match goal with H : Config.field_ok _ (logging _) "enabled" = true |- _ =>
      apply ConfigFacts.field_ok_lookup in H as [v [Hv _]] end.
    match goal with H : Config.field_ok _ (logging _) "retention_days" = true |- _ =>
      apply ConfigFacts.field_ok_lookup in H as [d [Hd Hdok]] end.
    destruct d as [| | z | | | | |]; try discriminate Hdok.
    apply bool_decide_eq_true_1 in Hdok.
    unfold logging_on. rewrite Hv.
    unfold write_log. apply ends_bind, ends_gets. rewrite HC.
    apply ends_bind.
    change (Config.py_getitem DEFAULT_CONFIG "logging")
      with (Config.py_getitem (dict_copy DEFAULT_CONFIG) "logging").
    rewrite ConfigFacts.validated_logging. apply ends_on_sections.
    unfold Config.py_getitem, py_truthy.
    apply ends_bind, ends_on_sections. simpl. rewrite Hv.
    apply ends_bind, ends_on_sections.
    destruct (truthy _ v); simpl;
      [|apply ends_ret; split; [done|]; split; [apply io_only_refl | done]].
    apply ends_try, ends_bind. unfold append_line.
    destruct (log_dir_writable h).
    - apply ends_modify. rewrite Hempty, lookup_empty. simpl.
      unfold cleanup_old_logs. apply ends_bind, ends_gets.
      simpl. rewrite HC.
      change (Config.py_getitem DEFAULT_CONFIG "logging")
        with (Config.py_getitem (dict_copy DEFAULT_CONFIG) "logging").
      rewrite ConfigFacts.validated_logging.
      apply ends_bind, ends_on_sections.
      unfold Config.py_getitem.
      apply ends_bind, ends_on_sections. simpl. rewrite Hd.
      apply ends_bind, ends_ret.
      apply ends_bind. unfold glob_logs. apply ends_gets.
      cbn [LOG_DIR set_LOG_DIR].
      rewrite insert_empty, map_to_list_singleton.
      cbn [for_each]. apply ends_bind, ends_try.
      cbn [snd lf_mtime]. rewrite fresh_log_kept by lia.
      apply ends_ret, ends_ret.
      split; [done|]. split; [apply io_only_logs|].
      reflexivity.
    - apply ends_raise. unfold print. apply ends_modify.
      split; [done|]. split; [apply io_only_stdout | done]. }
  unfold ends in E. destruct (write_log h level text args w) as [r w'].
  simpl in E. destruct E as (-> & ? & ?). eauto.
Qed.

(** C8, as amended: when every log file can be unlinked, the purge removes
    all log artifacts that were there and answers with their number; the
    purge is logged after the deletion, into the log directory itself:
    with logging on and the directory writable exactly one artifact is
    left, today's log holding the record of the purge alone, otherwise
    none is left and no record is written. *)
Theorem api_delete_logs_purges (h : env) (w : world) :
  world_ok w ->
  (forall name f, LOG_DIR w !! name = Some f -> lf_locked f = false) ->
  exists w',
    api_delete_logs h w = (Ok (purge_answer (size (LOG_DIR w))), w')
    /\ io_only w w'
    /\ LOG_DIR w'
       = if logging_on w && log_dir_writable h
         then {[ today_log h :=
                   {| lf_mtime := now h;
                      lf_lines := [purge_line h (size (LOG_DIR w))];
                      lf_locked := false |} ]}
         else ∅.
Proof.
  intros Hw Hu.
  destruct (write_log_empty h "WARNING"
              (ll_text (purge_line h (size (LOG_DIR w)))) []
              (set_LOG_DIR ∅ w)) as (w' & E & Hio & Hlogs);
    [exact Hw | reflexivity |].
  exists w'. split; [|split].
  - unfold api_delete_logs, try_except, glob_logs, mbind, M_bind, gets.
    rewrite (unlink_all_logs w Hu). simpl in E. rewrite E. reflexivity.
  - eapply io_only_trans; [apply (io_only_logs ∅)|exact Hio].
  - exact Hlogs.
Qed.

(** C8 as stated fails: with logging on, the purge of two log files leaves
    one log artifact behind, the file that records the purge. *)
Lemma purge_leaves_a_log :
  size (LOG_DIR (api_delete_logs failing_psutil (initial_world two_logs)).2) = 1%nat
  /\ ~ purge_claim failing_psutil (initial_world two_logs).
Proof.
  assert (S : size (LOG_DIR (api_delete_logs failing_psutil
                               (initial_world two_logs)).2) = 1%nat)
    by (vm_compute; reflexivity).
  split; [exact S|].
  intros (w' & E & Hsz & _). rewrite E in S. simpl in S. congruence.
Qed.

Lemma api_delete_logs_purges_witness :
  world_ok (initial_world two_logs)
  /\ exists w',
       api_delete_logs failing_psutil (initial_world two_logs)
       = (Ok (purge_answer 2), w')
       /\ size (LOG_DIR w') = 1%nat.
Proof.
  assert (Hw : world_ok (initial_world two_logs)) by (split; reflexivity).
  split; [exact Hw|].
  destruct (api_delete_logs_purges failing_psutil (initial_world two_logs) Hw)
    as (w' & E & _ & Hl).
  - intros name f Hf. unfold initial_world, two_logs in Hf. simpl in Hf.
    apply lookup_insert_Some in Hf as [[_ <-]|[_ Hf]]; [reflexivity|].
    apply lookup_singleton_Some in Hf as [_ <-]. reflexivity.
  - exists w'. split; [exact E|]. rewrite Hl. reflexivity.
Defined.

End PurgeFacts.

Module EnumFacts.
Import Server LogFacts.
Section WithLower.
Context {lowering : StrLower}.

Lemma enumerate_spec (steps : list (result proc_info)) : forall procs,
  enumerate steps procs
  = (procs ++ listing (before_failure steps), first_failure steps).
Proof.
  induction steps as [|[info|e] steps IH]; intros procs; simpl.
  - by rewrite app_nil_r.
  - rewrite IH. unfold listing. simpl.
    destruct (has_name info); simpl; [|done].
    by rewrite <- app_assoc.
  - by rewrite app_nil_r.
Qed.

End WithLower.
End EnumFacts.

Module HistoryFacts.
Import Server LogFacts.

(** C7, as amended: when SQLite answers and the table exists with [N]
    rows, the history query returns the [min(N, 100)] latest rows, the
    most recent first, in strict reverse order of insertion; the limit is
    the constant 100, whatever the caller asks for. *)
Theorem api_metrics_history_recent (h : env) (w : world) (rows : list metric_row) :
  db_reachable h = true ->
  system_metrics w = Some rows ->
  api_metrics_history h w = (Ok (history_answer (take 100 (rev rows))), w)
  /\ length (take 100 (rev rows)) = Nat.min (length rows) 100
  /\ (forall i, (i < Nat.min (length rows) 100)%nat ->
        take 100 (rev rows) !! i = rows !! (length rows - 1 - i)%nat).
Proof.
  intros Hdb Hrows. split; [|split].
  - unfold api_metrics_history, try_except, connect, select_recent,
      mbind, M_bind, gets.
    rewrite Hdb. simpl. rewrite Hrows. simpl.
    unfold history_answer. by rewrite length_fmap.
  - rewrite length_take, length_rev. lia.
  - intros i Hi. rewrite lookup_take_lt by lia.
    rewrite rev_alt. change (rev_append rows []) with (reverse rows).
    rewrite reverse_lookup by lia. f_equal. lia.
Qed.

(** C7 as stated fails: the caller asks for one row and gets both. *)
Lemma history_ignores_limit :
  requested_limit failing_psutil = 1%nat
  /\ listed "history" (api_metrics_history failing_psutil two_rows_stored).1
     = Some 2%nat
  /\ ~ history_claim failing_psutil two_rows_stored.
Proof.
  assert (L : listed "history"
                (api_metrics_history failing_psutil two_rows_stored).1
              = Some 2%nat) by (vm_compute; reflexivity).
  split; [vm_compute; reflexivity|]. split; [exact L|].
  intros H. specialize (H two_rows eq_refl). rewrite H in L.
  vm_compute in L. discriminate L.
Qed.

Lemma api_metrics_history_recent_witness :
  api_metrics_history failing_psutil two_rows_stored
  = (Ok (history_answer (take 100 (rev two_rows))), two_rows_stored).
Proof.
  apply (api_metrics_history_recent failing_psutil two_rows_stored two_rows);
    reflexivity.
Defined.

End HistoryFacts.

Module PushFacts.
Import Server LogFacts.
Section WithSqlite.
Context {sqlite : Sqlite}.

Lemma all_in_mapping (fields : list string) (m : gmap string pyobj) (w : world) :
  on_sections (all_in fields (PDict m)) w
  = (Ok (forallb (fun k => bool_decide (is_Some (m !! k))) fields), w).
Proof.
  unfold on_sections, zoom.
  assert (E : forall st,
    all_in fields (PDict m) st
    = (Ok (forallb (fun k => bool_decide (is_Some (m !! k))) fields), st)).
  { intros st. induction fields as [|k fields IH]; [reflexivity|].
    simpl. unfold mbind, M_bind, Config.py_contains, reading.
    destruct (bool_decide (is_Some (m !! k))); [apply IH | reflexivity]. }
  rewrite E. by rewrite sections_put_back.
Qed.

Lemma ends_all_in fields (m : gmap string pyobj) (w : world) Q :
  Q (Ok (forallb (fun k => bool_decide (is_Some (m !! k))) fields)) w ->
  ends (on_sections (all_in fields (PDict m))) w Q.
Proof. intros H. unfold ends. by rewrite all_in_mapping. Qed.

Lemma world_ok_same w w' :
  world_ok w -> default_sections w' = default_sections w -> CONFIG w' = CONFIG w ->
  world_ok w'.
Proof. unfold world_ok. intros [? ?] -> ->. done. Qed.

Ltac same_memory :=
  unfold stored_after, io_only in *; simpl in *;
  repeat match goal with H : _ /\ _ |- _ => destruct H end;
  repeat split; congruence.

Lemma ends_sql_bind (v : pyobj) (w : world) Q :
  Q (Ok v) w -> (forall e, Q (Raise e) w) -> ends (sql_bind v) w Q.
Proof.
  intros H1 H2. unfold ends, sql_bind.
  destruct v; simpl; try done; [case_bool_decide | destruct (utf8_encodable _)];
    simpl; done.
Qed.

(** The steps of [api_system_update] after the payload is stored. *)
Ltac push_step Hw :=
  lazymatch goal with
  | |- ends (on_sections (reading _)) _ _ => apply ends_on_sections
  | |- ends (write_log _ _ _ _) _ _ =>
      eapply ends_mono;
      [apply write_log_io; eapply world_ok_same; [exact Hw | same_memory ..]|];
      intros ? ? [-> ?]
  | |- ends (connect _) _ _ => unfold connect
  | |- ends (sql_bind ?v) _ _ => apply ends_sql_bind; [|intros ?]
  | |- ends (if ?b then _ else _) _ _ => destruct b eqn:?
  | |- ends (match ?v with _ => _ end) _ _ => destruct v eqn:?
  | |- _ => wp_step
  end.

Lemma api_system_update_mapping (h : env) (m : gmap string pyobj) (w : world) :
  world_ok w ->
  ends (api_system_update h (PDict m)) w
    (fun r w' => (exists x, r = Ok x) /\ stored_after m w w'
                 /\ (passes_checks m = false ->
                     w' = w /\ exists x, r = Ok x /\ status x = 400)).
Proof.
  intros Hw. unfold api_system_update, py_truthy, Config.dict_get.
  apply ends_try, ends_bind, ends_on_sections.
  cbv beta iota delta [truthy].
  destruct (bool_decide (m = ∅)) eqn:Hm; cbn [negb].
  { assert (P : passes_checks m = false) by (unfold passes_checks; by rewrite Hm).
    apply ends_ret. unfold stored_after. rewrite P. eauto 10. }
  apply ends_bind, ends_all_in.
  destruct (forallb _ required_fields) eqn:Hf; cbn [negb].
  2: { assert (P : passes_checks m = false)
         by (unfold passes_checks; by rewrite Hm, Hf).
       apply ends_ret. unfold stored_after. rewrite P. eauto 10. }
  assert (P : passes_checks m = true)
    by (unfold passes_checks; by rewrite Hm, Hf).
  unfold stored_after. rewrite P. clear Hm Hf.
  repeat (push_step Hw; cbn [Config.dict_items]).
  all: try (split; [eauto|]; split; [same_memory | done]).
Qed.

Lemma serve_returning (h : env) (handler : M world response) (w : world) r w' :
  handler w = (Ok r, w') -> serve h handler w = (r, w').
Proof. intros E. unfold serve, try_except. by rewrite E. Qed.

Lemma push_mapping (h : env) (m : gmap string pyobj) (w : world) :
  world_ok w ->
  exists r w',
    serve h (api_system_update h (PDict m)) w = (r, w')
    /\ world_ok w'
    /\ javafx_metrics w' = (if passes_checks m then PDict m else javafx_metrics w)
    /\ (passes_checks m = false -> w' = w /\ status r = 400).
Proof.
  intros Hw. pose proof (api_system_update_mapping h m w Hw) as E.
  unfold ends in E. destruct (api_system_update h (PDict m) w) as [r w'] eqn:Er.
  simpl in E. destruct E as ([x ->] & (Hs & Hc & Hj) & Hrej).
  exists x, w'. split; [by apply serve_returning|].
  split; [by eapply world_ok_same|]. split; [exact Hj|].
  intros Hp. destruct (Hrej Hp) as (-> & y & [= <-] & Hy). done.
Qed.

Lemma serve_pushes_stored (pushes : list (env * pyobj)) :
  forall (w : world) (latest : option (gmap string pyobj)),
    world_ok w ->
    javafx_metrics w = PDict (default ∅ latest) ->
    Forall (fun p => is_mapping p.2 = true) pushes ->
    world_ok (serve_pushes pushes w).2
    /\ javafx_metrics (serve_pushes pushes w).2
       = PDict (default ∅ (last_stored pushes latest)).
Proof.
  induction pushes as [|[h payload] pushes IH]; intros w latest Hw Hj Hall.
  - done.
  - apply Forall_cons in Hall as [Hp Hall].
    destruct payload as [| | | | | | m |]; try discriminate Hp.
    destruct (push_mapping h m w Hw) as (r & w1 & E & Hw1 & Hj1 & _).
    cbn [serve_pushes last_stored]. rewrite E.
    specialize (IH w1 (if passes_checks m then Some m else latest) Hw1).
    destruct (serve_pushes pushes w1) as [rs w2]. simpl in *.
    apply IH; [|done]. rewrite Hj1. by destruct (passes_checks m).
Qed.

Lemma last_stored_passes (pushes : list (env * pyobj)) :
  forall latest m,
    (forall m', latest = Some m' -> passes_checks m' = true) ->
    last_stored pushes latest = Some m -> passes_checks m = true.
Proof.
  induction pushes as [|[h payload] pushes IH]; intros latest m Hl E; simpl in E.
  - by apply Hl.
  - destruct payload; try (by eapply IH).
    eapply IH; [|exact E].
    intros m'. destruct (passes_checks _) eqn:P; [by intros [= <-] | apply Hl].
Qed.

Lemma enhanced_view_of (h : env) (w : world) (m : gmap string pyobj) :
  javafx_metrics w = PDict m ->
  (api_system_info_enhanced h w).1
  = if bool_decide (m = ∅) then fallback_view h w
    else Ok (ok_response (display m)).
Proof.
  intros Hj. unfold api_system_info_enhanced, fallback_view.
  unfold mbind at 1, M_bind at 1, gets. rewrite Hj.
  unfold mbind at 1, M_bind at 1, py_truthy, on_sections, zoom, reading.
  cbn [truthy]. rewrite sections_put_back.
  destruct (bool_decide (m = ∅)); cbn [negb].
  - unfold mbind, M_bind. by destruct (get_system_info h w) as [[info|e] w'].
  - reflexivity.
Qed.

(** C5, as amended: the enhanced view shows the payload held in memory:
    after pushes of JSON objects to a fresh process, it is the display
    shape (absent fields defaulted) of the latest push that passed the
    checks, non-empty and with the three required fields, whether or not
    that push was then answered 200; when no push passed the checks it
    is what [get_system_info] gives. *)
Theorem enhanced_view_latest_stored
    (pushes : list (env * pyobj)) (logs : gmap string log_file) (h : env) :
  Forall (fun p => is_mapping p.2 = true) pushes ->
  let run := serve_pushes pushes (initial_world logs) in
  (api_system_info_enhanced h run.2).1
  = match last_stored pushes None with
    | Some m => Ok (ok_response (display m))
    | None => fallback_view h run.2
    end.
Proof.
  intros Hall run.
  destruct (serve_pushes_stored pushes (initial_world logs) None) as [Hw Hj];
    [by split | done | done |].
  fold run in Hw, Hj. rewrite (enhanced_view_of h run.2 _ Hj).
  destruct (last_stored pushes None) as [m|] eqn:E; simpl.
  - apply last_stored_passes in E; [|done].
    unfold passes_checks in E. apply andb_prop in E as [E _].
    by destruct (bool_decide (m = ∅)).
  - by rewrite bool_decide_eq_true_2.
Qed.

(** C4, the failing inputs: a JSON number has none of the required
    fields, yet the membership test raises [TypeError] on it and the push
    is answered 500; a JSON array of the three field names passes the
    checks, is stored in place of the payload, and is answered 500 when
    [.get] is called on it. *)
Theorem api_system_update_non_object :
  let w := initial_world ∅ in
  let on_number := api_system_update failing_psutil (PInt 5) w in
  let on_array := api_system_update failing_psutil array_push w in
  (status_of on_number.1 = Some 500
   /\ javafx_metrics on_number.2 = javafx_metrics w)
  /\ (status_of on_array.1 = Some 500
      /\ javafx_metrics on_array.2 = array_push
      /\ javafx_metrics w = PDict ∅).
Proof. vm_compute. repeat split; reflexivity. Qed.

(** A JSON object that lacks a required field is answered 400 and nothing
    is stored. *)
Lemma api_system_update_rejects (h : env) (m : gmap string pyobj) (w : world) :
  world_ok w ->
  passes_checks m = false ->
  exists r, api_system_update h (PDict m) w = (Ok r, w) /\ status r = 400.
Proof.
  intros Hw Hp. pose proof (api_system_update_mapping h m w Hw) as E.
  unfold ends in E. destruct (api_system_update h (PDict m) w) as [r w'].
  simpl in E. destruct E as (_ & _ & Hrej).
  destruct (Hrej Hp) as (-> & x & -> & Hx). eauto.
Qed.

End WithSqlite.

(** C5 as stated fails: a push that passes the checks is kept in memory
    even though SQLite refuses its row and the push is answered 500; the
    enhanced view then shows a payload that was never accepted. *)
Lemma enhanced_view_shows_rejected_push :
  status <$> (serve_pushes (sqlite := plain_sqlite)
                [(failing_psutil, unbindable_push)] (initial_world ∅)).1
  = [500]
  /\ ~ enhanced_view_claim (sqlite := plain_sqlite)
        [(failing_psutil, unbindable_push)] failing_psutil.
Proof.
  split; [vm_compute; reflexivity|].
  unfold enhanced_view_claim. intros H.
  apply (f_equal shows_push) in H. vm_compute in H. discriminate H.
Qed.

Lemma enhanced_view_latest_stored_witness :
  let pushes := [(failing_psutil, PDict good_push);
                 (failing_psutil, PDict ∅)] in
  Forall (fun p => is_mapping p.2 = true) pushes
  /\ (api_system_info_enhanced failing_psutil
        (serve_pushes (sqlite := plain_sqlite) pushes (initial_world ∅)).2).1
     = Ok (ok_response (display good_push)).
Proof.
  intros pushes.
  assert (F : Forall (fun p => is_mapping p.2 = true) pushes)
    by (repeat constructor).
  split; [exact F|].
  exact (enhanced_view_latest_stored pushes ∅ failing_psutil F).
Defined.

End PushFacts.

Module ApiConfigFacts.
Import Server LogFacts.
Section WithStrToInt.
Context {str_to_int : StrToInt}.

Lemma save_config_io h config w :
  world_ok w ->
  ends (save_config h config) w
    (fun r w' => (exists b, r = Ok b) /\ world_ok w' /\ CONFIG w' = CONFIG w).
Proof.
  intros Hw. unfold save_config. apply ends_try, ends_bind.
  destruct (config_writable h).
  - apply ends_modify.
    apply ends_bind. eapply ends_mono; [apply write_log_io; exact Hw|].
    intros r w' [-> Hio]. apply ends_ret.
    split; [eauto|]. split; [by eapply (world_ok_io (set_config_file _ w))|].
    apply Hio.
  - apply ends_raise.
    apply ends_bind. eapply ends_mono; [by apply write_log_io|].
    intros r w' [-> Hio]. apply ends_ret.
    split; [eauto|]. split; [by eapply world_ok_io | apply Hio].
Qed.

(** Updating the configuration keeps [CONFIG] a copy of [DEFAULT_CONFIG]
    over well-formed sections, and never lets an exception through. *)
Lemma api_config_post_ok h new_config w :
  world_ok w ->
  ends (api_config_post h new_config) w
    (fun r w' => (exists x, r = Ok x) /\ world_ok w').
Proof.
  intros [HC Hs]. unfold api_config_post. apply ends_try, ends_bind, ends_zoom.
  pose proof (ConfigFacts.validate_config_keeps new_config _ Hs) as K.
  unfold ends.
  destruct (Config.validate_config new_config (default_sections w))
    as [[cfg|e] st] eqn:E; simpl in *.
  - rewrite (ConfigFacts.validate_config_value _ _ _ _ E).
    apply ends_bind, ends_modify, ends_bind.
    eapply ends_mono; [apply save_config_io; by split|].
    intros r w' ([b ->] & Hw' & _).
    destruct b.
    + apply ends_bind. eapply ends_mono; [by apply write_log_io|].
      intros r w'' [-> Hio]. apply ends_ret.
      split; [eauto | by eapply world_ok_io].
    + apply ends_ret. eauto.
  - apply ends_bind. eapply ends_mono; [apply write_log_io; by split|].
    intros r w' [-> Hio]. apply ends_ret.
    split; [eauto|]. eapply world_ok_io; [|exact Hio]. by split.
Qed.

End WithStrToInt.
End ApiConfigFacts.

Module ScorerFacts.
Import Risk RiskFacts.
Section WithLower.
Context {lowering : StrLower}.

Lemma num_gt_weaken (x : num) (c c' : Z) :
  c <= c' -> num_gt x c' = true -> num_gt x c = true.
Proof.
  intros Hc. destruct x as [z|[q| | |]]; simpl; try done.
  - intros H%bool_decide_eq_true_1. apply bool_decide_eq_true_2. lia.
  - intros H%Qlt_bool_iff. apply Qlt_bool_iff.
    eapply Qle_lt_trans; [|exact H]. by rewrite <- Zle_Qle.
Qed.

Lemma above_weaken (x : option num) (c c' : Z) :
  c <= c' -> above x c' = true -> above x c = true.
Proof. destruct x; simpl; [apply num_gt_weaken | done]. Qed.

Lemma cpu_points_above (cpu : option num) :
  cpu_points (default (NInt 0) cpu)
  = if above cpu 80 then 40 else if above cpu 40 then 20 else 0.
Proof. destruct cpu; reflexivity. Qed.

Lemma mem_points_above (mem : option num) :
  mem_points (default (NInt 0) mem) = if above mem 20 then 20 else 0.
Proof. destruct mem; reflexivity. Qed.

(** The score as a sum of the three signals, before the verdict. *)
Lemma score_by_signals (name : option string) (cpu mem : option num) :
  compute_risk_and_verdict name cpu mem
  = let score :=
      (if keyword_hit name then 40 else 0)
      + (if above cpu 80 then 40 else if above cpu 40 then 20 else 0)
      + (if above mem 20 then 20 else 0) in
    (score, verdict_of score, engine_id).
Proof.
  unfold compute_risk_and_verdict.
  rewrite verdict_tiers, mem_branch, cpu_branch.
  rewrite cpu_points_above, mem_points_above. fold (keyword_hit name).
  destruct (keyword_hit name), (above cpu 80), (above cpu 40), (above mem 20);
    reflexivity.
Qed.

(** X1: the score is one of 0, 20, 40, 60, 80 and 100: the three signals
    never add up to more than 100, so the clamp [min(score, 100)] never
    changes anything and the cuts 10 and 70 are never met exactly. *)
Theorem risk_score_steps (name : option string) (cpu mem : option num) :
  risk_score name cpu mem ∈ [0; 20; 40; 60; 80; 100]
  /\ risk_score name cpu mem
     = (if keyword_hit name then 40 else 0)
       + (if above cpu 80 then 40 else if above cpu 40 then 20 else 0)
       + (if above mem 20 then 20 else 0).
Proof.
  unfold risk_score. rewrite score_by_signals. cbn [fst].
  split; [|reflexivity].
  destruct (keyword_hit name), (above cpu 80), (above cpu 40), (above mem 20);
    set_solver.
Qed.

(** X2: which signals give which verdict.  A process is Critical exactly
    when its name holds a keyword and either cpu is above 80 or cpu is
    above 40 with memory above 20; without a keyword in the name no cpu
    or memory reading makes it Critical.  It is Benign exactly when
    nothing fires: no keyword, cpu not above 40, memory not above 20. *)
Theorem risk_verdict_by_signals (name : option string) (cpu mem : option num) :
  (risk_verdict name cpu mem = Critical
   <-> keyword_hit name = true
       /\ (above cpu 80 = true \/ (above cpu 40 = true /\ above mem 20 = true)))
  /\ (risk_verdict name cpu mem = Benign
      <-> keyword_hit name = false /\ above cpu 40 = false
          /\ above mem 20 = false)
  /\ (keyword_hit name = true ->
      risk_verdict name cpu mem = Suspicious
      \/ risk_verdict name cpu mem = Critical).
Proof.
  unfold risk_verdict. rewrite score_by_signals. cbn [fst snd].
  pose proof (above_weaken cpu 40 80 ltac:(lia)) as W.
  destruct (keyword_hit name), (above cpu 80) eqn:E80, (above cpu 40),
    (above mem 20); try (specialize (W eq_refl); discriminate W);
    vm_compute; intuition congruence.
Qed.

Lemma num_gt_mono (x y : num) (a b : Q) (c : Z) :
  num_value x = Some a -> num_value y = Some b -> (a <= b)%Q ->
  num_gt x c = true -> num_gt y c = true.
Proof.
  intros Hx Hy Hab Hgt.
  assert (Ha : (inject_Z c < a)%Q).
  { destruct x as [z|[q| | |]]; simpl in *; simplify_eq.
    - apply bool_decide_eq_true_1 in Hgt. by rewrite <- Zlt_Qlt.
    - by apply Qlt_bool_iff. }
  assert (Hb : (inject_Z c < b)%Q) by (eapply Qlt_le_trans; eauto).
  destruct y as [z|[q| | |]]; simpl in *; simplify_eq.
  - apply bool_decide_eq_true_2. by rewrite Zlt_Qlt.
  - by apply Qlt_bool_iff.
Qed.

(** X3: the score never falls when cpu or memory rises: for finite
    readings, a larger cpu with a larger memory gives a score at least as
    high, whatever the name. *)
Theorem risk_score_monotone
    (name : option string) (cpu cpu' mem mem' : num) (a a' b b' : Q) :
  num_value cpu = Some a -> num_value cpu' = Some a' ->
  num_value mem = Some b -> num_value mem' = Some b' ->
  (a <= a')%Q -> (b <= b')%Q ->
  risk_score name (Some cpu) (Some mem)
  <= risk_score name (Some cpu') (Some mem').
Proof.
  intros Hc Hc' Hm Hm' Ha Hb.
  unfold risk_score. rewrite !score_by_signals. cbn [fst above].
  pose proof (num_gt_mono cpu cpu' a a' 80 Hc Hc' Ha) as M80.
  pose proof (num_gt_mono cpu cpu' a a' 40 Hc Hc' Ha) as M40.
  pose proof (num_gt_mono mem mem' b b' 20 Hm Hm' Hb) as M20.
  pose proof (num_gt_weaken cpu' 40 80 ltac:(lia)) as W.
  destruct (keyword_hit name), (num_gt cpu 80), (num_gt cpu 40),
    (num_gt mem 20);
    try rewrite (M80 eq_refl); try rewrite (M40 eq_refl);
    try rewrite (M20 eq_refl);
    destruct (num_gt cpu' 80) eqn:?, (num_gt cpu' 40) eqn:?,
      (num_gt mem' 20) eqn:?;
    try (specialize (W eq_refl); discriminate W); lia.
Qed.

End WithLower.

Lemma risk_score_monotone_witness :
  risk_score (lowering := ascii_only)
    (Some "bash") (Some (NInt 30)) (Some (NFloat (Fin (1 # 2))))
  <= risk_score (lowering := ascii_only)
       (Some "bash") (Some (NFloat (Fin 90))) (Some (NInt 25)).
Proof.
  apply (risk_score_monotone (lowering := ascii_only) (Some "bash") (NInt 30) (NFloat (Fin 90))
           (NFloat (Fin (1 # 2))) (NInt 25)
           (inject_Z 30) 90 (1 # 2) (inject_Z 25));
    try reflexivity; unfold Qle; simpl; lia.
Defined.

End ScorerFacts.

Module LogsFacts.
Import Server LogFacts PurgeFacts Logs.

Lemma world_ok_retention w :
  world_ok w ->
  logging (default_sections w) !! "retention_days" = Some (PInt (retention_of w))
  /\ 1 <= retention_of w <= 365.
Proof.
  intros [_ Hs]. unfold Config.sections_ok in Hs.
  repeat (apply andb_prop in Hs as [Hs ?]).
  match goal with H : Config.field_ok _ (logging _) "retention_days" = true |- _ =>
    apply ConfigFacts.field_ok_lookup in H as [d [Hd Hdok]] end.
  unfold retention_of. rewrite Hd.
  destruct d; try discriminate Hdok.
  apply bool_decide_eq_true_1 in Hdok. done.
Qed.

Lemma world_ok_enabled w :
  world_ok w ->
  exists v, logging (default_sections w) !! "enabled" = Some v
            /\ logging_on w = truthy (default_sections w) v.
Proof.
  intros [_ Hs]. unfold Config.sections_ok in Hs.
  repeat (apply andb_prop in Hs as [Hs ?]).
  match goal with H : Config.field_ok _ (logging _) "enabled" = true |- _ =>
    apply ConfigFacts.field_ok_lookup in H as [v [Hv _]] end.
  exists v. split; [done|]. unfold logging_on. by rewrite Hv.
Qed.

Lemma outdated_cutoff h w (f : log_file) :
  float_gt (Fin (inject_Z (now h - retention_of w * 86400))) (lf_mtime f)
  = outdated h w f.
Proof.
  unfold outdated. simpl. destruct (Qlt_bool _ _) eqn:E.
  - apply Qlt_bool_iff in E. rewrite <- Zlt_Qlt in E.
    by rewrite bool_decide_eq_true_2.
  - rewrite bool_decide_eq_false_2; [done|]. intros H.
    rewrite Zlt_Qlt in H. apply Qlt_bool_iff in H. congruence.
Qed.

Lemma cleanup_loop_spec (h : env) (w0 : world)
    (l : list (string * log_file)) : forall w,
  NoDup l.*1 ->
  (forall name f, (name, f) ∈ l -> LOG_DIR w !! name = Some f) ->
  exists w',
    for_each l (fun log_file =>
      try_except
        (if float_gt (Fin (inject_Z (now h - retention_of w0 * 86400)))
              (lf_mtime log_file.2)
         then unlink log_file.1 else mret tt)
        (fun e => print ("Log cleanup error: " +:+ exn_str e))) w
    = (Ok tt, w')
    /\ io_only w w'
    /\ LOG_DIR w' = without (swept h w0 l) (LOG_DIR w).
Proof.
  induction l as [|[name f] l IH]; intros w Hnd Hl.
  - exists w. split; [done|]. split; [apply io_only_refl | done].
  - apply NoDup_cons in Hnd as [Hnotin Hnd].
    assert (Hf : LOG_DIR w !! name = Some f) by (apply Hl; by left).
    cbn [for_each]. unfold mbind at 1, M_bind at 1, try_except at 1.
    cbn [fst snd]. rewrite outdated_cutoff.
    unfold swept. cbn [List.filter snd]. unfold kept_by_cleanup at 1.
    destruct (outdated h w0 f) eqn:Ho; cbn [negb orb].
    + unfold unlink, mbind at 1, M_bind at 1, gets. rewrite Hf.
      destruct (lf_locked f) eqn:Hk; cbn [negb].
      * unfold raise, print, modify.
        destruct (IH (set_stdout
                        (stdout w ++ ["Log cleanup error: " +:+
                                      exn_str (OSError "Permission denied")]) w)
                    Hnd) as (w' & E & Hio & Hlogs).
        { intros n g Hin. apply Hl. by right. }
        exists w'. split; [exact E|]. split; [|exact Hlogs].
        eapply io_only_trans; [apply io_only_stdout | exact Hio].
      * unfold modify.
        destruct (IH (set_LOG_DIR (delete name (LOG_DIR w)) w) Hnd)
          as (w' & E & Hio & Hlogs).
        { intros n g Hin. cbn [LOG_DIR set_LOG_DIR].
          rewrite lookup_delete_ne; [apply Hl; by right|].
          intros <-. apply Hnotin. apply list_elem_of_fmap. by exists (name, g). }
        exists w'. split; [exact E|]. split; [|exact Hlogs].
        eapply io_only_trans; [apply io_only_logs | exact Hio].
    + destruct (IH w Hnd) as (w' & E & Hio & Hlogs).
      { intros n g Hin. apply Hl. by right. }
      exists w'. auto.
Qed.

Lemma without_swept h w (m : gmap string log_file) :
  without (swept h w (map_to_list m)) m
  = filter (fun x => kept_by_cleanup h w x.2 = true) m.
Proof.
  apply map_eq. intros k. rewrite without_lookup.
  destruct (m !! k) as [f|] eqn:E.
  - destruct (kept_by_cleanup h w f) eqn:K.
    + rewrite decide_False.
      * symmetry. by apply map_lookup_filter_Some.
      * intros [[k' f'] [-> Hin]]%list_elem_of_fmap.
        apply list_elem_of_In, filter_In in Hin as [Hin Hs].
        apply list_elem_of_In, elem_of_map_to_list in Hin.
        simpl in *. rewrite E in Hin. injection Hin as <-.
        by rewrite K in Hs.
    + rewrite decide_True.
      * symmetry. apply map_lookup_filter_None. right.
        intros f' Hf'. simpl. rewrite E in Hf'. injection Hf' as <-.
        by rewrite K.
      * apply list_elem_of_fmap. exists (k, f). split; [done|].
        apply list_elem_of_In, filter_In. split.
        -- by apply list_elem_of_In, elem_of_map_to_list.
        -- simpl. by rewrite K.
  - replace (filter _ m !! k) with (@None log_file).
    + by case_decide.
    + symmetry. apply map_lookup_filter_None. by left.
Qed.

Lemma cleanup_old_logs_spec h w :
  world_ok w ->
  exists w',
    cleanup_old_logs h w = (Ok tt, w')
    /\ io_only w w'
    /\ LOG_DIR w' = filter (fun x => kept_by_cleanup h w x.2 = true) (LOG_DIR w).
Proof.
  intros Hw. destruct (world_ok_retention w Hw) as [Hd _].
  destruct Hw as [HC Hs].
  destruct (cleanup_loop_spec h w (map_to_list (LOG_DIR w)) w)
    as (w' & E & Hio & Hlogs).
  { apply NoDup_fst_map_to_list. }
  { intros name f Hin. by apply elem_of_map_to_list. }
  exists w'. split; [|split; [exact Hio|]].
  - unfold cleanup_old_logs. unfold mbind at 1, M_bind at 1, gets.
    rewrite HC.
    change (Config.py_getitem DEFAULT_CONFIG "logging")
      with (Config.py_getitem (dict_copy DEFAULT_CONFIG) "logging").
    rewrite ConfigFacts.validated_logging.
    unfold mbind at 1, M_bind at 1, on_sections, zoom, reading.
    rewrite sections_put_back.
    unfold mbind at 1, M_bind at 1, Config.py_getitem, reading.
    cbn [Config.dict_items section_get]. rewrite Hd, sections_put_back.
    unfold mbind at 1, M_bind at 1, retention_cutoff, mret, M_ret.
    unfold mbind at 1, M_bind at 1, glob_logs, gets.
    exact E.
  - by rewrite Hlogs, without_swept.
Qed.

(** X4: what the retention sweep removes.  [cleanup_old_logs] returns
    without an exception and leaves in the log directory exactly the
    files that are not older than [retention_days] days or cannot be
    unlinked: every unlocked file older than the period is deleted, and no
    file within the period is ever deleted. *)
Theorem cleanup_old_logs_sweeps (h : env) (w : world) :
  world_ok w ->
  exists w',
    cleanup_old_logs h w = (Ok tt, w')
    /\ io_only w w'
    /\ LOG_DIR w' = filter (fun x => kept_by_cleanup h w x.2 = true) (LOG_DIR w)
    /\ (forall name f,
          LOG_DIR w !! name = Some f ->
          now h - retention_of w * 86400 <= lf_mtime f ->
          LOG_DIR w' !! name = Some f)
    /\ (forall name f,
          LOG_DIR w !! name = Some f ->
          lf_mtime f < now h - retention_of w * 86400 ->
          lf_locked f = false ->
          LOG_DIR w' !! name = None).
Proof.
  intros Hw. destruct (cleanup_old_logs_spec h w Hw) as (w' & E & Hio & Hl).
  exists w'. split; [exact E|]. split; [exact Hio|]. split; [exact Hl|].
  split; intros name f Hf Ht.
  - rewrite Hl. apply map_lookup_filter_Some. split; [exact Hf|].
    unfold kept_by_cleanup, outdated. simpl.
    rewrite bool_decide_eq_false_2 by lia. reflexivity.
  - intros Hk. rewrite Hl. apply map_lookup_filter_None. right.
    intros f' Hf'. rewrite Hf in Hf'. injection Hf' as <-.
    unfold kept_by_cleanup, outdated. simpl.
    rewrite bool_decide_eq_true_2 by lia. rewrite Hk. done.
Qed.

Lemma cleanup_old_logs_sweeps_witness :
  world_ok (initial_world aged_logs)
  /\ exists w',
       cleanup_old_logs failing_psutil (initial_world aged_logs) = (Ok tt, w')
       /\ dom (LOG_DIR w')
          = {[ "privara_20230102.log"; "privara_20231113.log" ]}.
Proof.
  assert (Hw : world_ok (initial_world aged_logs)) by (split; reflexivity).
  split; [exact Hw|].
  destruct (cleanup_old_logs_sweeps failing_psutil (initial_world aged_logs) Hw)
    as (w' & E & _ & Hl & _).
  exists w'. split; [exact E|]. rewrite Hl. vm_compute. reflexivity.
Defined.

Lemma today_kept h w (line : log_line) (logs : gmap string log_file) :
  world_ok w -> kept_by_cleanup h w (with_line h line logs) = true.
Proof.
  intros Hw. destruct (world_ok_retention w Hw) as [_ Hr].
  unfold kept_by_cleanup, outdated, with_line. simpl.
  rewrite bool_decide_eq_false_2 by lia. reflexivity.
Qed.

Lemma write_log_run h level text args w :
  world_ok w ->
  write_log h level text args w
  = if logging_on w then
      try_except
        (append_line h {| ll_time := now h; ll_level := level;
                          ll_text := text; ll_args := args |};;
         cleanup_old_logs h)
        (fun e => print ("Log write error: " +:+ exn_str e)) w
    else (Ok tt, w).
Proof.
  intros Hw. destruct (world_ok_enabled w Hw) as (v & Hv & Hon).
  destruct Hw as [HC Hs].
  unfold write_log. unfold mbind at 1, M_bind at 1, gets. rewrite HC.
  change (Config.py_getitem DEFAULT_CONFIG "logging")
    with (Config.py_getitem (dict_copy DEFAULT_CONFIG) "logging").
  rewrite ConfigFacts.validated_logging.
  unfold mbind at 1, M_bind at 1, on_sections, zoom, reading.
  rewrite sections_put_back.
  unfold mbind at 1, M_bind at 1, Config.py_getitem, reading.
  cbn [Config.dict_items section_get]. rewrite Hv, sections_put_back.
  unfold mbind at 1, M_bind at 1, py_truthy, reading.
  rewrite sections_put_back, Hon.
  by destruct (truthy (default_sections w) v).
Qed.

(** X5: when logging is switched off [write_log] does nothing at all, and
    when the log file cannot be opened it reports on the console and leaves
    the log directory as it was; in neither case does the caller see an
    exception. *)
Theorem write_log_silent (h : env) (level text : string) (args : list pyobj)
    (w : world) :
  world_ok w ->
  (logging_on w = false -> write_log h level text args w = (Ok tt, w))
  /\ (logging_on w = true -> log_dir_writable h = false ->
      write_log h level text args w
      = (Ok tt,
         set_stdout (stdout w ++ ["Log write error: Permission denied"]) w)).
Proof.
  intros Hw. rewrite (write_log_run _ _ _ _ _ Hw). split.
  - by intros ->.
  - intros -> Hd. unfold try_except, append_line, mbind, M_bind.
    rewrite Hd. reflexivity.
Qed.

Lemma write_log_silent_witness :
  world_ok (initial_world two_logs)
  /\ logging_on (initial_world two_logs) = true
  /\ write_log unwritable_disk "INFO" "started" [] (initial_world two_logs)
     = (Ok tt,
        set_stdout ["Log write error: Permission denied"]
          (initial_world two_logs)).
Proof.
  assert (Hw : world_ok (initial_world two_logs)) by (split; reflexivity).
  split; [exact Hw|]. split; [reflexivity|].
  apply (write_log_silent unwritable_disk "INFO" "started" []
           (initial_world two_logs) Hw); reflexivity.
Defined.

Lemma write_log_written (h : env) (level text : string) (args : list pyobj)
    (w : world) :
  world_ok w ->
  logging_on w = true ->
  log_dir_writable h = true ->
  let line := {| ll_time := now h; ll_level := level;
                 ll_text := text; ll_args := args |} in
  exists w',
    write_log h level text args w = (Ok tt, w')
    /\ io_only w w'
    /\ LOG_DIR w'
       = filter (fun x => kept_by_cleanup h w x.2 = true)
           (<[today_log h := with_line h line (LOG_DIR w)]> (LOG_DIR w))
    /\ LOG_DIR w' !! today_log h = Some (with_line h line (LOG_DIR w)).
Proof.
  intros Hw Hon Hd line.
  set (w1 := set_LOG_DIR
               (<[today_log h := with_line h line (LOG_DIR w)]> (LOG_DIR w)) w).
  assert (Hw1 : world_ok w1) by (eapply world_ok_io; [exact Hw | apply io_only_logs]).
  destruct (cleanup_old_logs_spec h w1 Hw1) as (w' & E & Hio & Hl).
  assert (Hk : forall f, kept_by_cleanup h w1 f = kept_by_cleanup h w f) by done.
  exists w'. split; [|split; [|split]].
  - rewrite (write_log_run _ _ _ _ _ Hw), Hon.
    unfold try_except, append_line, mbind, M_bind. rewrite Hd.
    unfold modify. fold line. change (set_LOG_DIR _ w) with w1.
    by rewrite E.
  - eapply io_only_trans; [apply io_only_logs | exact Hio].
  - rewrite Hl. reflexivity.
  - rewrite Hl. apply map_lookup_filter_Some. split.
    + apply lookup_insert_eq.
    + simpl. rewrite Hk. by apply today_kept.
Qed.



Lemma append_nil_l (b : string) : EmptyString +:+ b = b.
Proof. reflexivity. Qed.

Lemma append_cons (x : ascii) (a b : string) :
  String x a +:+ b = String x (a +:+ b).
Proof. reflexivity. Qed.

Lemma append_assoc (a b c : string) : (a +:+ b) +:+ c = a +:+ (b +:+ c).
Proof.
  induction a as [|x a IH]; [done|]. rewrite !append_cons. by f_equal.
Qed.

Lemma append_nil_r (a : string) : a +:+ EmptyString = a.
Proof. induction a as [|x a IH]; [done|]. rewrite append_cons. by f_equal. Qed.

Lemma to_disk_app windows (a b : string) :
  to_disk windows (a +:+ b) = to_disk windows a +:+ to_disk windows b.
Proof.
  induction a as [|x a IH]; [done|]. rewrite append_cons. simpl.
  destruct (Ascii.eqb x LF && windows); rewrite IH; reflexivity.
Qed.

Lemma to_disk_single windows (s : string) :
  single_line s = true -> to_disk windows s = s.
Proof.
  induction s as [|x s IH]; simpl; [done|].
  intros [Hx Hs]%andb_prop. apply negb_true_iff, orb_false_elim in Hx as [Hx _].
  rewrite Hx. simpl. by rewrite IH.
Qed.

(** Whatever was read before, a line feed closes the line. *)
Lemma readlines_closed (text : string) : forall after_cr line,
  exists before, forall rest,
    readlines_from after_cr line (text +:+ String LF rest)
    = before ++ readlines_from false EmptyString rest.
Proof.
  induction text as [|c text IH]; intros after_cr line.
  - destruct after_cr; [exists [] | exists [line +:+ String LF EmptyString]];
      intros rest; reflexivity.
  - setoid_rewrite append_cons. simpl.
    destruct (Ascii.eqb c LF); [destruct after_cr|destruct (Ascii.eqb c CR)].
    + destruct (IH false EmptyString) as [b Hb]. by exists b.
    + destruct (IH false EmptyString) as [b Hb].
      exists ((line +:+ String LF EmptyString) :: b). intros rest. by rewrite Hb.
    + destruct (IH true EmptyString) as [b Hb].
      exists ((line +:+ String LF EmptyString) :: b). intros rest. by rewrite Hb.
    + destruct (IH false (line +:+ String c EmptyString)) as [b Hb]. by exists b.
Qed.

Lemma readlines_single (s : string) : forall line eol,
  single_line s = true ->
  eol = String LF EmptyString \/ eol = String CR (String LF EmptyString) ->
  readlines_from false line (s +:+ eol) = [line +:+ s +:+ String LF EmptyString].
Proof.
  induction s as [|c s IH]; intros line eol Hs He.
  - destruct He as [-> | ->]; reflexivity.
  - simpl in Hs. apply andb_prop in Hs as [Hc Hs].
    apply negb_true_iff, orb_false_elim in Hc as [H1 H2].
    rewrite append_cons. simpl. rewrite H1, H2. rewrite (IH _ eol Hs He).
    by rewrite append_assoc.
Qed.

Lemma last_100_length {A} (l : list A) : (length (last_100 l) <= 100)%nat.
Proof. unfold last_100. rewrite length_drop. lia. Qed.

Lemma last_100_last {A} (l : list A) (x : A) :
  last l = Some x -> last (last_100 l) = Some x.
Proof.
  unfold last_100. rewrite !last_lookup, length_drop. intros H.
  assert (0 < length l)%nat
    by (destruct l; [discriminate H | simpl; lia]).
  rewrite lookup_drop, <- H. f_equal. lia.
Qed.

Section WithFormat.
Context {line_format : LineFormat}.

Lemma written_single h line :
  single_line (render_line line) = true ->
  written h line = render_line line +:+ String LF EmptyString
  \/ written h line = render_line line +:+ String CR (String LF EmptyString).
Proof.
  intros Hs. unfold written. rewrite to_disk_app, (to_disk_single _ _ Hs).
  simpl. destruct (IS_WINDOWS h); simpl; auto.
Qed.

Lemma written_closed h line :
  exists text, written h line = text +:+ String LF EmptyString.
Proof.
  unfold written. rewrite to_disk_app. simpl.
  destruct (IS_WINDOWS h); simpl.
  - exists (to_disk true (render_line line) +:+ String CR EmptyString).
    by rewrite append_assoc.
  - eauto.
Qed.

Lemma file_text_cons h (x : log_line) (lines : list log_line) :
  file_text h (x :: lines) = written h x +:+ file_text h lines.
Proof. reflexivity. Qed.

Lemma file_text_app h (l1 l2 : list log_line) :
  file_text h (l1 ++ l2) = file_text h l1 +:+ file_text h l2.
Proof.
  induction l1 as [|x l1 IH]; [done|].
  rewrite <- app_comm_cons, !file_text_cons, IH. by rewrite append_assoc.
Qed.

Lemma file_text_closed h (lines : list log_line) :
  lines = [] \/ exists text, file_text h lines = text +:+ String LF EmptyString.
Proof.
  induction lines as [|x lines IH]; [by left|right].
  rewrite file_text_cons. destruct IH as [-> | [t Ht]].
  - destruct (written_closed h x) as [t Ht]. exists t.
    change (file_text h []) with EmptyString. by rewrite append_nil_r.
  - exists (written h x +:+ t). by rewrite Ht, append_assoc.
Qed.

Lemma readlines_last h (lines : list log_line) (line : log_line) :
  single_line (render_line line) = true ->
  last (readlines (file_text h (lines ++ [line])))
  = Some (render_line line +:+ String LF EmptyString).
Proof.
  intros Hs. rewrite file_text_app. unfold readlines.
  assert (E : file_text h [line] = written h line)
    by (rewrite file_text_cons; apply append_nil_r).
  rewrite E.
  assert (R : readlines_from false EmptyString (written h line)
              = [render_line line +:+ String LF EmptyString]).
  { destruct (written_single h line Hs) as [-> | ->];
      rewrite (readlines_single _ EmptyString _ Hs); auto. }
  destruct (file_text_closed h lines) as [-> | [t Ht]].
  - change (file_text h []) with EmptyString. by rewrite append_nil_l, R.
  - rewrite Ht, append_assoc, append_cons, append_nil_l.
    destruct (readlines_closed t false EmptyString) as [b Hb].
    rewrite Hb, R. by rewrite last_snoc.
Qed.

Lemma api_logs_run (h : env) (w : world) :
  api_logs h true w
  = (Ok (match LOG_DIR w !! today_log h with
         | Some f =>
             let lines := last_100 (readlines (file_text h (lf_lines f))) in
             ok_response
               (PDict {[ "logs" := PList (PStr <$> lines);
                         "count" := PInt (Z.of_nat (length lines)) ]})
         | None =>
             ok_response (PDict {[ "logs" := PList []; "count" := PInt 0 ]})
         end), w).
Proof.
  unfold api_logs, try_except, mbind, M_bind, gets.
  by destruct (LOG_DIR w !! today_log h).
Qed.

Lemma logs_of_answer (lines : list pyobj) (n : Z) :
  logs_of (Ok (ok_response (PDict {[ "logs" := PList lines; "count" := PInt n ]})))
  = Some lines.
Proof.
  unfold logs_of, ok_response. cbn [body].
  rewrite lookup_insert_eq. reflexivity.
Qed.


End WithFormat.


End LogsFacts.

Module InfoMore.
Import Server LogFacts InfoFacts.

Lemma read_psutil_works h os_name w :
  native_fails h = false ->
  exists info, read_psutil h os_name w = (Ok info, w) /\ os info = os_name.
Proof.
  unfold native_fails, read_psutil, lift_result, mbind, M_bind.
  destruct (virtual_memory h), (disk_io_counters h), (psutil_cpu_percent h);
    try discriminate.
  intros _. eexists. split; reflexivity.
Qed.

Lemma linux_label_not_fake (release : string) :
  "Linux (" +:+ release +:+ ")" <> "Simulated (Fallback)".
Proof. discriminate. Qed.

(** X8: the [os] field tells a synthetic reading from a native one.  When
    the psutil calls succeed [get_system_info] returns the reading labelled
    for the platform chosen at import and changes nothing, not even the
    log; the label "Simulated (Fallback)" appears exactly when a psutil
    call raised. *)
Theorem get_system_info_label (h : env) (w : world) :
  world_ok w ->
  exists info w',
    get_system_info h w = (Ok info, w')
    /\ (os info = "Simulated (Fallback)" <-> native_fails h = true)
    /\ (native_fails h = false ->
        w' = w
        /\ os info = if IS_MANJARO h then "Manjaro Linux"
                     else if IS_WINDOWS h then "Windows 11"
                     else "Linux (" +:+ platform_release h +:+ ")").
Proof.
  intros Hw. destruct (native_fails h) eqn:Hn.
  - assert (E : ends (get_system_info h) w
                  (fun r w' => r = Ok (get_fake_info h))).
    { unfold get_system_info, get_manjaro_info, get_windows_info,
        get_linux_generic_info.
      apply ends_try.
      destruct (IS_MANJARO h); [|destruct (IS_WINDOWS h)].
      all: eapply ends_mono; [by apply sampler_falls_back|].
      all: intros r w' (info & -> & _ & Hf); by rewrite Hf. }
    unfold ends in E. destruct (get_system_info h w) as [r w'].
    simpl in E. subst r. exists (get_fake_info h), w'.
    split; [done|]. split; [done|]. done.
  - assert (S : forall os_name text,
               try_except (read_psutil h os_name)
                 (fun e => write_log h "ERROR" (text e) [];;
                           mret (get_fake_info h)) w
               = (read_psutil h os_name w)).
    { intros os_name text.
      destruct (read_psutil_works h os_name w Hn) as (info & E & _).
      unfold try_except. by rewrite E. }
    unfold get_system_info, get_manjaro_info, get_windows_info,
      get_linux_generic_info, try_except at 1.
    destruct (IS_MANJARO h); [|destruct (IS_WINDOWS h)]; rewrite S.
    1: destruct (read_psutil_works h "Manjaro Linux" w Hn) as (info & E & Ho).
    2: destruct (read_psutil_works h "Windows 11" w Hn) as (info & E & Ho).
    3: destruct (read_psutil_works h ("Linux (" +:+ platform_release h +:+ ")")
                   w Hn) as (info & E & Ho).
    all: rewrite E; exists info, w; split; [done|]; rewrite Ho.
    all: split; [split; [discriminate | discriminate] | done].
Qed.

Lemma get_system_info_label_witness :
  world_ok (initial_world two_logs)
  /\ exists info w',
       get_system_info failing_psutil (initial_world two_logs) = (Ok info, w')
       /\ os info = "Simulated (Fallback)".
Proof.
  assert (Hw : world_ok (initial_world two_logs)) by (split; reflexivity).
  split; [exact Hw|].
  destruct (get_system_info_label failing_psutil (initial_world two_logs) Hw)
    as (info & w' & E & Hl & _).
  exists info, w'. split; [exact E|]. apply Hl. reflexivity.
Defined.

End InfoMore.

Module PushMore.
Import Server LogFacts PushFacts Pushes PushOutcome.
Section WithSqlite.
Context {sqlite : Sqlite}.

Lemma sql_bind_run (v : pyobj) (w : world) :
  (sql_bindable v = true /\ sql_bind v w = (Ok v, w))
  \/ (sql_bindable v = false /\ exists e, sql_bind v w = (Raise e, w)).
Proof.
  destruct v; simpl; eauto; unfold sql_bind;
    [case_bool_decide | destruct (utf8_encodable _)]; simpl; eauto.
Qed.

Lemma ends_sql_bindable (v : pyobj) (w : world) Q :
  (sql_bindable v = true -> Q (Ok v) w) ->
  (sql_bindable v = false -> forall e, Q (Raise e) w) ->
  ends (sql_bind v) w Q.
Proof.
  intros H1 H2. unfold ends.
  destruct (sql_bind_run v w) as [[Hb ->]|[Hb [e ->]]]; simpl; auto.
Qed.

Ltac outcome_facts :=
  unfold io_only, history_rows in *; simpl in *;
  repeat match goal with H : _ /\ _ |- _ => destruct H end;
  repeat split; try congruence.

Ltac stored_step Hw :=
  lazymatch goal with
  | |- ends (on_sections (reading _)) _ _ => apply ends_on_sections
  | |- ends (write_log _ _ _ _) _ _ =>
      eapply ends_mono;
      [apply write_log_io; eapply world_ok_same; [exact Hw | outcome_facts ..]|];
      intros ? ? [-> ?]
  | |- ends (connect _) _ _ => unfold connect
  | |- ends (sql_bind ?v) _ _ => apply ends_sql_bindable; [intros ?|intros ? ?]
  | |- ends (if ?b then _ else _) _ _ => destruct b eqn:?
  | |- _ => wp_step
  end.

Lemma api_system_update_stores (h : env) (m : gmap string pyobj) (w : world) :
  world_ok w ->
  passes_checks m = true ->
  ends (api_system_update h (PDict m)) w (push_outcome h m w).
Proof.
  intros Hw P. unfold passes_checks in P. apply andb_prop in P as [Hm Hf].
  apply negb_true_iff in Hm.
  unfold api_system_update, py_truthy, Config.dict_get.
  apply ends_try, ends_bind, ends_on_sections.
  cbv beta iota delta [truthy]. rewrite Hm. cbn [negb].
  apply ends_bind, ends_all_in. rewrite Hf. cbn [negb].
  unfold push_outcome, row_storable, pushed_row, pushed_values.
  cbn [forallb].
  repeat (stored_step Hw; cbn [Config.dict_items]).
  all: repeat match goal with
         | H : sql_bindable _ = _ |- _ => rewrite H
         end; cbn [andb].
  all: rewrite ?andb_false_r.
  all: try (split; [outcome_facts|]; split; [outcome_facts|];
            split; [outcome_facts|]; split; [eauto | outcome_facts]).
  all: match goal with
       | H : system_metrics _ = Some _, H' : system_metrics _ = system_metrics _
         |- _ => rewrite H, H'
       end; reflexivity.
Qed.

(** X9: which pushes of a JSON object are answered 200.  The answer is 200
    exactly when the object is not empty, has the three required fields,
    SQLite is reachable and the four values of the row can be bound: each
    is [None], a boolean, a float, an integer of 64 bits or a string that
    has a UTF-8 encoding.  Then one row is added at the end of the
    history, holding SQLite's timestamp and the values as the [REAL] and
    [INTEGER] columns store them, and the object becomes the stored
    payload.  Any other answer adds no row to the history. *)
Theorem api_system_update_object (h : env) (m : gmap string pyobj) (w : world) :
  world_ok w ->
  exists r w',
    api_system_update h (PDict m) w = (Ok r, w')
    /\ world_ok w'
    /\ (status r = 200 <-> passes_checks m = true /\ row_storable h m = true)
    /\ (status r = 200 ->
        system_metrics w' = Some (history_rows w ++ [pushed_row h m])
        /\ javafx_metrics w' = PDict m)
    /\ (status r <> 200 -> history_rows w' = history_rows w).
Proof.
  intros Hw. destruct (passes_checks m) eqn:P.
  - pose proof (api_system_update_stores h m w Hw P) as E.
    unfold ends, push_outcome in E.
    destruct (api_system_update h (PDict m) w) as [r w'].
    simpl in E. destruct E as (Hj & Hs & Hc & E).
    destruct (row_storable h m).
    + destruct E as [-> Hrows]. eexists _, w'. split; [done|].
      split; [by eapply world_ok_same|]. simpl. intuition congruence.
    + destruct E as [(x & -> & Hx) Hrows]. exists x, w'. split; [done|].
      split; [by eapply world_ok_same|].
      rewrite Hx. repeat split; try done; try lia; intuition congruence.
  - destruct (api_system_update_rejects h m w Hw P) as (r & E & Hr).
    exists r, w. split; [done|]. split; [done|].
    rewrite Hr. repeat split; try done; try lia; intuition congruence.
Qed.

Lemma history_run (h : env) (w : world) :
  api_metrics_history h w
  = (Ok (if db_reachable h then
           match system_metrics w with
           | Some rows => history_answer (take 100 (rev rows))
           | None =>
               {| status := 500;
                  body := PDict {[ "error" := PStr "no such table: system_metrics" ]} |}
           end
         else {| status := 500;
                 body := PDict {[ "error" := PStr "unable to open database file" ]} |}),
     w).
Proof.
  unfold api_metrics_history, try_except, connect, select_recent,
    mbind, M_bind, gets.
  destruct (db_reachable h); simpl; [|done].
  destruct (system_metrics w); simpl; [|done].
  unfold history_answer. by rewrite length_fmap.
Qed.

(** X10: a push that was answered 200 heads the history.  Queried right
    after, with SQLite reachable, [api_metrics_history] lists the row of
    that push first, followed by the 99 latest rows that were there
    before.  The row is listed as the table holds it: the timestamp is
    the text SQLite gave it, not the one of the payload, and the values
    are the ones the columns made of what was pushed, so that an integer
    7 pushed as [cpu_percent] comes back as the float 7.0. *)
Theorem accepted_push_heads_history
    (h h' : env) (m : gmap string pyobj) (w : world) :
  world_ok w ->
  passes_checks m = true ->
  row_storable h m = true ->
  db_reachable h' = true ->
  let w' := (api_system_update h (PDict m) w).2 in
  api_metrics_history h' w'
  = (Ok (history_answer (pushed_row h m :: take 99 (rev (history_rows w)))), w').
Proof.
  intros Hw P S Hdb w'.
  pose proof (api_system_update_stores h m w Hw P) as E.
  unfold ends, push_outcome in E. rewrite S in E.
  destruct E as (_ & _ & _ & _ & Hm).
  subst w'. rewrite history_run, Hdb, Hm, rev_app_distr. reflexivity.
Qed.

(** X11: the history query reads only.  [api_metrics_history] never
    changes the state and never raises; it answers 500 exactly when
    SQLite cannot be reached or the table [system_metrics] does not exist
    yet, which is the case until a first push got as far as the
    database, and 200 otherwise. *)
Theorem api_metrics_history_errors (h : env) (w : world) :
  exists r,
    api_metrics_history h w = (Ok r, w)
    /\ (status r = 500 <-> db_reachable h = false \/ system_metrics w = None)
    /\ (status r = 200 \/ status r = 500)
    /\ (forall logs r0 w0,
          api_metrics_history h (initial_world logs) = (Ok r0, w0) ->
          status r0 = 500).
Proof.
  eexists. split; [apply history_run|].
  split; [|split].
  - destruct (db_reachable h); [destruct (system_metrics w)|]; simpl;
      intuition (try discriminate; try lia).
  - destruct (db_reachable h); [destruct (system_metrics w)|]; simpl; auto.
  - intros logs r0 w0. rewrite history_run. intros [= <- _].
    by destruct (db_reachable h).
Qed.

Lemma names_all_fields_checks (payload : pyobj) (w : world) :
  names_all_fields payload = true ->
  truthy (default_sections w) payload = true
  /\ on_sections (all_in required_fields payload) w = (Ok true, w)
  /\ Config.dict_items (default_sections w) payload = None.
Proof.
  intros H. destruct payload as [| | | | s | l | |]; try discriminate H.
  - simpl in H. repeat (apply andb_prop in H as [? H]).
    split; [|split; [|done]].
    + simpl. destruct s; [discriminate | done].
    + unfold on_sections, zoom, all_in, required_fields, mbind, M_bind,
        Config.py_contains, reading.
      repeat match goal with E : py_in_str _ _ = true |- _ => rewrite E; clear E end.
      simpl. by rewrite sections_put_back.
  - simpl in H. repeat (apply andb_prop in H as [? H]).
    split; [|split; [|done]].
    + simpl. destruct l; [discriminate | done].
    + unfold on_sections, zoom, all_in, required_fields, mbind, M_bind,
        Config.py_contains, reading.
      repeat match goal with E : existsb _ _ = true |- _ => rewrite E; clear E end.
      simpl. by rewrite sections_put_back.
Qed.

Lemma non_object_push_stored (h : env) (payload : pyobj) (w : world) :
  world_ok w ->
  names_all_fields payload = true ->
  ends (api_system_update h payload) w
    (fun r w' => (exists x, r = Ok x /\ status x = 500)
                 /\ world_ok w' /\ javafx_metrics w' = payload).
Proof.
  intros Hw Hn.
  destruct (names_all_fields_checks payload w Hn) as (Ht & Ha & Hd).
  unfold api_system_update, py_truthy, Config.dict_get.
  apply ends_try, ends_bind, ends_on_sections. rewrite Ht. cbn [negb].
  apply ends_bind. unfold ends at 1. rewrite Ha. cbn [fst snd negb].
  apply ends_bind, ends_modify, ends_bind, ends_on_sections.
  cbn [default_sections set_javafx_metrics]. rewrite Hd.
  apply ends_bind.
  eapply ends_mono; [apply write_log_io; by eapply world_ok_same|].
  intros r w' [-> Hio]. apply ends_ret.
  split; [eauto|]. split.
  - eapply world_ok_io; [|exact Hio]. by eapply world_ok_same.
  - destruct Hio as (_ & _ & _ & -> & _). reflexivity.
Qed.

Lemma view_of_non_object (h : env) (payload : pyobj) (w : world) :
  world_ok w ->
  names_all_fields payload = true ->
  javafx_metrics w = payload ->
  exists r w',
    serve h (api_system_info_enhanced h) w = (r, w')
    /\ status r = 500 /\ world_ok w' /\ javafx_metrics w' = payload.
Proof.
  intros Hw Hn Hj.
  destruct (names_all_fields_checks payload w Hn) as (Ht & _ & Hd).
  assert (E : ends (try_except (api_system_info_enhanced h) (server_error h)) w
                (fun r w' => (exists x, r = Ok x /\ status x = 500)
                             /\ world_ok w' /\ javafx_metrics w' = payload)).
  { unfold api_system_info_enhanced, py_truthy, Config.dict_get, server_error.
    apply ends_try, ends_bind, ends_gets. rewrite Hj.
    apply ends_bind, ends_on_sections. rewrite Ht.
    apply ends_bind, ends_on_sections. rewrite Hd.
    apply ends_bind.
    eapply ends_mono; [by apply write_log_io|].
    intros r w' [-> Hio]. apply ends_ret.
    split; [eauto|]. split; [by eapply world_ok_io|].
    destruct Hio as (_ & _ & _ & -> & _). exact Hj. }
  unfold ends in E. unfold serve.
  destruct (try_except _ _ w) as [r w']. simpl in E.
  destruct E as ((x & -> & Hx) & Hw' & Hj'). by exists x, w'.
Qed.

(** X12: a push that is no JSON object can block the enhanced view.  A
    JSON array (or string) that names the three required fields passes the
    checks of [api_system_update]: it is answered 500 but is stored as
    the payload, and from then on every request of the enhanced view is
    answered 500 and leaves that payload in place. *)
Theorem non_object_push_blocks_view (h h' : env) (payload : pyobj) (w : world) :
  world_ok w ->
  names_all_fields payload = true ->
  let pushed := serve h (api_system_update h payload) w in
  let viewed := serve h' (api_system_info_enhanced h') pushed.2 in
  status pushed.1 = 500
  /\ javafx_metrics pushed.2 = payload
  /\ status viewed.1 = 500
  /\ javafx_metrics viewed.2 = payload
  /\ world_ok viewed.2.
Proof.
  intros Hw Hn pushed viewed.
  pose proof (non_object_push_stored h payload w Hw Hn) as E.
  unfold ends in E.
  destruct (api_system_update h payload w) as [r w1] eqn:Er.
  simpl in E. destruct E as ((x & -> & Hx) & Hw1 & Hj1).
  assert (Hp : pushed = (x, w1)) by (by apply serve_returning).
  destruct (view_of_non_object h' payload w1 Hw1 Hn Hj1)
    as (r2 & w2 & E2 & Hs2 & Hw2 & Hj2).
  subst viewed. rewrite Hp. cbn [fst snd]. rewrite E2. done.
Qed.

End WithSqlite.

Lemma api_system_update_object_witness :
  world_ok (initial_world ∅)
  /\ exists r w',
       api_system_update (sqlite := plain_sqlite)
         failing_psutil (PDict good_push) (initial_world ∅)
       = (Ok r, w')
       /\ status r = 200
       /\ system_metrics w'
          = Some [ {| mr_ts := "2023-11-14 22:13:20";
                      mr_cpu_percent := PFloat (Fin 7);
                      mr_memory_percent := PFloat (Fin 50);
                      mr_disk_io_mbps := PFloat (Fin 0);
                      mr_process_count := PInt 0 |} ].
Proof.
  assert (Hw : world_ok (initial_world ∅)) by (split; reflexivity).
  split; [exact Hw|].
  destruct (api_system_update_object (sqlite := plain_sqlite)
              failing_psutil good_push
              (initial_world ∅) Hw) as (r & w' & E & _ & Hs & Hrows & _).
  assert (S : status r = 200) by (apply Hs; split; vm_compute; reflexivity).
  exists r, w'. split; [exact E|]. split; [exact S|].
  by destruct (Hrows S) as [-> _].
Defined.

Lemma accepted_push_heads_history_witness :
  let pushed :=
    (api_system_update (sqlite := plain_sqlite)
       failing_psutil (PDict good_push) two_rows_stored).2 in
  world_ok two_rows_stored
  /\ api_metrics_history failing_psutil pushed
     = (Ok (history_answer
              ({| mr_ts := "2023-11-14 22:13:20";
                  mr_cpu_percent := PFloat (Fin 7);
                  mr_memory_percent := PFloat (Fin 50);
                  mr_disk_io_mbps := PFloat (Fin 0);
                  mr_process_count := PInt 0 |} :: rev two_rows)),
        pushed).
Proof.
  intros pushed.
  assert (Hw : world_ok two_rows_stored) by (split; reflexivity).
  split; [exact Hw|].
  apply (accepted_push_heads_history (sqlite := plain_sqlite)
           failing_psutil failing_psutil good_push
           two_rows_stored Hw); vm_compute; reflexivity.
Defined.

Lemma non_object_push_blocks_view_witness :
  world_ok (initial_world ∅)
  /\ names_all_fields array_push = true
  /\ status (serve failing_psutil (api_system_info_enhanced failing_psutil)
               (serve failing_psutil
                  (api_system_update (sqlite := plain_sqlite)
                     failing_psutil array_push)
                  (initial_world ∅)).2).1 = 500.
Proof.
  assert (Hw : world_ok (initial_world ∅)) by (split; reflexivity).
  split; [exact Hw|]. split; [reflexivity|].
  apply (non_object_push_blocks_view (sqlite := plain_sqlite) failing_psutil failing_psutil array_push
           (initial_world ∅) Hw eq_refl).
Defined.

End PushMore.

Module ConfigMore.
Import Config ConfigFacts ConfigKeys.
Section WithStrToInt.
Context {str_to_int : StrToInt}.

(** *** Each block writes to its own section only *)

Lemma validate_monitoring_only config st :
  ends (validate_monitoring config (dict_copy DEFAULT_CONFIG)) st
    (fun _ st' => forall s, s <> Monitoring -> section_get s st' = section_get s st).
Proof.
  unfold validate_monitoring. rewrite !validated_monitoring.
  unfold and_then, py_min, py_max, py_contains, py_getitem, dict_get, py_lt, py_gt.
  wp; simplify_eq/=; by intros [].
Qed.

Lemma validate_threshold_only config key st :
  ends (validate_threshold config (dict_copy DEFAULT_CONFIG) key) st
    (fun _ st' => forall s, s <> Thresholds -> section_get s st' = section_get s st).
Proof.
  unfold validate_threshold. rewrite !validated_thresholds.
  unfold py_contains, py_getitem, py_int.
  wp; simplify_eq/=; by intros [].
Qed.

Lemma validate_thresholds_only config st :
  ends (validate_thresholds config (dict_copy DEFAULT_CONFIG)) st
    (fun _ st' => forall s, s <> Thresholds -> section_get s st' = section_get s st).
Proof.
  unfold validate_thresholds. apply ends_bind.
  assert (C : ends (and_then (py_contains "thresholds" config)
                      (is_dict <$> py_getitem config "thresholds")) st
                (fun _ st' => st' = st)).
  { unfold and_then, py_contains, py_getitem. wp; simplify_eq/=; done. }
  eapply ends_mono; [exact C|]. intros [[]|e] s' ->; try done.
  apply ends_bind. eapply ends_mono; [apply validate_threshold_only|].
  intros [[]|e] s1 F1; [|done].
  apply ends_bind. eapply ends_mono; [apply validate_threshold_only|].
  intros [[]|e] s2 F2; [|by intros s ?; rewrite F2, F1].
  eapply ends_mono; [apply validate_threshold_only|].
  intros r s3 F3 s ?. by rewrite F3, F2, F1.
Qed.

Lemma validate_logging_only config st :
  ends (validate_logging config (dict_copy DEFAULT_CONFIG)) st
    (fun _ st' => forall s, s <> Logging -> section_get s st' = section_get s st).
Proof.
  unfold validate_logging. rewrite !validated_logging.
  unfold and_then, py_contains, py_getitem, dict_get, py_int.
  wp; simplify_eq/=; by intros [].
Qed.

Lemma validate_ui_only config st :
  ends (validate_ui config (dict_copy DEFAULT_CONFIG)) st
    (fun _ st' => forall s, s <> Ui -> section_get s st' = section_get s st).
Proof.
  unfold validate_ui. rewrite !validated_ui.
  unfold and_then, py_contains, py_getitem.
  wp; simplify_eq/=; by intros [].
Qed.

(** *** What each block leaves in its section *)

Lemma validate_monitoring_state (m d : gmap string pyobj) st :
  m !! "monitoring" = Some (PDict d) ->
  ends (validate_monitoring (PDict m) (dict_copy DEFAULT_CONFIG)) st
    (fun r st' =>
       monitoring st' !! "enabled" = Some (default (PBool true) (d !! "enabled"))
       /\ match as_number (default (PInt 10) (d !! "interval_seconds")) with
          | Some n =>
              r = Ok tt
              /\ monitoring st' !! "interval_seconds"
                 = Some (if num_lt n 3600
                         then if num_gt n 1
                              then default (PInt 10) (d !! "interval_seconds")
                              else PInt 1
                         else PInt 3600)
          | None => r = Raise TypeError
          end).
Proof.
  intros Hm.
  unfold validate_monitoring. rewrite !validated_monitoring.
  apply ends_bind. eapply ends_mono; [apply section_check|].
  intros r s' [-> ->]. rewrite Hm. simpl.
  unfold py_min, py_max, py_getitem, dict_get, py_lt, py_gt.
  cbn [dict_items]. rewrite Hm.
  set (iv := default (PInt 10) (d !! "interval_seconds")).
  set (en := default (PBool true) (d !! "enabled")).
  repeat (wp_step; cbn [py_setitem dict_items]).
  fold iv en. destruct (as_number iv) as [n|] eqn:En.
  - destruct (num_lt n 3600) eqn:Lt.
    + repeat (wp_step; cbn [py_setitem dict_items]). rewrite En.
      repeat (wp_step; cbn [py_setitem dict_items]). simpl.
      rewrite lookup_insert_ne, !lookup_insert_eq by done.
      by destruct (num_gt n 1).
    + repeat (wp_step; simpl).
      by rewrite lookup_insert_ne, !lookup_insert_eq by done.
  - simpl. by rewrite lookup_insert_eq.
Qed.

Lemma validate_threshold_state (m d : gmap string pyobj) key st :
  m !! "thresholds" = Some (PDict d) ->
  ends (validate_threshold (PDict m) (dict_copy DEFAULT_CONFIG) key) st
    (fun r st' =>
       match d !! key with
       | None => r = Ok tt /\ thresholds st' = thresholds st
       | Some v =>
           match int_of v with
           | Ok z =>
               r = Ok tt
               /\ thresholds st'
                  = <[key := PInt (Z.max 0 (Z.min 100 z))]> (thresholds st)
           | Raise e => r = Raise e /\ thresholds st' = thresholds st
           end
       end).
Proof.
  intros Hm.
  unfold validate_threshold. rewrite !validated_thresholds.
  unfold py_contains, py_getitem, py_int. cbn [dict_items]. rewrite Hm.
  repeat (wp_step; simpl).
  destruct (d !! key) as [v|] eqn:Ed.
  - rewrite bool_decide_eq_true_2 by eauto.
    repeat (wp_step; simpl). rewrite Ed.
    repeat (wp_step; simpl).
    destruct (int_of v) as [z|e]; [|done].
    by repeat (wp_step; simpl).
  - rewrite bool_decide_eq_false_2 by (by intros [? ?]).
    by repeat (wp_step; simpl).
Qed.

Lemma validate_thresholds_state (m d : gmap string pyobj) st :
  m !! "thresholds" = Some (PDict d) ->
  absent_or int_able d "cpu_alert" = true ->
  absent_or int_able d "memory_alert" = true ->
  absent_or int_able d "disk_alert" = true ->
  ends (validate_thresholds (PDict m) (dict_copy DEFAULT_CONFIG)) st
    (fun r st' =>
       r = Ok tt
       /\ forall key, key ∈ ["cpu_alert"; "memory_alert"; "disk_alert"] ->
            match d !! key with
            | None => thresholds st' !! key = thresholds st !! key
            | Some v =>
                forall z, int_of v = Ok z ->
                  thresholds st' !! key = Some (PInt (Z.max 0 (Z.min 100 z)))
            end).
Proof.
  intros Hm H1 H2 H3. unfold validate_thresholds.
  apply ends_bind. eapply ends_mono; [apply section_check|].
  intros r s' [-> ->]. rewrite Hm. cbn [is_dict].
  apply ends_bind.
  eapply ends_mono; [by apply (validate_threshold_state m d)|].
  intros r1 s1 E1.
  assert (r1 = Ok tt /\ forall key,
            thresholds s1 !! key
            = if decide (key = "cpu_alert") then
                match d !! "cpu_alert" with
                | Some v => match int_of v with
                            | Ok z => Some (PInt (Z.max 0 (Z.min 100 z)))
                            | Raise _ => None
                            end
                | None => thresholds st !! key
                end
              else thresholds st !! key) as [-> K1].
  { unfold absent_or, int_able in H1.
    destruct (d !! "cpu_alert") as [v|];
      [destruct (int_of v); [|discriminate H1]|];
      destruct E1 as [-> ->]; (split; [done|]); intros key;
      case_decide; subst; rewrite ?lookup_insert_eq, ?lookup_insert_ne by done;
      done. }
  clear E1.
  apply ends_bind.
  eapply ends_mono; [by apply (validate_threshold_state m d)|].
  intros r2 s2 E2.
  assert (r2 = Ok tt /\ forall key,
            thresholds s2 !! key
            = if decide (key = "memory_alert") then
                match d !! "memory_alert" with
                | Some v => match int_of v with
                            | Ok z => Some (PInt (Z.max 0 (Z.min 100 z)))
                            | Raise _ => None
                            end
                | None => thresholds s1 !! key
                end
              else thresholds s1 !! key) as [-> K2].
  { unfold absent_or, int_able in H2.
    destruct (d !! "memory_alert") as [v|];
      [destruct (int_of v); [|discriminate H2]|];
      destruct E2 as [-> ->]; (split; [done|]); intros key;
      case_decide; subst; rewrite ?lookup_insert_eq, ?lookup_insert_ne by done;
      done. }
  clear E2.
  eapply ends_mono; [by apply (validate_threshold_state m d)|].
  intros r3 s3 E3.
  assert (r3 = Ok tt /\ forall key,
            thresholds s3 !! key
            = if decide (key = "disk_alert") then
                match d !! "disk_alert" with
                | Some v => match int_of v with
                            | Ok z => Some (PInt (Z.max 0 (Z.min 100 z)))
                            | Raise _ => None
                            end
                | None => thresholds s2 !! key
                end
              else thresholds s2 !! key) as [-> K3].
  { unfold absent_or, int_able in H3.
    destruct (d !! "disk_alert") as [v|];
      [destruct (int_of v); [|discriminate H3]|];
      destruct E3 as [-> ->]; (split; [done|]); intros key;
      case_decide; subst; rewrite ?lookup_insert_eq, ?lookup_insert_ne by done;
      done. }
  clear E3. split; [done|].
  intros key Hk.
  assert (key = "cpu_alert" \/ key = "memory_alert" \/ key = "disk_alert")
    as [-> | [-> | ->]] by (set_unfold; tauto).
  all: rewrite K3, K2, K1; simpl.
  all: match goal with |- match ?x with _ => _ end => destruct x as [v|] end.
  all: try done.
  all: by intros z ->.
Qed.

Lemma validate_logging_state (m d : gmap string pyobj) st :
  m !! "logging" = Some (PDict d) ->
  ends (validate_logging (PDict m) (dict_copy DEFAULT_CONFIG)) st
    (fun r st' =>
       logging st' !! "enabled" = Some (default (PBool true) (d !! "enabled"))
       /\ match int_of (default (PInt 90) (d !! "retention_days")) with
          | Ok z =>
              r = Ok tt
              /\ logging st' !! "retention_days"
                 = Some (PInt (Z.max 1 (Z.min 365 z)))
              /\ logging st' !! "level"
                 = Some (default (PStr "INFO") (d !! "level"))
          | Raise e => r = Raise e
          end).
Proof.
  intros Hm.
  unfold validate_logging. rewrite !validated_logging.
  apply ends_bind. eapply ends_mono; [apply section_check|].
  intros r s' [-> ->]. rewrite Hm. simpl.
  unfold py_getitem, dict_get, py_int.
  cbn [dict_items]. rewrite Hm.
  repeat (wp_step; simpl).
  destruct (int_of (default (PInt 90) (d !! "retention_days"))) as [z|e].
  - repeat (wp_step; simpl).
    repeat split;
      repeat (first [rewrite lookup_insert_eq | rewrite lookup_insert_ne by done]);
      done.
  - simpl. by rewrite lookup_insert_eq.
Qed.

Lemma validate_ui_state (m d : gmap string pyobj) st :
  m !! "ui" = Some (PDict d) ->
  ends (validate_ui (PDict m) (dict_copy DEFAULT_CONFIG)) st
    (fun r st' => r = Ok tt /\ ui st' = d ∪ ui st).
Proof.
  intros Hm.
  unfold validate_ui. rewrite !validated_ui.
  apply ends_bind. eapply ends_mono; [apply section_check|].
  intros r s' [-> ->]. rewrite Hm. simpl.
  unfold py_getitem, dict_update. cbn [dict_items]. rewrite Hm.
  by repeat (wp_step; simpl).
Qed.

(** *** The four blocks in a row *)

Lemma validate_config_run (m : gmap string pyobj) st :
  well_typed (PDict m) = true ->
  exists s1 s2 s3 s4,
    validate_monitoring (PDict m) (dict_copy DEFAULT_CONFIG) st = (Ok tt, s1)
    /\ validate_thresholds (PDict m) (dict_copy DEFAULT_CONFIG) s1 = (Ok tt, s2)
    /\ validate_logging (PDict m) (dict_copy DEFAULT_CONFIG) s2 = (Ok tt, s3)
    /\ validate_ui (PDict m) (dict_copy DEFAULT_CONFIG) s3 = (Ok tt, s4)
    /\ validate_config (PDict m) st = (Ok DEFAULT_CONFIG, s4).
Proof.
  simpl. intros [[[H1 H2]%andb_prop H3]%andb_prop H4]%andb_prop.
  pose proof (validate_monitoring_returns m st H1) as E1. unfold ends in E1.
  destruct (validate_monitoring _ _ st) as [r1 s1] eqn:R1. simpl in E1. subst r1.
  pose proof (validate_thresholds_returns m s1 H2) as E2. unfold ends in E2.
  destruct (validate_thresholds _ _ s1) as [r2 s2] eqn:R2. simpl in E2. subst r2.
  pose proof (validate_logging_returns m s2 H3) as E3. unfold ends in E3.
  destruct (validate_logging _ _ s2) as [r3 s3] eqn:R3. simpl in E3. subst r3.
  pose proof (validate_ui_returns m s3 H4) as E4. unfold ends in E4.
  destruct (validate_ui _ _ s3) as [r4 s4] eqn:R4. simpl in E4. subst r4.
  exists s1, s2, s3, s4. repeat split; try done.
  unfold validate_config, mbind, M_bind. by rewrite R1, R2, R3, R4.
Qed.

Lemma after_monitoring config s1 :
  ends (validate_thresholds config (dict_copy DEFAULT_CONFIG);;
        validate_logging config (dict_copy DEFAULT_CONFIG);;
        validate_ui config (dict_copy DEFAULT_CONFIG);;
        mret (dict_copy DEFAULT_CONFIG)) s1
    (fun _ s' => monitoring s' = monitoring s1).
Proof.
  apply ends_bind. eapply ends_mono; [apply validate_thresholds_only|].
  intros r2 s2 F2. specialize (F2 Monitoring ltac:(done)). simpl in F2.
  destruct r2 as [[]|e]; [|done].
  apply ends_bind. eapply ends_mono; [apply validate_logging_only|].
  intros r3 s3 F3. specialize (F3 Monitoring ltac:(done)). simpl in F3.
  destruct r3 as [[]|e]; [|congruence].
  apply ends_bind. eapply ends_mono; [apply validate_ui_only|].
  intros r4 s4 F4. specialize (F4 Monitoring ltac:(done)). simpl in F4.
  destruct r4 as [[]|e]; [apply ends_ret|]; congruence.
Qed.

Lemma validate_config_block config sec st :
  (forall s, ends (validate_monitoring config (dict_copy DEFAULT_CONFIG)) s
               (fun _ s' => section_get sec s' = section_get sec s)) ->
  (forall s, ends (validate_thresholds config (dict_copy DEFAULT_CONFIG)) s
               (fun _ s' => section_get sec s' = section_get sec s)) ->
  (forall s, ends (validate_logging config (dict_copy DEFAULT_CONFIG)) s
               (fun _ s' => section_get sec s' = section_get sec s)) ->
  (forall s, ends (validate_ui config (dict_copy DEFAULT_CONFIG)) s
               (fun _ s' => section_get sec s' = section_get sec s)) ->
  ends (validate_config config) st
    (fun _ s' => section_get sec s' = section_get sec st).
Proof.
  intros B1 B2 B3 B4. unfold validate_config.
  apply ends_bind. eapply ends_mono; [apply B1|].
  intros [[]|e] s1 F1; [|done].
  apply ends_bind. eapply ends_mono; [apply B2|].
  intros [[]|e] s2 F2; [|congruence].
  apply ends_bind. eapply ends_mono; [apply B3|].
  intros [[]|e] s3 F3; [|congruence].
  apply ends_bind. eapply ends_mono; [apply B4|].
  intros [[]|e] s4 F4; [apply ends_ret|]; congruence.
Qed.

Lemma block_skipped (m : gmap string pyobj) key (body : M sections unit) st :
  (forall v, m !! key = Some v -> is_dict v = false) ->
  ends (c ← and_then (py_contains key (PDict m))
              (is_dict <$> py_getitem (PDict m) key);
        if c : bool then body else mret tt) st
    (fun r s' => r = Ok tt /\ s' = st).
Proof.
  intros H. apply ends_bind. eapply ends_mono; [apply section_check|].
  intros r s' [-> ->].
  destruct (m !! key) as [v|]; [rewrite (H v eq_refl)|]; by apply ends_ret.
Qed.

Lemma other_section (c : M sections unit) own sec st :
  sec <> own ->
  ends c st (fun _ s' => forall s, s <> own -> section_get s s' = section_get s st) ->
  ends c st (fun _ s' => section_get sec s' = section_get sec st).
Proof. intros Hne E. eapply ends_mono; [exact E|]. intros r s' F. by apply F. Qed.

Lemma skipped_section (c : M sections unit) sec st :
  ends c st (fun r s' => r = Ok tt /\ s' = st) ->
  ends c st (fun _ s' => section_get sec s' = section_get sec st).
Proof. intros E. eapply ends_mono; [exact E|]. by intros r s' [_ ->]. Qed.

Lemma well_typed_thresholds (m d : gmap string pyobj) key :
  well_typed (PDict m) = true ->
  m !! "thresholds" = Some (PDict d) ->
  key ∈ ["cpu_alert"; "memory_alert"; "disk_alert"] ->
  absent_or int_able d "cpu_alert" = true
  /\ absent_or int_able d "memory_alert" = true
  /\ absent_or int_able d "disk_alert" = true.
Proof.
  simpl. intros [[[_ H2]%andb_prop _]%andb_prop _]%andb_prop Hm _.
  unfold section_typed in H2. rewrite Hm in H2.
  by apply andb_prop in H2 as [[? ?]%andb_prop ?].
Qed.

Lemma thresholds_after (m d : gmap string pyobj) key st :
  well_typed (PDict m) = true ->
  m !! "thresholds" = Some (PDict d) ->
  key ∈ ["cpu_alert"; "memory_alert"; "disk_alert"] ->
  match d !! key with
  | None =>
      thresholds (validate_config (PDict m) st).2 !! key = thresholds st !! key
  | Some v =>
      forall z, int_of v = Ok z ->
        thresholds (validate_config (PDict m) st).2 !! key
        = Some (PInt (Z.max 0 (Z.min 100 z)))
  end.
Proof.
  intros Hty Hm Hk.
  destruct (well_typed_thresholds m d key Hty Hm Hk) as (H1 & H2 & H3).
  destruct (validate_config_run m st Hty) as (s1 & s2 & s3 & s4 & R1 & R2 & R3 & R4 & R).
  rewrite R. cbn [snd].
  pose proof (ends_run _ _ _ _ _ (validate_monitoring_only (PDict m) st) R1
                Thresholds ltac:(done)) as F1.
  pose proof (ends_run _ _ _ _ _ (validate_logging_only (PDict m) s2) R3
                Thresholds ltac:(done)) as F3.
  pose proof (ends_run _ _ _ _ _ (validate_ui_only (PDict m) s3) R4
                Thresholds ltac:(done)) as F4.
  pose proof (ends_run _ _ _ _ _
                (validate_thresholds_state m d s1 Hm H1 H2 H3) R2) as [_ K].
  simpl in F1, F3, F4. specialize (K key Hk).
  rewrite F4, F3. rewrite <- F1. exact K.
Qed.

(** X13: thresholds are converted by [int()] and then clamped.  For a
    type-correct mapping whose [thresholds] is an object, each of
    [cpu_alert], [memory_alert] and [disk_alert] that it gives ends as
    the integer [max(0, min(100, int(value)))] (a fraction is cut toward
    zero before the bounds are applied), and each one it omits keeps the
    value it had before the call. *)
Theorem validate_config_thresholds
    (m d : gmap string pyobj) (key : string) (st : sections) :
  well_typed (PDict m) = true ->
  m !! "thresholds" = Some (PDict d) ->
  key ∈ ["cpu_alert"; "memory_alert"; "disk_alert"] ->
  let st' := (validate_config (PDict m) st).2 in
  (forall v z, d !! key = Some v -> int_of v = Ok z ->
     thresholds st' !! key = Some (PInt (Z.max 0 (Z.min 100 z))))
  /\ (d !! key = None -> thresholds st' !! key = thresholds st !! key).
Proof.
  intros Hty Hm Hk st'. subst st'.
  pose proof (thresholds_after m d key st Hty Hm Hk) as K.
  split.
  - intros v z Hv Hz. rewrite Hv in K. by apply K.
  - intros Hv. by rewrite Hv in K.
Qed.

Lemma interval_after (m d : gmap string pyobj) st :
  m !! "monitoring" = Some (PDict d) ->
  monitoring (validate_config (PDict m) st).2 !! "enabled"
  = Some (default (PBool true) (d !! "enabled"))
  /\ forall n, as_number (default (PInt 10) (d !! "interval_seconds")) = Some n ->
       monitoring (validate_config (PDict m) st).2 !! "interval_seconds"
       = Some (if num_lt n 3600
               then if num_gt n 1
                    then default (PInt 10) (d !! "interval_seconds")
                    else PInt 1
               else PInt 3600).
Proof.
  intros Hm.
  remember (validate_config (PDict m) st).2 as st' eqn:E.
  unfold validate_config in E.
  pose proof (validate_monitoring_state m d st Hm) as W.
  unfold ends in W. unfold mbind at 1, M_bind at 1 in E.
  destruct (validate_monitoring (PDict m) (dict_copy DEFAULT_CONFIG) st)
    as [r s1]. simpl in W. destruct W as [We Wi].
  destruct r as [[]|e].
  - pose proof (after_monitoring (PDict m) s1) as K. unfold ends in K.
    rewrite <- E in K. rewrite K. split; [exact We|].
    intros n Hn. rewrite Hn in Wi. by destruct Wi.
  - cbn [snd] in E. subst st'. split; [exact We|].
    intros n Hn. rewrite Hn in Wi. by destruct Wi.
Qed.

(** X14: the monitoring interval is clamped but not converted.  Whatever
    the other sections hold, and even when a later section makes
    [validate_config] raise, a [monitoring] object leaves
    [interval_seconds] as follows: an integer is clamped to 1..3600; a
    fraction strictly between 1 and 3600 is kept as that fraction, and
    one outside becomes the integer bound; NaN becomes 3600; an omitted
    interval becomes the built-in 10, not the current value. *)
Theorem validate_config_interval (m d : gmap string pyobj) (st : sections) :
  m !! "monitoring" = Some (PDict d) ->
  let st' := (validate_config (PDict m) st).2 in
  let given := d !! "interval_seconds" in
  let stored := monitoring st' !! "interval_seconds" in
  (forall z, given = Some (PInt z) ->
     stored = Some (PInt (Z.max 1 (Z.min 3600 z))))
  /\ (forall q, given = Some (PFloat (Fin q)) ->
        (inject_Z 1 < q)%Q -> (q < inject_Z 3600)%Q ->
        stored = Some (PFloat (Fin q)))
  /\ (forall q, given = Some (PFloat (Fin q)) ->
        (q <= inject_Z 1)%Q -> stored = Some (PInt 1))
  /\ (forall q, given = Some (PFloat (Fin q)) ->
        (inject_Z 3600 <= q)%Q -> stored = Some (PInt 3600))
  /\ (given = Some (PFloat NaN) -> stored = Some (PInt 3600))
  /\ (given = None -> stored = Some (PInt 10)).
Proof.
  intros Hm st' given stored. subst st' given stored.
  destruct (interval_after m d st Hm) as [_ K].
  repeat split.
  - intros z Hz. rewrite Hz in K. rewrite (K _ eq_refl). simpl.
    repeat case_bool_decide; f_equal; f_equal; lia.
  - intros q Hq H1 H2. rewrite Hq in K. rewrite (K _ eq_refl). simpl.
    apply Qlt_bool_iff in H1, H2. by rewrite H1, H2.
  - intros q Hq H1. rewrite Hq in K. rewrite (K _ eq_refl). simpl.
    assert (Qlt_bool (inject_Z 1) q = false) as ->.
    { apply not_true_is_false. intros H%Qlt_bool_iff.
      by apply Qle_not_lt in H1. }
    by destruct (Qlt_bool q (inject_Z 3600)) eqn:E;
      [|apply not_true_iff_false in E; exfalso; apply E, Qlt_bool_iff;
        eapply Qle_lt_trans; [exact H1 | reflexivity]].
  - intros q Hq H1. rewrite Hq in K. rewrite (K _ eq_refl). simpl.
    assert (Qlt_bool q (inject_Z 3600) = false) as ->.
    { apply not_true_is_false. intros H%Qlt_bool_iff.
      by apply Qle_not_lt in H1. }
    done.
  - intros Hq. rewrite Hq in K. by rewrite (K _ eq_refl).
  - intros Hq. rewrite Hq in K. by rewrite (K _ eq_refl).
Qed.

Lemma logging_after (m d : gmap string pyobj) st :
  well_typed (PDict m) = true ->
  m !! "logging" = Some (PDict d) ->
  logging (validate_config (PDict m) st).2 !! "enabled"
  = Some (default (PBool true) (d !! "enabled"))
  /\ logging (validate_config (PDict m) st).2 !! "level"
     = Some (default (PStr "INFO") (d !! "level"))
  /\ forall z, int_of (default (PInt 90) (d !! "retention_days")) = Ok z ->
       logging (validate_config (PDict m) st).2 !! "retention_days"
       = Some (PInt (Z.max 1 (Z.min 365 z))).
Proof.
  intros Hty Hm.
  destruct (validate_config_run m st Hty) as (s1 & s2 & s3 & s4 & R1 & R2 & R3 & R4 & R).
  rewrite R. cbn [snd].
  pose proof (ends_run _ _ _ _ _ (validate_ui_only (PDict m) s3) R4
                Logging ltac:(done)) as F4.
  pose proof (ends_run _ _ _ _ _ (validate_logging_state m d s2 Hm) R3) as [Ke K].
  simpl in F4. rewrite F4. split; [exact Ke|].
  destruct (int_of (default (PInt 90) (d !! "retention_days"))) as [z|e];
    [|discriminate K].
  destruct K as (_ & Kr & Kl). split; [exact Kl|]. by intros ? [= <-].
Qed.

(** X15: the fields that are not numbers are copied without a check, and
    an omitted field of a section that is given is reset.  For a
    type-correct mapping, a [monitoring] object leaves [enabled] as the
    value it gives, whatever its type, and as True when it gives none; a
    [logging] object does the same for [enabled] and for [level] (reset
    to INFO), and leaves [retention_days] as
    [max(1, min(365, int(value)))], the value being 90 when omitted: the
    values the section had before play no part. *)
Theorem validate_config_copies_fields (m : gmap string pyobj) (st : sections) :
  well_typed (PDict m) = true ->
  let st' := (validate_config (PDict m) st).2 in
  (forall d, m !! "monitoring" = Some (PDict d) ->
     monitoring st' !! "enabled" = Some (default (PBool true) (d !! "enabled")))
  /\ (forall d, m !! "logging" = Some (PDict d) ->
        logging st' !! "enabled" = Some (default (PBool true) (d !! "enabled"))
        /\ logging st' !! "level" = Some (default (PStr "INFO") (d !! "level"))
        /\ forall z,
             int_of (default (PInt 90) (d !! "retention_days")) = Ok z ->
             logging st' !! "retention_days"
             = Some (PInt (Z.max 1 (Z.min 365 z)))).
Proof.
  intros Hty st'. subst st'. split.
  - intros d Hm. by destruct (interval_after m d st Hm).
  - intros d Hm. by apply logging_after.
Qed.

(** X16: a section that the request leaves out, or gives as anything but
    an object, is left exactly as it was before the call, for each of the
    four sections and whether [validate_config] returns or raises: the
    values of earlier calls stay in force. *)
Theorem validate_config_skips_section (m : gmap string pyobj) (st : sections) :
  let st' := (validate_config (PDict m) st).2 in
  ((forall v, m !! "monitoring" = Some v -> is_dict v = false) ->
     monitoring st' = monitoring st)
  /\ ((forall v, m !! "thresholds" = Some v -> is_dict v = false) ->
        thresholds st' = thresholds st)
  /\ ((forall v, m !! "logging" = Some v -> is_dict v = false) ->
        logging st' = logging st)
  /\ ((forall v, m !! "ui" = Some v -> is_dict v = false) -> ui st' = ui st).
Proof.
  intros st'. subst st'. repeat split; intros H.
  - apply (validate_config_block (PDict m) Monitoring st); intros s.
    + by apply skipped_section, block_skipped.
    + by apply (other_section _ Thresholds), validate_thresholds_only.
    + by apply (other_section _ Logging), validate_logging_only.
    + by apply (other_section _ Ui), validate_ui_only.
  - apply (validate_config_block (PDict m) Thresholds st); intros s.
    + by apply (other_section _ Monitoring), validate_monitoring_only.
    + by apply skipped_section, block_skipped.
    + by apply (other_section _ Logging), validate_logging_only.
    + by apply (other_section _ Ui), validate_ui_only.
  - apply (validate_config_block (PDict m) Logging st); intros s.
    + by apply (other_section _ Monitoring), validate_monitoring_only.
    + by apply (other_section _ Thresholds), validate_thresholds_only.
    + by apply skipped_section, block_skipped.
    + by apply (other_section _ Ui), validate_ui_only.
  - apply (validate_config_block (PDict m) Ui st); intros s.
    + by apply (other_section _ Monitoring), validate_monitoring_only.
    + by apply (other_section _ Thresholds), validate_thresholds_only.
    + by apply (other_section _ Logging), validate_logging_only.
    + by apply skipped_section, block_skipped.
Qed.

Lemma ui_after (m d : gmap string pyobj) st :
  well_typed (PDict m) = true ->
  m !! "ui" = Some (PDict d) ->
  ui (validate_config (PDict m) st).2 = d ∪ ui st.
Proof.
  intros Hty Hm.
  destruct (validate_config_run m st Hty) as (s1 & s2 & s3 & s4 & R1 & R2 & R3 & R4 & R).
  rewrite R. cbn [snd].
  pose proof (ends_run _ _ _ _ _ (validate_monitoring_only (PDict m) st) R1
                Ui ltac:(done)) as F1.
  pose proof (ends_run _ _ _ _ _ (validate_thresholds_only (PDict m) s1) R2
                Ui ltac:(done)) as F2.
  pose proof (ends_run _ _ _ _ _ (validate_logging_only (PDict m) s2) R3
                Ui ltac:(done)) as F3.
  pose proof (ends_run _ _ _ _ _ (validate_ui_state m d s3 Hm) R4) as [_ K].
  simpl in F1, F2, F3. rewrite K. congruence.
Qed.

(** X17: the [ui] section is merged, not validated.  For a type-correct
    mapping whose [ui] is an object, every key of that object, known or
    not and whatever its value, is in the [ui] section afterwards with
    that value, and every other key of the section keeps its value. *)
Theorem validate_config_merges_ui (m d : gmap string pyobj) (st : sections) :
  well_typed (PDict m) = true ->
  m !! "ui" = Some (PDict d) ->
  let st' := (validate_config (PDict m) st).2 in
  (forall k v, d !! k = Some v -> ui st' !! k = Some v)
  /\ (forall k, d !! k = None -> ui st' !! k = ui st !! k).
Proof.
  intros Hty Hm st'. subst st'. rewrite (ui_after m d st Hty Hm). split.
  - intros k v Hk. by apply lookup_union_Some_l.
  - intros k Hk. by apply lookup_union_r.
Qed.

(** *** No key comes or goes *)

Lemma same_keys_refl st : same_keys st st.
Proof. by repeat split. Qed.

Lemma same_keys_trans s1 s2 s3 :
  same_keys s1 s2 -> same_keys s2 s3 -> same_keys s1 s3.
Proof.
  unfold same_keys. intros (?&?&?&?) (?&?&?&?).
  repeat split; try congruence. by etrans.
Qed.

Lemma known_key test (m : gmap string pyobj) k v :
  field_ok test m k = true -> dom (<[k := v]> m) = dom m.
Proof.
  intros (x & Hx & _)%field_ok_lookup.
  rewrite dom_insert_L. apply elem_of_dom_2 in Hx.
  apply subseteq_union_1_L. by apply singleton_subseteq_l.
Qed.

Lemma ends_kept {A} (P : sections -> Prop) (c : M sections A) s
    (Q : result A -> sections -> Prop) :
  keeps P c -> P s -> ends c s Q -> ends c s (fun r s' => P s' /\ Q r s').
Proof. unfold ends. intros K H E. split; [by apply K | done]. Qed.

Lemma ends_pure {A} (c : M sections A) s (Q : result A -> sections -> Prop) :
  (c s).2 = s -> (forall r, Q r s) -> ends c s Q.
Proof. unfold ends. intros -> H. apply H. Qed.

Lemma py_min_pure c v s : (py_min c v s).2 = s.
Proof.
  unfold py_min, py_lt, mbind, M_bind, reading.
  by destruct (as_number v).
Qed.

Lemma py_max_pure c v s : (py_max c v s).2 = s.
Proof.
  unfold py_max, py_gt, mbind, M_bind, reading.
  by destruct (as_number v).
Qed.

Lemma section_test_pure config key s :
  (and_then (py_contains key config) (is_dict <$> py_getitem config key) s).2 = s.
Proof.
  unfold and_then, py_contains, py_getitem, fmap, M_fmap, mbind, M_bind, reading.
  repeat case_match; simplify_eq/=; done.
Qed.

Ltac in_list :=
  repeat first [by left | right].

Lemma setitem_keys sec k v st :
  sections_ok st = true ->
  (sec, k) ∈ [(Monitoring, "enabled"); (Monitoring, "interval_seconds");
              (Thresholds, "cpu_alert"); (Thresholds, "memory_alert");
              (Thresholds, "disk_alert"); (Logging, "enabled");
              (Logging, "retention_days"); (Logging, "level")] ->
  same_keys st (section_set sec (<[k := v]> (section_get sec st)) st).
Proof.
  unfold sections_ok. intros H Hk.
  repeat (apply andb_prop in H as [H ?]).
  repeat (apply elem_of_cons in Hk as [[= -> ->]|Hk]);
    [..|by apply elem_of_nil in Hk].
  all: unfold same_keys; simpl; repeat split; try done.
  all: by eapply known_key.
Qed.

Lemma validate_monitoring_keys config st :
  sections_ok st = true ->
  ends (validate_monitoring config (dict_copy DEFAULT_CONFIG)) st
    (fun _ st' => same_keys st st').
Proof.
  intros Hs.
  unfold validate_monitoring. rewrite !validated_monitoring.
  apply ends_bind, ends_pure; [apply section_test_pure|].
  intros [[]|e]; try apply ends_ret; try apply same_keys_refl.
  unfold dict_get, py_getitem.
  apply ends_bind, ends_reading. destruct (dict_items st config) as [mc|];
    [|apply same_keys_refl].
  destruct (mc !! "monitoring") as [src|]; [|apply same_keys_refl].
  apply ends_bind, ends_reading.
  destruct (dict_items st src) as [d|] eqn:Ed; [|apply same_keys_refl].
  apply ends_bind, ends_reading, ends_bind, ends_modify.
  set (s1 := section_set Monitoring _ st).
  assert (K1 : same_keys st s1) by (apply setitem_keys; [done | in_list]).
  assert (Hs1 : sections_ok s1 = true) by (by apply setitem_ok).
  clearbody s1.
  apply ends_bind, ends_reading. destruct (dict_items s1 config) as [mc1|];
    [|done].
  destruct (mc1 !! "monitoring") as [src1|]; [|done].
  apply ends_bind, ends_reading.
  destruct (dict_items s1 src1) as [d1|]; [|done].
  apply ends_bind, ends_pure; [apply py_min_pure|]. intros [lo|e]; [|done].
  apply ends_bind, ends_pure; [apply py_max_pure|]. intros [x|e]; [|done].
  apply ends_bind, ends_reading, ends_modify.
  eapply same_keys_trans; [exact K1|].
  apply setitem_keys; [done | in_list].
Qed.

Lemma validate_threshold_keys config key st :
  key ∈ ["cpu_alert"; "memory_alert"; "disk_alert"] ->
  sections_ok st = true ->
  ends (validate_threshold config (dict_copy DEFAULT_CONFIG) key) st
    (fun _ st' => sections_ok st' = true /\ same_keys st st').
Proof.
  intros Hk Hs. apply (ends_kept (fun s => sections_ok s = true)).
  - by apply validate_threshold_keeps.
  - exact Hs.
  - unfold validate_threshold. rewrite !validated_thresholds.
    unfold py_contains, py_getitem, py_int.
    wp; simplify_eq/=; try apply same_keys_refl.
    all: apply (setitem_keys Thresholds); [done|].
    all: assert (key = "cpu_alert" \/ key = "memory_alert" \/ key = "disk_alert")
      as [-> | [-> | ->]] by (set_unfold; tauto); in_list.
Qed.

Lemma validate_thresholds_keys config st :
  sections_ok st = true ->
  ends (validate_thresholds config (dict_copy DEFAULT_CONFIG)) st
    (fun _ st' => same_keys st st').
Proof.
  intros Hs. unfold validate_thresholds.
  apply ends_bind, ends_pure; [apply section_test_pure|].
  intros [[]|e]; try apply ends_ret; try apply same_keys_refl.
  apply ends_bind.
  eapply ends_mono; [apply validate_threshold_keys; [in_list | done]|].
  intros [[]|e] s1 [Hs1 K1]; [|done].
  apply ends_bind.
  eapply ends_mono; [apply validate_threshold_keys; [in_list | done]|].
  intros [[]|e] s2 [Hs2 K2]; [|by eapply same_keys_trans].
  eapply ends_mono; [apply validate_threshold_keys; [in_list | done]|].
  intros r s3 [Hs3 K3]. eauto using same_keys_trans.
Qed.

Lemma validate_logging_keys config st :
  sections_ok st = true ->
  ends (validate_logging config (dict_copy DEFAULT_CONFIG)) st
    (fun _ st' => same_keys st st').
Proof.
  intros Hs.
  unfold validate_logging. rewrite !validated_logging.
  apply ends_bind, ends_pure; [apply section_test_pure|].
  intros [[]|e]; try apply ends_ret; try apply same_keys_refl.
  unfold dict_get, py_getitem, py_int.
  apply ends_bind, ends_reading. destruct (dict_items st config) as [mc|];
    [|apply same_keys_refl].
  destruct (mc !! "logging") as [src|]; [|apply same_keys_refl].
  apply ends_bind, ends_reading.
  destruct (dict_items st src) as [d|]; [|apply same_keys_refl].
  apply ends_bind, ends_reading, ends_bind, ends_modify.
  set (s1 := section_set Logging _ st).
  assert (K1 : same_keys st s1) by (apply setitem_keys; [done | in_list]).
  assert (Hs1 : sections_ok s1 = true) by (by apply setitem_ok).
  clearbody s1.
  apply ends_bind, ends_reading. destruct (dict_items s1 config) as [mc1|];
    [|done].
  destruct (mc1 !! "logging") as [src1|]; [|done].
  apply ends_bind, ends_reading.
  destruct (dict_items s1 src1) as [d1|]; [|done].
  apply ends_bind, ends_reading.
  destruct (int_of _) as [z|e]; [|done].
  apply ends_bind, ends_reading, ends_bind, ends_modify.
  set (s2 := section_set Logging _ s1).
  assert (K2 : same_keys s1 s2) by (apply setitem_keys; [done | in_list]).
  assert (Hs2 : sections_ok s2 = true)
    by (apply setitem_ok; [done | by apply clamp_between]).
  clearbody s2.
  assert (K : same_keys st s2) by (by eapply same_keys_trans).
  apply ends_bind, ends_reading. destruct (dict_items s2 config) as [mc2|];
    [|done].
  destruct (mc2 !! "logging") as [src2|]; [|done].
  apply ends_bind, ends_reading.
  destruct (dict_items s2 src2) as [d2|]; [|done].
  apply ends_bind, ends_reading, ends_modify.
  eapply same_keys_trans; [exact K|].
  apply setitem_keys; [done | in_list].
Qed.

Lemma validate_ui_keys config st :
  ends (validate_ui config (dict_copy DEFAULT_CONFIG)) st
    (fun _ st' => same_keys st st').
Proof.
  unfold validate_ui. rewrite !validated_ui.
  apply ends_bind, ends_pure; [apply section_test_pure|].
  intros [[]|e]; try apply ends_ret; try apply same_keys_refl.
  unfold py_getitem, dict_update.
  wp; simplify_eq/=; try apply same_keys_refl.
  unfold same_keys; simpl; repeat split; try done.
  rewrite dom_union_L. apply union_subseteq_r.
Qed.

Lemma validate_config_keys config st :
  sections_ok st = true ->
  ends (validate_config config) st (fun _ st' => same_keys st st').
Proof.
  intros Hs. unfold validate_config.
  apply ends_bind. eapply ends_mono;
    [apply (ends_kept (fun s => sections_ok s = true));
       [apply validate_monitoring_keeps | exact Hs
       | by apply validate_monitoring_keys]|].
  intros [[]|e] s1 [Hs1 K1]; [|done].
  apply ends_bind. eapply ends_mono;
    [apply (ends_kept (fun s => sections_ok s = true));
       [apply validate_thresholds_keeps | exact Hs1
       | by apply validate_thresholds_keys]|].
  intros [[]|e] s2 [Hs2 K2]; [|by eapply same_keys_trans].
  assert (K : same_keys st s2) by (by eapply same_keys_trans).
  apply ends_bind. eapply ends_mono;
    [apply (ends_kept (fun s => sections_ok s = true));
       [apply validate_logging_keeps | exact Hs2
       | by apply validate_logging_keys]|].
  intros [[]|e] s3 [Hs3 K3]; [|by eapply same_keys_trans].
  assert (K' : same_keys st s3) by (by eapply same_keys_trans).
  apply ends_bind. eapply ends_mono; [apply validate_ui_keys|].
  intros [[]|e] s4 K4; [apply ends_ret|]; by eapply same_keys_trans.
Qed.

(** X18: validation adds no key to [monitoring], [thresholds] or
    [logging] and removes none anywhere.  From well-formed sections and
    for any request whatever, returned or raised, the three sections have
    the very keys they had before, so a key of the request that they did
    not hold is not in them afterwards either, and [ui] has at least the
    keys it had. *)
Theorem validate_config_keeps_keys (config : pyobj) (st : sections) :
  sections_ok st = true ->
  let st' := (validate_config config st).2 in
  same_keys st st'
  /\ (forall sec k, sec <> Ui ->
        section_get sec st !! k = None -> section_get sec st' !! k = None)
  /\ (forall sec k, is_Some (section_get sec st !! k) ->
        is_Some (section_get sec st' !! k)).
Proof.
  intros Hs st'. pose proof (validate_config_keys config st Hs) as K.
  unfold ends in K. fold st' in K. split; [exact K|].
  destruct K as (K1 & K2 & K3 & K4). split.
  - intros sec k Hsec Hk. apply not_elem_of_dom. apply not_elem_of_dom in Hk.
    destruct sec; simpl in *; try congruence.
  - intros sec k Hk. apply elem_of_dom. apply elem_of_dom in Hk.
    destruct sec; simpl in *; try congruence. by apply K4.
Qed.

End WithStrToInt.

Lemma validate_config_thresholds_witness :
  let st' := (validate_config (str_to_int := decimal_int)
                (PDict partial_update) tuned_sections).2 in
  well_typed (str_to_int := decimal_int) (PDict partial_update) = true
  /\ thresholds st' !! "cpu_alert" = Some (PInt 99)
  /\ thresholds st' !! "memory_alert" = Some (PInt 60).
Proof.
  assert (Hty : well_typed (str_to_int := decimal_int) (PDict partial_update)
                = true) by (vm_compute; reflexivity).
  split; [exact Hty|]. split.
  - apply (proj1 (validate_config_thresholds (str_to_int := decimal_int)
                    partial_update {[ "cpu_alert" := PFloat (Fin (199 # 2)) ]}
                    "cpu_alert" tuned_sections Hty eq_refl
                    ltac:(by left))
             (PFloat (Fin (199 # 2))) 99); reflexivity.
  - apply (proj2 (validate_config_thresholds (str_to_int := decimal_int)
                    partial_update {[ "cpu_alert" := PFloat (Fin (199 # 2)) ]}
                    "memory_alert" tuned_sections Hty eq_refl
                    ltac:(right; by left))); reflexivity.
Defined.

Lemma validate_config_interval_witness :
  monitoring (validate_config (str_to_int := decimal_int)
                (PDict partial_update) tuned_sections).2 !! "interval_seconds"
  = Some (PInt 10)
  /\ monitoring tuned_sections !! "interval_seconds" = Some (PInt 42).
Proof.
  split; [|reflexivity].
  apply (validate_config_interval (str_to_int := decimal_int)
           partial_update {[ "enabled" := PBool false ]} tuned_sections eq_refl).
  reflexivity.
Defined.

Lemma validate_config_copies_fields_witness :
  let st' := (validate_config (str_to_int := decimal_int)
                (PDict partial_update) tuned_sections).2 in
  monitoring st' !! "enabled" = Some (PBool false)
  /\ logging st' !! "level" = Some (PList [])
  /\ logging st' !! "retention_days" = Some (PInt 90).
Proof.
  assert (Hty : well_typed (str_to_int := decimal_int) (PDict partial_update)
                = true) by (vm_compute; reflexivity).
  destruct (validate_config_copies_fields (str_to_int := decimal_int)
              partial_update tuned_sections Hty) as [Hm Hl].
  split; [exact (Hm {[ "enabled" := PBool false ]} eq_refl)|].
  destruct (Hl {[ "level" := PList [] ]} eq_refl) as (_ & Hlevel & Hr).
  split; [exact Hlevel | exact (Hr 90 eq_refl)].
Defined.

Lemma validate_config_merges_ui_witness :
  let st' := (validate_config (str_to_int := decimal_int)
                (PDict partial_update) tuned_sections).2 in
  ui st' !! "theme" = Some (PInt 5)
  /\ ui st' !! "extra" = Some PNone
  /\ ui st' !! "timezone" = Some (PStr "CET").
Proof.
  assert (Hty : well_typed (str_to_int := decimal_int) (PDict partial_update)
                = true) by (vm_compute; reflexivity).
  destruct (validate_config_merges_ui (str_to_int := decimal_int)
              partial_update {[ "theme" := PInt 5; "extra" := PNone ]}
              tuned_sections Hty eq_refl) as [Hg Ho].
  split; [by apply Hg|]. split; [by apply Hg|].
  by rewrite Ho.
Defined.

Lemma validate_config_keeps_keys_witness :
  sections_ok tuned_sections = true
  /\ same_keys tuned_sections
       (validate_config (str_to_int := decimal_int)
          (PDict partial_update) tuned_sections).2.
Proof.
  assert (Hs : sections_ok tuned_sections = true) by (vm_compute; reflexivity).
  split; [exact Hs|].
  exact (proj1 (validate_config_keeps_keys (str_to_int := decimal_int)
                  (PDict partial_update) tuned_sections Hs)).
Defined.

End ConfigMore.

Module ApiConfigMore.
Import Server LogFacts ApiConfigFacts LogsFacts.
Section WithStrToInt.
Context {str_to_int : StrToInt}.

Lemma save_config_run h config w :
  world_ok w ->
  ends (save_config h config) w
    (fun r w' =>
       r = Ok (config_writable h)
       /\ default_sections w' = default_sections w
       /\ CONFIG w' = CONFIG w
       /\ config_file w'
          = (if config_writable h then Some config else config_file w)
       /\ (logging_on w = false ->
           LOG_DIR w' = LOG_DIR w /\ stdout w' = stdout w)).
Proof.
  intros Hw. unfold save_config. apply ends_try, ends_bind.
  destruct (config_writable h).
  - apply ends_modify. apply ends_bind.
    assert (Hw1 : world_ok (set_config_file (Some config) w)) by exact Hw.
    apply (ends_mono _ _
             (fun r w' => (r = Ok tt /\ io_only (set_config_file (Some config) w) w')
                          /\ (logging_on w = false ->
                              w' = set_config_file (Some config) w))).
    + split; [by apply write_log_io|].
      intros Hoff. rewrite (write_log_run _ _ _ _ _ Hw1).
      change (logging_on (set_config_file (Some config) w)) with (logging_on w).
      by rewrite Hoff.
    + intros r w' [[-> Hio] Hoff]. apply ends_ret.
      destruct Hio as (Hs & Hc & Hf & _).
      split; [done|]. split; [done|]. split; [done|]. split; [done|].
      intros E. by rewrite (Hoff E).
  - apply ends_raise. apply ends_bind.
    apply (ends_mono _ _
             (fun r w' => (r = Ok tt /\ io_only w w')
                          /\ (logging_on w = false -> w' = w))).
    + split; [by apply write_log_io|].
      intros Hoff. by rewrite (write_log_run _ _ _ _ _ Hw), Hoff.
    + intros r w' [[-> Hio] Hoff]. apply ends_ret.
      destruct Hio as (Hs & Hc & Hf & _).
      split; [done|]. split; [done|]. split; [done|]. split; [done|].
      intros E. by rewrite (Hoff E).
Qed.

Lemma api_config_post_run h raw w :
  world_ok w ->
  let v := Config.validate_config raw (default_sections w) in
  ends (api_config_post h raw) w
    (fun r w' =>
       (exists x,
          r = Ok x
          /\ status x = (if is_raise v.1 then 400
                         else if config_writable h then 200 else 500))
       /\ world_ok w'
       /\ default_sections w' = v.2
       /\ config_file w'
          = (if negb (is_raise v.1) && config_writable h
             then Some DEFAULT_CONFIG else config_file w)
       /\ (logging_on (set_default_sections v.2 w) = false ->
           LOG_DIR w' = LOG_DIR w /\ stdout w' = stdout w)).
Proof.
  intros [HC Hs] v. unfold api_config_post. apply ends_try, ends_bind, ends_zoom.
  pose proof (ConfigFacts.validate_config_keeps raw _ Hs) as K.
  unfold ends. subst v.
  destruct (Config.validate_config raw (default_sections w))
    as [[cfg|e] st] eqn:E; cbn [fst snd is_raise negb andb] in *.
  - rewrite (ConfigFacts.validate_config_value _ _ _ _ E).
    assert (Hw1 : world_ok (set_CONFIG DEFAULT_CONFIG (set_default_sections st w)))
      by (by split).
    apply ends_bind, ends_modify, ends_bind.
    eapply ends_mono; [apply save_config_run; exact Hw1|].
    intros r w1 (-> & Hs1 & Hc1 & Hf1 & Hoff1).
    assert (Hw2 : world_ok w1).
    { split; [by rewrite Hc1 | by rewrite Hs1]. }
    assert (Hon : logging_on w1 = logging_on (set_default_sections st w)).
    { unfold logging_on. by rewrite Hs1. }
    change (logging_on (set_CONFIG DEFAULT_CONFIG (set_default_sections st w)))
      with (logging_on (set_default_sections st w)) in Hoff1.
    destruct (config_writable h).
    + apply ends_bind.
      apply (ends_mono _ _
               (fun r w' => (r = Ok tt /\ io_only w1 w')
                            /\ (logging_on w1 = false -> w' = w1))).
      * split; [by apply write_log_io|].
        intros Hoff. by rewrite (write_log_run _ _ _ _ _ Hw2), Hoff.
      * intros r w2 [[-> Hio] Hoff]. apply ends_ret.
        split; [eauto|]. split; [by eapply world_ok_io|].
        destruct Hio as (Hs2 & Hc2 & Hf2 & _).
        split; [by rewrite Hs2, Hs1|]. split; [by rewrite Hf2, Hf1|].
        intros Off. rewrite Hoff by (by rewrite Hon). by apply Hoff1.
    + apply ends_ret. split; [eauto|]. split; [done|].
      split; [done|]. split; [done|]. exact Hoff1.
  - assert (Hw1 : world_ok (set_default_sections st w)) by (by split).
    apply ends_bind.
    apply (ends_mono _ _
             (fun r w' => (r = Ok tt /\ io_only (set_default_sections st w) w')
                          /\ (logging_on (set_default_sections st w) = false ->
                              w' = set_default_sections st w))).
    + split; [by apply write_log_io|].
      intros Hoff. by rewrite (write_log_run _ _ _ _ _ Hw1), Hoff.
    + intros r w' [[-> Hio] Hoff]. apply ends_ret.
      split; [eauto|]. split; [by eapply world_ok_io|].
      destruct Hio as (Hs2 & Hc2 & Hf2 & _).
      split; [by rewrite Hs2|]. split; [by rewrite Hf2|].
      intros Off. by rewrite (Hoff Off).
Qed.

(** X19: how [POST /api/config] answers and what it leaves.  From a
    well-formed state and for any JSON body, the handler returns an
    answer: 400 exactly when [validate_config] raises, otherwise 200 when
    the config file can be written and 500 when it cannot.  In all three
    cases the sections in force afterwards are the ones validation left
    behind, so a request answered 400 or 500 has still changed the live
    configuration as far as validation got; the config file is written
    for 200 only. *)
Theorem api_config_post_status (h : env) (raw : pyobj) (w : world) :
  world_ok w ->
  let v := Config.validate_config raw (default_sections w) in
  exists r w',
    api_config_post h raw w = (Ok r, w')
    /\ status r = (if is_raise v.1 then 400
                   else if config_writable h then 200 else 500)
    /\ world_ok w'
    /\ default_sections w' = v.2
    /\ config_file w'
       = (if negb (is_raise v.1) && config_writable h
          then Some DEFAULT_CONFIG else config_file w).
Proof.
  intros Hw v. pose proof (api_config_post_run h raw w Hw) as E.
  unfold ends in E. destruct (api_config_post h raw w) as [r w'].
  cbn [fst snd] in E. destruct E as ((x & -> & Hx) & Hw' & Hs & Hf & _).
  by exists x, w'.
Qed.

(** X20: switching the log off through the API is itself not logged.  A
    type-correct request whose [logging] object sets [enabled] to
    [false] is answered without a line being written to any log file or
    to the console, whether or not the config file could be saved, and
    leaves a state in which [write_log] does nothing. *)
Theorem api_config_post_silences_log
    (h : env) (m d : gmap string pyobj) (w : world) :
  world_ok w ->
  Config.well_typed (PDict m) = true ->
  m !! "logging" = Some (PDict d) ->
  d !! "enabled" = Some (PBool false) ->
  exists r w',
    api_config_post h (PDict m) w = (Ok r, w')
    /\ LOG_DIR w' = LOG_DIR w
    /\ stdout w' = stdout w
    /\ logging_on w' = false
    /\ forall h' level text args,
         write_log h' level text args w' = (Ok tt, w').
Proof.
  intros Hw Hty Hm Hd.
  pose proof (api_config_post_run h (PDict m) w Hw) as E.
  destruct (ConfigMore.logging_after m d (default_sections w) Hty Hm) as [He _].
  rewrite Hd in He. simpl in He.
  unfold ends in E. destruct (api_config_post h (PDict m) w) as [r w'].
  cbn [fst snd] in E. destruct E as ((x & -> & Hx) & Hw' & Hs & Hf & Hoff).
  assert (Off : logging_on w' = false).
  { unfold logging_on. by rewrite Hs, He. }
  exists x, w'. split; [done|].
  destruct Hoff as [Hl Ho].
  { unfold logging_on. cbn [default_sections set_default_sections]. by rewrite He. }
  repeat split; try done.
  intros h' level text args.
  by rewrite (write_log_run _ _ _ _ _ Hw'), Off.
Qed.

End WithStrToInt.

Lemma api_config_post_status_witness :
  world_ok (initial_world ∅)
  /\ exists r w',
       api_config_post (str_to_int := decimal_int) unwritable_disk
         text_interval (initial_world ∅) = (Ok r, w')
       /\ status r = 400
       /\ monitoring (default_sections w') !! "enabled" = Some (PBool true).
Proof.
  assert (Hw : world_ok (initial_world ∅)) by (split; reflexivity).
  split; [exact Hw|].
  destruct (api_config_post_status (str_to_int := decimal_int) unwritable_disk
              text_interval (initial_world ∅) Hw)
    as (r & w' & E & Hst & _ & Hs & _).
  exists r, w'. split; [exact E|]. split; [exact Hst|].
  rewrite Hs. reflexivity.
Defined.

Lemma api_config_post_silences_log_witness :
  world_ok (initial_world two_logs)
  /\ exists r w',
       api_config_post (str_to_int := decimal_int) failing_psutil
         (PDict logging_off) (initial_world two_logs) = (Ok r, w')
       /\ LOG_DIR w' = two_logs
       /\ stdout w' = [].
Proof.
  assert (Hw : world_ok (initial_world two_logs)) by (split; reflexivity).
  split; [exact Hw|].
  destruct (api_config_post_silences_log (str_to_int := decimal_int)
              failing_psutil logging_off {[ "enabled" := PBool false ]}
              (initial_world two_logs) Hw eq_refl eq_refl eq_refl)
    as (r & w' & E & Hl & Ho & _).
  by exists r, w'.
Defined.

End ApiConfigMore.

Module StartupFacts.
Import Config ConfigFacts ConfigIdem ConfigKeys ConfigMore Startup.
Section WithStrToInt.
Context {str_to_int : StrToInt}.

Lemma import_parsed (config : pyobj) :
  import_config (Parsed config)
  = match validate_config config DEFAULT_SECTIONS with
    | (Ok cfg, st) => (Ok cfg, st)
    | (Raise _, st) => (Raise (NameError "write_log"), st)
    end.
Proof.
  unfold import_config, load_config, json_load, try_except, unbound,
    mbind, M_bind, fmap, M_fmap, mret, M_ret, raise.
  by destruct (validate_config config DEFAULT_SECTIONS) as [[cfg|e] st].
Qed.

(** X21: the fallback of [load_config] is never reached.  The import
    binds [CONFIG] before [write_log] is defined, so the handler of a
    load error raises [NameError] itself: a config file that cannot be
    read, or that [validate_config] raises on, stops the import with
    [NameError], and that is the only exception the import of the
    configuration can end with.  Without a file, or with one that
    validates, [CONFIG] is the copy of [DEFAULT_CONFIG] over well-formed
    sections. *)
Theorem import_config_outcome (file : config_json) :
  (Server.is_raise (import_config file).1 = true <->
     match file with
     | NoFile => False
     | Unreadable _ => True
     | Parsed config =>
         Server.is_raise (validate_config config DEFAULT_SECTIONS).1 = true
     end)
  /\ (forall e st, import_config file = (Raise e, st) ->
        e = NameError "write_log")
  /\ (forall cfg st, import_config file = (Ok cfg, st) ->
        cfg = DEFAULT_CONFIG /\ sections_ok st = true)
  /\ import_config NoFile = (Ok DEFAULT_CONFIG, DEFAULT_SECTIONS).
Proof.
  destruct file as [|e0|config].
  - split; [|split; [|split]]; try done.
    by intros cfg st [= <- <-].
  - split; [|split; [|split]]; try done.
    by intros e st [= <- _].
  - rewrite import_parsed.
    pose proof (validate_config_keeps config DEFAULT_SECTIONS eq_refl) as K.
    destruct (validate_config config DEFAULT_SECTIONS) as [[cfg|e] st] eqn:E;
      simpl in *.
    + split; [|split; [|split]]; try done.
      intros cfg' st' [= <- <-]. split; [|done].
      by eapply validate_config_value.
    + split; [|split; [|split]]; try done.
      by intros e' st' [= <- _].
Qed.

Lemma map_eq_on (m1 m2 : gmap string pyobj) (ks : list string) :
  dom m1 = list_to_set ks -> dom m2 = list_to_set ks ->
  Forall (fun k => m1 !! k = m2 !! k) ks -> m1 = m2.
Proof.
  intros D1 D2 H. apply map_eq. intros k.
  destruct (decide (k ∈ ks)) as [Hk|Hk].
  - by eapply (proj1 (Forall_forall _ _) H).
  - assert (k ∉ dom m1) as ->%not_elem_of_dom
      by (rewrite D1; by rewrite elem_of_list_to_set).
    assert (k ∉ dom m2) as ->%not_elem_of_dom
      by (rewrite D2; by rewrite elem_of_list_to_set).
    done.
Qed.

Lemma dumped_config st :
  json_dump st DEFAULT_CONFIG
  = PDict {[ "monitoring" := PDict (monitoring st);
             "thresholds" := PDict (thresholds st);
             "logging" := PDict (logging st);
             "ui" := PDict (ui st) ]}.
Proof. vm_compute. reflexivity. Qed.

Lemma dumped_lookup st name sec :
  ({[ "monitoring" := PSection Monitoring; "thresholds" := PSection Thresholds;
      "logging" := PSection Logging; "ui" := PSection Ui ]}
     : gmap string pyobj) !! name = Some (PSection sec) ->
  ({[ "monitoring" := PDict (monitoring st);
      "thresholds" := PDict (thresholds st);
      "logging" := PDict (logging st);
      "ui" := PDict (ui st) ]} : gmap string pyobj) !! name
  = Some (PDict (section_get sec st)).
Proof.
  intros H.
  repeat (rewrite lookup_insert in H |- *; case_decide;
          [by injection H as <- |]).
  rewrite lookup_singleton in H |- *. case_decide; [by injection H as <- | done].
Qed.

Lemma dumped_typed st :
  sections_ok st = true -> well_typed (json_dump st DEFAULT_CONFIG) = true.
Proof.
  unfold sections_ok. intros H. repeat (apply andb_prop in H as [H ?]).
  rewrite dumped_config. unfold well_typed, section_typed.
  rewrite (dumped_lookup st "monitoring" Monitoring eq_refl),
    (dumped_lookup st "thresholds" Thresholds eq_refl),
    (dumped_lookup st "logging" Logging eq_refl),
    (dumped_lookup st "ui" Ui eq_refl).
  cbn [section_get].
  repeat match goal with
         | F : field_ok _ _ _ = true |- _ =>
             apply field_ok_lookup in F as (? & ? & ?)
         end.
  unfold absent_or, is_number, int_able.
  repeat match goal with F : _ !! _ = Some _ |- _ => rewrite F; clear F end.
  repeat match goal with
         | F : int_between _ _ ?v = true |- _ =>
             destruct v; try discriminate F; clear F
         | F : interval_ok ?v = true |- _ =>
             apply interval_number in F as [? ->]
         end.
  reflexivity.
Qed.

Lemma restored_sections st :
  sections_ok st = true ->
  same_keys DEFAULT_SECTIONS st ->
  (validate_config (json_dump st DEFAULT_CONFIG) DEFAULT_SECTIONS).2 = st.
Proof.
  intros Hs (D1 & D2 & D3 & D4).
  pose proof (dumped_typed st Hs) as Hty.
  pose proof (validate_config_keys (json_dump st DEFAULT_CONFIG)
                DEFAULT_SECTIONS eq_refl) as K.
  unfold ends in K. destruct K as (E1 & E2 & E3 & _).
  rewrite dumped_config in *.
  set (m := ({[ "monitoring" := PDict (monitoring st);
                "thresholds" := PDict (thresholds st);
                "logging" := PDict (logging st);
                "ui" := PDict (ui st) ]} : gmap string pyobj)) in *.
  assert (Lm : m !! "monitoring" = Some (PDict (monitoring st)))
    by (by apply (dumped_lookup st "monitoring" Monitoring)).
  assert (Lt : m !! "thresholds" = Some (PDict (thresholds st)))
    by (by apply (dumped_lookup st "thresholds" Thresholds)).
  assert (Ll : m !! "logging" = Some (PDict (logging st)))
    by (by apply (dumped_lookup st "logging" Logging)).
  assert (Lu : m !! "ui" = Some (PDict (ui st)))
    by (by apply (dumped_lookup st "ui" Ui)).
  destruct (interval_after m (monitoring st) DEFAULT_SECTIONS Lm) as [Me Mi].
  pose proof (fun key => thresholds_after m (thresholds st) key
                           DEFAULT_SECTIONS Hty Lt) as T.
  destruct (logging_after m (logging st) DEFAULT_SECTIONS Hty Ll)
    as (Le & Lv & Lr).
  pose proof (ui_after m (ui st) DEFAULT_SECTIONS Hty Lu) as U.
  set (st' := (validate_config (PDict m) DEFAULT_SECTIONS).2) in *.
  clearbody st'. clear Lm Lt Ll Lu Hty. clearbody m. clear m.
  unfold sections_ok in Hs. repeat (apply andb_prop in Hs as [Hs ?]).
  rewrite <- (sections_eta st'), <- (sections_eta st). f_equal.
  - apply (map_eq_on _ _ ["enabled"; "interval_seconds"]);
      [by rewrite E1 | by rewrite D1 |].
    repeat match goal with
           | F : field_ok _ (monitoring st) _ = true |- _ =>
               apply field_ok_lookup in F as (? & ? & ?)
           end.
    match goal with
    | F : interval_ok ?v = true |- _ =>
        destruct (interval_number v F) as [n Hn];
        destruct (clamp_fix v n F Hn) as [C1 C2]
    end.
    repeat constructor.
    + rewrite Me. by match goal with F : _ !! "enabled" = Some _ |- _ => rewrite F end.
    + match goal with F : _ !! "interval_seconds" = Some _ |- _ => rewrite F in * end.
      rewrite (Mi n Hn). simpl.
      destruct (num_lt n 3600); [destruct (num_gt n 1)|]; f_equal; auto.
      all: symmetry; auto.
  - apply (map_eq_on _ _ ["cpu_alert"; "memory_alert"; "disk_alert"]);
      [by rewrite E2 | by rewrite D2 |].
    repeat match goal with
           | F : field_ok _ (thresholds st) _ = true |- _ =>
               apply field_int_lookup in F as (? & ? & ?)
           end.
    repeat constructor.
    + specialize (T "cpu_alert" ltac:(by left)).
      match goal with F : _ !! "cpu_alert" = Some _ |- _ => rewrite F in * end.
      rewrite (T _ eq_refl). congruence.
    + specialize (T "memory_alert" ltac:(right; by left)).
      match goal with F : _ !! "memory_alert" = Some _ |- _ => rewrite F in * end.
      rewrite (T _ eq_refl). congruence.
    + specialize (T "disk_alert" ltac:(right; right; by left)).
      match goal with F : _ !! "disk_alert" = Some _ |- _ => rewrite F in * end.
      rewrite (T _ eq_refl). congruence.
  - apply (map_eq_on _ _ ["enabled"; "retention_days"; "level"]);
      [by rewrite E3 | by rewrite D3 |].
    match goal with
    | F : field_ok _ (logging st) "retention_days" = true |- _ =>
        apply field_int_lookup in F as (z & Hz & Hc)
    end.
    repeat match goal with
           | F : field_ok _ (logging st) _ = true |- _ =>
               apply field_ok_lookup in F as (? & ? & ?)
           end.
    rewrite Hz in Lr. specialize (Lr z eq_refl).
    repeat constructor.
    + rewrite Le. by match goal with F : _ !! "enabled" = Some _ |- _ => rewrite F end.
    + rewrite Lr, Hz. congruence.
    + rewrite Lv. by match goal with F : _ !! "level" = Some _ |- _ => rewrite F end.
  - rewrite U. apply map_eq. intros k.
    destruct (ui st !! k) as [v|] eqn:Ek.
    + by apply lookup_union_Some_l.
    + apply lookup_union_None_2; [done|].
      apply not_elem_of_dom. intros Hk.
      apply not_elem_of_dom in Ek. by apply Ek, D4.
Qed.

(** X22: a saved configuration is in force again after a restart.  For
    sections as validation leaves them (well formed, with the keys the
    defaults have), importing the module over the config file that
    [save_config] wrote from them returns without an exception and puts
    the sections back exactly as they were when the file was written. *)
Theorem restart_restores_config (st : sections) :
  sections_ok st = true ->
  same_keys DEFAULT_SECTIONS st ->
  import_config (Parsed (json_dump st DEFAULT_CONFIG))
  = (Ok DEFAULT_CONFIG, st).
Proof.
  intros Hs Hk. rewrite import_parsed.
  pose proof (restored_sections st Hs Hk) as R.
  pose proof (dumped_typed st Hs) as Hty.
  destruct (json_dump st DEFAULT_CONFIG) as [| | | | | | m |] eqn:E;
    try discriminate Hty.
  destruct (validate_config_run m DEFAULT_SECTIONS Hty)
    as (s1 & s2 & s3 & s4 & _ & _ & _ & _ & Run).
  rewrite Run in R |- *. simpl in R. by subst s4.
Qed.

End WithStrToInt.

Lemma restart_restores_config_witness :
  sections_ok tuned_sections = true
  /\ same_keys DEFAULT_SECTIONS tuned_sections
  /\ import_config (str_to_int := decimal_int)
       (Parsed (json_dump tuned_sections DEFAULT_CONFIG))
     = (Ok DEFAULT_CONFIG, tuned_sections).
Proof.
  assert (Hs : sections_ok tuned_sections = true) by (vm_compute; reflexivity).
  assert (Hk : same_keys DEFAULT_SECTIONS tuned_sections)
    by (repeat split; vm_compute; try reflexivity; done).
  split; [exact Hs|]. split; [exact Hk|].
  exact (restart_restores_config (str_to_int := decimal_int)
           tuned_sections Hs Hk).
Defined.

End StartupFacts.

Module SnapshotFacts.
Import Server LogFacts Pushes PushMore Snapshots.
Section WithSqlite.
Context {sqlite : Sqlite}.

Lemma ends_in_world {A} (c : M world A) (s : store) Q :
  ends c s.1 (fun r w' => Q r (w', s.2)) -> ends (in_world c) s Q.
Proof. intros H. unfold in_world. apply ends_zoom. exact H. Qed.

Lemma ends_bound (v : pyobj) (s : store) Q :
  (sql_bindable v = true -> Q (Ok v) s) ->
  (sql_bindable v = false -> forall e, Q (Raise e) s) ->
  ends (in_world (sql_bind v)) s Q.
Proof.
  intros H1 H2. apply ends_in_world, ends_sql_bindable; destruct s; auto.
Qed.

(** One insertion leaves the state alone and extends the transaction by
    the row of the process, or raises. *)
Lemma insert_snapshot_ends h info tx w table :
  ends (insert_snapshot h info tx) (w, Some table)
    (fun r s' =>
       s' = (w, Some table)
       /\ match snapshot_of h info with
          | Some row => r = Ok (tx ++ [row])
          | None => exists e, r = Raise e
          end).
Proof.
  unfold insert_snapshot, snapshot_of.
  apply ends_bind, ends_gets. cbn [snd].
  destruct (pi_name info) as [name|]; cbn [from_option].
  - repeat (apply ends_bind, ends_bound;
            (let B := fresh "B" in intros B; rewrite B; cbn [andb]);
            [|intros e; split; [done|]; by eauto]).
    by apply ends_ret.
  - repeat (apply ends_bind, ends_bound;
            intros _; [|intros e; split; [done|]; by eauto]).
    apply ends_raise. by eauto.
Qed.

Lemma insert_snapshot_run h info tx w table :
  match snapshot_of h info with
  | Some row =>
      insert_snapshot h info tx (w, Some table)
      = (Ok (tx ++ [row]), (w, Some table))
  | None =>
      exists e,
        insert_snapshot h info tx (w, Some table) = (Raise e, (w, Some table))
  end.
Proof.
  pose proof (insert_snapshot_ends h info tx w table) as E. unfold ends in E.
  destruct (insert_snapshot h info tx (w, Some table)) as [r s'].
  cbn [fst snd] in E. destruct E as [-> E].
  destruct (snapshot_of h info); [by subst r|].
  destruct E as [e ->]. eauto.
Qed.

Lemma insert_snapshots_cons h info rest tx s :
  insert_snapshots h (Ok info :: rest) tx s
  = match insert_snapshot h info tx s with
    | (Ok tx', s') => insert_snapshots h rest tx' s'
    | (Raise e, s') => (Raise e, s')
    end.
Proof. reflexivity. Qed.

Lemma insert_snapshots_run h steps : forall tx w table,
  match snapshots_of h steps with
  | Some rows =>
      insert_snapshots h steps tx (w, Some table)
      = (Ok (tx ++ rows), (w, Some table))
  | None =>
      exists e,
        insert_snapshots h steps tx (w, Some table) = (Raise e, (w, Some table))
  end.
Proof.
  induction steps as [|[info|e] rest IH]; intros tx w table; cbn [snapshots_of].
  - simpl. by rewrite app_nil_r.
  - pose proof (insert_snapshot_run h info tx w table) as R.
    destruct (snapshot_of h info) as [row|]; cbn [mbind option_bind].
    + specialize (IH (tx ++ [row]) w table).
      destruct (snapshots_of h rest) as [rows|]; cbn [mbind option_bind].
      * rewrite insert_snapshots_cons, R, IH. by rewrite <- app_assoc.
      * destruct IH as [e IH]. exists e.
        by rewrite insert_snapshots_cons, R, IH.
    + destruct R as [e R]. exists e. by rewrite insert_snapshots_cons, R.
  - simpl. eauto.
Qed.

Lemma insert_snapshots_no_table h steps tx w :
  insert_snapshots h steps tx (w, None)
  = match steps with
    | [] => (Ok tx, (w, None))
    | Raise e :: _ => (Raise e, (w, None))
    | Ok _ :: _ =>
        (Raise (OperationalError "no such table: process_snapshots"), (w, None))
    end.
Proof. by destruct steps as [|[info|e] rest]. Qed.

Lemma snapshots_of_nil h steps :
  snapshots_of h steps = Some [] -> steps = [].
Proof.
  destruct steps as [|[info|e] rest]; simpl; try done.
  destruct (snapshot_of h info); simpl; [|done].
  by destruct (snapshots_of h rest).
Qed.

Lemma snapshots_of_all h steps rows :
  snapshots_of h steps = Some rows ->
  forall info, Ok info ∈ steps -> exists row, snapshot_of h info = Some row.
Proof.
  revert rows. induction steps as [|[x|e] rest IH]; intros rows Hr info Hin.
  - by apply elem_of_nil in Hin.
  - simpl in Hr. destruct (snapshot_of h x) as [row|] eqn:Ex; [|done].
    destruct (snapshots_of h rest) as [rows'|]; [|done].
    apply elem_of_cons in Hin as [[= ->] | Hin]; [eauto|].
    by eapply IH.
  - done.
Qed.

Lemma snapshot_of_unnamed h info :
  pi_name info = None
  \/ (exists name, pi_name info = Some name /\ utf8_encodable name = false) ->
  snapshot_of h info = None.
Proof.
  unfold snapshot_of. intros [-> | (name & -> & Hn)]; [done|].
  cbn [sql_bindable]. rewrite Hn. by rewrite andb_false_r.
Qed.

Lemma snapshot_loop h steps w table :
  ends (insert_snapshots h steps []) (w, table)
    (fun r s' =>
       s' = (w, table)
       /\ match snapshots_of h steps with
          | Some rows =>
              if bool_decide (rows = []) || bool_decide (is_Some table)
              then r = Ok rows
              else exists e, r = Raise e
          | None => exists e, r = Raise e
          end).
Proof.
  unfold ends. destruct table as [table|].
  - pose proof (insert_snapshots_run h steps [] w table) as R.
    destruct (snapshots_of h steps) as [rows|].
    + rewrite R. split; [done|].
      rewrite (bool_decide_eq_true_2 (is_Some (Some table))) by eauto.
      by rewrite orb_true_r.
    + destruct R as [e ->]. eauto.
  - rewrite insert_snapshots_no_table.
    destruct steps as [|[info|e] rest]; simpl; [done| |eauto].
    split; [done|]. destruct (snapshot_of h info) as [row|]; simpl; [|eauto].
    destruct (snapshots_of h rest) as [rows|]; simpl; [|eauto].
    eauto.
Qed.

Lemma api_log_snapshot_run h w table :
  world_ok w ->
  ends (api_log_snapshot h) (w, table)
    (fun r s' =>
       exists x, r = Ok x /\
         match (if db_reachable h then snapshots_of h (process_iter h) else None) with
         | Some rows =>
             if bool_decide (rows = []) || bool_decide (is_Some table)
             then status x = 200 /\ io_only w s'.1
                  /\ s'.2 = (fun t => t ++ rows) <$> table
             else status x = 500 /\ s' = (w, table)
         | None => status x = 500 /\ s' = (w, table)
         end).
Proof.
  intros Hw. unfold api_log_snapshot, connect, commit.
  apply ends_try, ends_bind, ends_in_world.
  destruct (db_reachable h); [apply ends_ret | apply ends_raise, ends_ret; eauto].
  cbn [fst snd]. apply ends_bind.
  eapply ends_mono; [apply snapshot_loop|].
  intros r s' [-> E].
  destruct (snapshots_of h (process_iter h)) as [rows|];
    [|destruct E as [e ->]; apply ends_ret; eauto].
  destruct (bool_decide (rows = []) || bool_decide (is_Some table));
    [|destruct E as [e ->]; apply ends_ret; eauto].
  subst r. apply ends_bind, ends_modify. cbn [fst snd].
  apply ends_bind, ends_in_world. cbn [fst snd].
  eapply ends_mono; [by apply write_log_io|].
  intros r w' [-> Hio]. apply ends_ret. eauto.
Qed.

(** X23: a snapshot is stored whole or not at all.  From a well-formed
    state [POST /api/log-snapshot] always returns an answer.  It is 200
    exactly when SQLite can be reached, every step of the enumeration
    yields a process whose name is known and whose values SQLite takes
    (the pid, the name, which must have a UTF-8 encoding, and the two
    readings), and the table exists (or there is no process at all); the
    table then grows by one row per process, in the order of the
    enumeration.  Any other run is answered 500 and leaves the table and
    the process state exactly as they were, whatever was inserted before
    the failure: one process with a hidden name, or with a name that has
    no UTF-8 encoding, loses the whole snapshot, and nothing is logged
    about it. *)
Theorem api_log_snapshot_all_or_nothing
    (h : env) (w : world) (table : option (list snapshot_row)) :
  world_ok w ->
  exists r w' table',
    api_log_snapshot h (w, table) = (Ok r, (w', table'))
    /\ ((status r = 200
         /\ io_only w w'
         /\ exists rows,
              db_reachable h = true
              /\ snapshots_of h (process_iter h) = Some rows
              /\ (process_iter h = [] \/ is_Some table)
              /\ table' = (fun t => t ++ rows) <$> table)
        \/ (status r = 500
            /\ w' = w /\ table' = table
            /\ (db_reachable h = false
                \/ snapshots_of h (process_iter h) = None
                \/ (table = None /\ process_iter h <> []))))
    /\ (forall info,
          Ok info ∈ process_iter h ->
          pi_name info = None
          \/ (exists name, pi_name info = Some name
                           /\ utf8_encodable name = false) ->
          status r = 500 /\ w' = w /\ table' = table).
Proof.
  intros Hw. pose proof (api_log_snapshot_run h w table Hw) as E.
  unfold ends in E.
  destruct (api_log_snapshot h (w, table)) as [r [w' table']].
  cbn [fst snd] in E. destruct E as (x & -> & E).
  exists x, w', table'. split; [done|].
  match goal with |- ?D /\ _ => assert (HD : D) end;
    [|split; [exact HD|];
      intros info Hin Hname;
      destruct HD as [(_ & _ & rows & _ & Hr & _)|(? & ? & ? & _)]; [|done];
      destruct (snapshots_of_all h _ rows Hr info Hin) as [row Hrow];
      by rewrite (snapshot_of_unnamed h info Hname) in Hrow].
  destruct (db_reachable h); [|right; destruct E as [? [= -> ->]]; eauto].
  destruct (snapshots_of h (process_iter h)) as [rows|] eqn:Er;
    [|right; destruct E as [? [= -> ->]]; eauto 6].
  destruct (bool_decide (rows = [])) eqn:B1; cbn [orb] in E.
  - apply bool_decide_eq_true_1 in B1. subst rows.
    destruct E as (? & ? & ?). left. split; [done|]. split; [done|].
    exists []. repeat split; try done. left. by eapply snapshots_of_nil.
  - destruct (bool_decide (is_Some table)) eqn:B2.
    + apply bool_decide_eq_true_1 in B2.
      destruct E as (? & ? & ?). left. split; [done|]. split; [done|].
      exists rows. repeat split; try done. by right.
    + apply bool_decide_eq_false_1 in B2.
      destruct E as [? [= -> ->]]. right. repeat split; try done.
      right; right. split.
      * destruct table; [exfalso; eauto | done].
      * intros Hn. rewrite Hn in Er. simpl in Er. injection Er as <-.
        by apply bool_decide_eq_false_1 in B1.
Qed.

Lemma init_db_run h w table :
  world_ok w ->
  ends (init_db h) (w, table)
    (fun r s' =>
       if db_reachable h
       then r = Ok tt /\ io_only w s'.1 /\ s'.2 = Some (default [] table)
       else r = Raise (OperationalError "unable to open database file")
            /\ s' = (w, table)).
Proof.
  intros Hw. unfold init_db, connect.
  apply ends_bind, ends_in_world.
  destruct (db_reachable h); [apply ends_ret | by apply ends_raise].
  cbn [fst snd]. apply ends_bind, ends_modify. cbn [fst snd].
  apply ends_in_world. cbn [fst snd].
  eapply ends_mono; [by apply write_log_io|].
  by intros r w' [-> Hio].
Qed.

(** X24: what [init_db] sets up and what it does not.  With SQLite
    reachable it returns, creates the table of the snapshots when it is
    missing and keeps every row of a table that is there, so running it
    again changes nothing; after it, a snapshot of processes that all
    have a known name and values SQLite takes is stored.  It does not
    create the table the metrics history reads: a history that answered
    500 before still does.  Without SQLite it raises and nothing is
    changed. *)
Theorem init_db_tables
    (h : env) (w : world) (table : option (list snapshot_row)) :
  world_ok w ->
  (db_reachable h = true ->
   exists w',
     init_db h (w, table) = (Ok tt, (w', Some (default [] table)))
     /\ io_only w w'
     /\ (forall h', (api_metrics_history h' w').1 = (api_metrics_history h' w).1)
     /\ (forall h' rows,
           db_reachable h' = true ->
           snapshots_of h' (process_iter h') = Some rows ->
           exists r w'',
             api_log_snapshot h' (w', Some (default [] table))
             = (Ok r, (w'', Some (default [] table ++ rows)))
             /\ status r = 200))
  /\ (db_reachable h = false ->
      init_db h (w, table)
      = (Raise (OperationalError "unable to open database file"), (w, table))).
Proof.
  intros Hw. pose proof (init_db_run h w table Hw) as E. unfold ends in E.
  destruct (init_db h (w, table)) as [r [w' table']]. cbn [fst snd] in E.
  split; intros Hdb; rewrite Hdb in E.
  - destruct E as (-> & Hio & ->). exists w'. split; [done|]. split; [done|].
    assert (Hw' : world_ok w') by (by eapply world_ok_io).
    split.
    + intros h'. rewrite !history_run.
      destruct Hio as (_ & _ & _ & _ & ->). reflexivity.
    + intros h' rows Hdb' Hrows.
      pose proof (api_log_snapshot_run h' w' (Some (default [] table)) Hw') as S.
      unfold ends in S.
      destruct (api_log_snapshot h' (w', Some (default [] table)))
        as [r [w'' table'']]. cbn [fst snd] in S.
      destruct S as (x & -> & S). rewrite Hdb', Hrows in S.
      rewrite (bool_decide_eq_true_2 (is_Some (Some (default [] table))))
        in S by eauto.
      rewrite orb_true_r in S. destruct S as (Hs & _ & ->).
      by exists x, w''.
  - by destruct E as [-> [= -> ->]].
Qed.

End WithSqlite.

Lemma api_log_snapshot_all_or_nothing_witness :
  world_ok (initial_world ∅)
  /\ exists r w',
       api_log_snapshot (sqlite := plain_sqlite)
         two_processes (initial_world ∅, Some [])
       = (Ok r, (w', snapshots_of (sqlite := plain_sqlite)
                       two_processes (process_iter two_processes)))
       /\ status r = 200.
Proof.
  assert (Hw : world_ok (initial_world ∅)) by (split; reflexivity).
  split; [exact Hw|].
  destruct (api_log_snapshot_all_or_nothing (sqlite := plain_sqlite)
              two_processes (initial_world ∅)
              (Some []) Hw) as (r & w' & table' & E & [H|H] & _).
  - destruct H as (Hs & _ & rows & _ & Hr & _ & ->).
    exists r, w'. split; [|exact Hs]. rewrite E, Hr. reflexivity.
  - exfalso. destruct H as (_ & _ & _ & [H|[H|[H _]]]); discriminate H.
Defined.

Lemma init_db_tables_witness :
  world_ok (initial_world ∅)
  /\ exists w',
       init_db two_processes (initial_world ∅, None) = (Ok tt, (w', Some []))
       /\ status_of (api_metrics_history two_processes w').1 = Some 500.
Proof.
  assert (Hw : world_ok (initial_world ∅)) by (split; reflexivity).
  split; [exact Hw|].
  destruct (proj1 (init_db_tables (sqlite := plain_sqlite) two_processes (initial_world ∅) None Hw)
              eq_refl) as (w' & E & _ & Hh & _).
  exists w'. split; [exact E|].
  rewrite (Hh two_processes). reflexivity.
Defined.

End SnapshotFacts.

Module ConfigTyping.
Import Config ConfigFacts ConfigMore.
Section WithStrToInt.
Context {str_to_int : StrToInt}.

(** *** A field of the wrong type makes its block raise *)

Lemma no_section_object_lookup (m : gmap string pyobj) sec s :
  no_section_object (PDict m) = true ->
  sec ∈ ["monitoring"; "thresholds"; "logging"; "ui"] ->
  m !! sec <> Some (PSection s).
Proof.
  intros H Hsec Hm. cbn [no_section_object] in H.
  rewrite forallb_forall in H. apply list_elem_of_In in Hsec.
  specialize (H sec Hsec). by rewrite Hm in H.
Qed.

Lemma untyped_monitoring_raises (m : gmap string pyobj) st :
  no_section_object (PDict m) = true ->
  section_typed (fun d => absent_or is_number d "interval_seconds") m "monitoring"
  = false ->
  ends (validate_monitoring (PDict m) (dict_copy DEFAULT_CONFIG)) st
    (fun r _ => exists e, r = Raise e).
Proof.
  intros Hj H. unfold section_typed in H.
  destruct (m !! "monitoring") as [[| | | | | | d | s]|] eqn:Hm; try discriminate H.
  - eapply ends_mono; [by apply (validate_monitoring_state m d)|].
    intros r s' [_ E]. unfold absent_or, is_number in H.
    destruct (d !! "interval_seconds") as [v|]; [|discriminate H].
    simpl in E. destruct (as_number v); [discriminate H|]. eauto.
  - exfalso. eapply no_section_object_lookup; [exact Hj| |exact Hm]. by left.
Qed.

Lemma threshold_round (m d : gmap string pyobj) key st
    (Q : result unit -> sections -> Prop) :
  m !! "thresholds" = Some (PDict d) ->
  (absent_or int_able d key = true -> forall s', Q (Ok tt) s') ->
  (absent_or int_able d key = false -> forall e s', Q (Raise e) s') ->
  ends (validate_threshold (PDict m) (dict_copy DEFAULT_CONFIG) key) st Q.
Proof.
  intros Hm H1 H2.
  eapply ends_mono; [by apply (validate_threshold_state m d)|].
  intros r s' E. unfold absent_or, int_able in H1, H2.
  destruct (d !! key) as [v|].
  - destruct (int_of v) as [z|e]; destruct E as [-> _]; auto.
  - destruct E as [-> _]. auto.
Qed.

Lemma untyped_thresholds_raises (m : gmap string pyobj) st :
  no_section_object (PDict m) = true ->
  section_typed (fun d => absent_or int_able d "cpu_alert"
                          && absent_or int_able d "memory_alert"
                          && absent_or int_able d "disk_alert") m "thresholds"
  = false ->
  ends (validate_thresholds (PDict m) (dict_copy DEFAULT_CONFIG)) st
    (fun r _ => exists e, r = Raise e).
Proof.
  intros Hj H. unfold section_typed in H.
  destruct (m !! "thresholds") as [[| | | | | | d | s]|] eqn:Hm; try discriminate H.
  2:{ exfalso. eapply no_section_object_lookup; [exact Hj| |exact Hm].
      right; by left. }
  unfold validate_thresholds.
  apply ends_bind. eapply ends_mono; [apply section_check|].
  intros r s' [-> ->]. rewrite Hm. cbn [is_dict].
  apply ends_bind, (threshold_round m d); [done| |by eauto].
  intros T1 s1. apply ends_bind, (threshold_round m d); [done| |by eauto].
  intros T2 s2. apply (threshold_round m d); [done| |by eauto].
  intros T3 s3. by rewrite T1, T2, T3 in H.
Qed.

Lemma untyped_logging_raises (m : gmap string pyobj) st :
  no_section_object (PDict m) = true ->
  section_typed (fun d => absent_or int_able d "retention_days") m "logging"
  = false ->
  ends (validate_logging (PDict m) (dict_copy DEFAULT_CONFIG)) st
    (fun r _ => exists e, r = Raise e).
Proof.
  intros Hj H. unfold section_typed in H.
  destruct (m !! "logging") as [[| | | | | | d | s]|] eqn:Hm; try discriminate H.
  - eapply ends_mono; [by apply (validate_logging_state m d)|].
    intros r s' [_ E]. unfold absent_or, int_able in H.
    destruct (d !! "retention_days") as [v|]; [|discriminate H].
    simpl in E. destruct (int_of v); [discriminate H|]. eauto.
  - exfalso. eapply no_section_object_lookup; [exact Hj| |exact Hm].
    right; right; by left.
Qed.

Lemma ends_then_raises {A B} (c : M sections A) (f : A -> M sections B) st :
  (forall a s, ends (f a) s (fun r _ => exists e, r = Raise e)) ->
  ends (c ≫= f) st (fun r _ => exists e, r = Raise e).
Proof.
  intros H. apply ends_bind. unfold ends at 1.
  destruct (c st) as [[a|e] s]; simpl; [apply H | eauto].
Qed.

Lemma ends_raises_then {A B} (c : M sections A) (f : A -> M sections B) st :
  ends c st (fun r _ => exists e, r = Raise e) ->
  ends (c ≫= f) st (fun r _ => exists e, r = Raise e).
Proof.
  intros H. apply ends_bind. eapply ends_mono; [exact H|].
  intros r s [e ->]. eauto.
Qed.

(** A JSON mapping with a recognised numeric field of a type the
    conversions refuse is not validated: the call raises. *)
Lemma validate_config_untyped_raises (m : gmap string pyobj) st :
  no_section_object (PDict m) = true ->
  well_typed (PDict m) = false ->
  exists e, (validate_config (PDict m) st).1 = Raise e.
Proof.
  intros Hj H.
  change (ends (validate_config (PDict m)) st (fun r _ => exists e, r = Raise e)).
  unfold validate_config. cbn [well_typed] in H.
  destruct (section_typed _ m "monitoring") eqn:T1;
    [|by apply ends_raises_then, untyped_monitoring_raises].
  apply ends_then_raises. intros _ s1.
  destruct (section_typed _ m "thresholds") eqn:T2;
    [|by apply ends_raises_then, untyped_thresholds_raises].
  apply ends_then_raises. intros _ s2.
  destruct (section_typed _ m "logging") eqn:T3;
    [|by apply ends_raises_then, untyped_logging_raises].
  exfalso. cbn [andb] in H. unfold section_typed in H.
  destruct (m !! "ui") as [[| | | | | | d | s]|] eqn:Hm; try discriminate H.
  eapply no_section_object_lookup; [exact Hj| |exact Hm].
  right; right; right; by left.
Qed.

(** C3, as amended: [validate_config] does raise, on a mapping with a
    recognised numeric field of a type the conversions refuse.  From
    well-formed sections, a JSON mapping is validated without an
    exception exactly when its recognised numeric fields are type-correct
    (a number for the interval, anything [int()] converts for thresholds
    and retention), whatever their range and the empty mapping included;
    and whenever [validate_config] returns, for any input at all, mapping
    or not, the config has all four sections, the interval within
    1..3600, each threshold within 0..100 and the retention within
    1..365. *)
Theorem validate_config_bounds (raw : pyobj) (st : sections) :
  sections_ok st = true ->
  (well_typed raw = true -> returns_in_bounds raw st)
  /\ (forall m, raw = PDict m ->
        no_section_object raw = true -> well_typed raw = false ->
        exists e, (validate_config raw st).1 = Raise e)
  /\ (forall cfg st',
        validate_config raw st = (Ok cfg, st') ->
        populated_in_bounds st' cfg = true)
  /\ returns_in_bounds (PDict ∅) st.
Proof.
  intros Hst.
  assert (B : forall raw cfg st',
             validate_config raw st = (Ok cfg, st') ->
             populated_in_bounds st' cfg = true).
  { intros raw' cfg st' E.
    rewrite (validate_config_value _ _ _ _ E).
    apply sections_ok_in_bounds.
    pose proof (validate_config_keeps raw' st Hst) as K.
    rewrite E in K. exact K. }
  split; [|split; [|split]].
  - intros Hty. destruct (validate_config_returns raw st Hty) as [st' E].
    exists DEFAULT_CONFIG, st'. split; [exact E | by eapply B].
  - intros m -> Hj Hty. by apply validate_config_untyped_raises.
  - apply B.
  - exists DEFAULT_CONFIG, st. split; [reflexivity|].
    by apply sections_ok_in_bounds.
Qed.

End WithStrToInt.

Lemma validate_config_bounds_witness :
  sections_ok DEFAULT_SECTIONS = true
  /\ well_typed (str_to_int := decimal_int) wild_config = true
  /\ returns_in_bounds (str_to_int := decimal_int) wild_config DEFAULT_SECTIONS.
Proof.
  split; [vm_compute; reflexivity|]. split; [vm_compute; reflexivity|].
  apply (validate_config_bounds (str_to_int := decimal_int)
           wild_config DEFAULT_SECTIONS); vm_compute; reflexivity.
Defined.

End ConfigTyping.

Module EnumClaims.
Import Server LogFacts EnumFacts Logs LogsFacts.
Section WithLower.
Context {lowering : StrLower}.

Lemma trace_skipping {A} (steps : list (result A)) :
  generator_trace steps = true -> skipping_failures steps = before_failure steps.
Proof.
  induction steps as [|[a|e] rest IH]; simpl; intros H.
  - reflexivity.
  - by rewrite IH.
  - by destruct rest.
Qed.

Lemma trace_yielded {A} (steps : list (result A)) (a : A) :
  generator_trace steps = true -> Ok a ∈ steps -> a ∈ before_failure steps.
Proof.
  induction steps as [|[b|e] rest IH]; simpl; intros H Hin.
  - by apply elem_of_nil in Hin.
  - apply elem_of_cons in Hin as [[= ->]|Hin]; [by left | right; auto].
  - destruct rest; [|discriminate H].
    apply elem_of_cons in Hin as [Hin|Hin]; [discriminate Hin|].
    by apply elem_of_nil in Hin.
Qed.

Lemma before_failure_yielded {A} (steps : list (result A)) (a : A) :
  a ∈ before_failure steps -> Ok a ∈ steps.
Proof.
  induction steps as [|[b|e] rest IH]; simpl; intros Hin.
  - by apply elem_of_nil in Hin.
  - apply elem_of_cons in Hin as [->|Hin]; [by left | right; auto].
  - by apply elem_of_nil in Hin.
Qed.

Lemma api_processes_run (h : env) (w : world) :
  world_ok w ->
  exists w',
    api_processes h w
    = (Ok (ok_response (PList (listing (before_failure (process_iter h))))), w')
    /\ io_only w w'
    /\ match first_failure (process_iter h) with
       | Some e =>
           write_log h "ERROR" ("Process enumeration failed: " +:+ exn_str e) [] w
           = (Ok tt, w')
       | None => w' = w
       end.
Proof.
  intros Hw. unfold api_processes. rewrite enumerate_spec. simpl.
  destruct (first_failure (process_iter h)) as [e|].
  - pose proof (write_log_io h "ERROR"
                  ("Process enumeration failed: " +:+ exn_str e) [] w Hw) as E.
    unfold ends in E. unfold mbind, M_bind.
    destruct (write_log _ _ _ _ w) as [r w']. simpl in E.
    destruct E as [-> Hio]. eauto.
  - exists w. split; [reflexivity|]. split; [apply io_only_refl | done].
Qed.


End WithLower.


End EnumClaims.

